(** * financeapp: the Fund model and the performance calculator

    A shallow embedding of [core.py] (class [Fund]) and of the
    calculation part of [financeapp.py] (class [FundTracker]):
    [parse_fund_data], [generate_fund_performance_str],
    [day_performance], [week_performance], [year_performance] and
    [calculate_percentage], then [instantiate_funds] and
    [custom_range_performance] over any data provider.

    Conventions of the embedding.
    - A Python call that can raise returns a [result]: [Ok v] for a
      normal return, [Raise e] for an exception of class [e].
    - Prices are Python floats or [None].  A float is an IEEE 754 binary64
      number, modelled by [spec_float] of the Standard Library with
      precision 53 and maximal exponent 1024: its operations round to
      nearest, ties to even, as the floats of Python do, and they compute.
    - Strings are ASCII strings.
    - A [datetime.date] is modelled by its proleptic Gregorian ordinal
      ([date.toordinal()]); [strptime] and [str] convert from and to the
      [yyyy-mm-dd] text through the calendar functions of the [datetime]
      module.
    - Calls to [log.debug] and [log.warning] only write to the log and are
      left out; their arguments are evaluated all the same, and the one
      that can raise is kept: the message of [Fund.__eq__] formats
      [other], which for a fund is a call of [Fund.__str__]. *)

From Stdlib Require Import ZArith List String Ascii Bool Lia.
From Stdlib Require Import DecimalString SpecFloat.
Import ListNotations.

Local Open Scope string_scope.
Local Open Scope list_scope.
Local Open Scope Z_scope.

Infix "+++" := String.append (at level 60, right associativity).

(* ===================================================================== *)
(** ** Python exceptions and fallible computations *)
(* ===================================================================== *)

Module Py.

(** The exception classes that the modelled code can raise.  [CoreError] is
    the class defined in [core.py]; the others are built in. *)
Inductive exn : Type :=
| IndexError
| KeyError
| TypeError
| ValueError
| AttributeError
| ZeroDivisionError
| OverflowError
| UnboundLocalError
| CoreError.

Inductive result (A : Type) : Type :=
| Ok (a : A)
| Raise (e : exn).

Arguments Ok {A} a.
Arguments Raise {A} e.

Definition bind {A B : Type} (c : result A) (k : A -> result B) : result B :=
  match c with
  | Ok a => k a
  | Raise e => Raise e
  end.

Definition returns {A : Type} (c : result A) : Prop := exists a, c = Ok a.
Definition raises {A : Type} (c : result A) : Prop := exists e, c = Raise e.

End Py.
Export Py.

Declare Scope py_scope.
Delimit Scope py_scope with py.
Notation "x <- c ;; k" := (bind c (fun x => k))
  (at level 61, c at next level, right associativity) : py_scope.
Local Open Scope py_scope.

(* ===================================================================== *)
(** ** Python sequences: indexing from either end *)
(* ===================================================================== *)

(** [l[i]] for a list [l] and an integer [i]: a negative index counts from
    the end, and an index out of range raises [IndexError]. *)
Definition py_index {A : Type} (l : list A) (i : Z) : result A :=
  let n := Z.of_nat (List.length l) in
  let j := if i <? 0 then i + n else i in
  if (0 <=? j) && (j <? n) then
    match nth_error l (Z.to_nat j) with
    | Some a => Ok a
    | None => Raise IndexError
    end
  else Raise IndexError.

(* ===================================================================== *)
(** ** Python strings *)
(* ===================================================================== *)

Definition newline : string := String (ascii_of_nat 10) EmptyString.

(** [str.upper()] on ASCII text. *)
Definition upper_ascii (c : ascii) : ascii :=
  let n := nat_of_ascii c in
  if (97 <=? n)%nat && (n <=? 122)%nat then ascii_of_nat (n - 32) else c.

Fixpoint upper (s : string) : string :=
  match s with
  | EmptyString => EmptyString
  | String c s' => String (upper_ascii c) (upper s')
  end.

(** Decimal text of a natural number, and the same padded with zeros on the
    left up to a width (the [%0wd] conversion). *)
Definition str_of_N (n : N) : string := NilZero.string_of_uint (N.to_uint n).

Fixpoint zeros (k : nat) : string :=
  match k with
  | O => EmptyString
  | S k' => String "0" (zeros k')
  end.

Definition zero_pad (width : nat) (n : N) : string :=
  let s := str_of_N n in
  zeros (width - String.length s) +++ s.

(* ===================================================================== *)
(** ** The [datetime] module: dates, time deltas, parsing and printing *)
(* ===================================================================== *)

Module Datetime.

(** A [datetime.date], by its proleptic Gregorian ordinal: 0001-01-01 is
    day 1. *)
Record date : Type := fromordinal { toordinal : Z }.

(** A [datetime.timedelta] built from days and weeks only. *)
Record timedelta : Type := mk_timedelta { td_days : Z }.

(** [timedelta(days=d, weeks=w)]. *)
Definition timedelta_of (days weeks : Z) : timedelta :=
  mk_timedelta (days + 7 * weeks).

Definition MINYEAR : Z := 1.
Definition MAXYEAR : Z := 9999.
Definition MAXORDINAL : Z := 3652059.

Definition date_eqb (a b : date) : bool := toordinal a =? toordinal b.
Definition date_leb (a b : date) : bool := toordinal a <=? toordinal b.

(** [d - td] for a date and a time delta: the ordinal moves back by the days
    of the delta, and a result outside 0001-01-01 .. 9999-12-31 raises
    [OverflowError]. *)
Definition date_sub (d : date) (td : timedelta) : result date :=
  let o := toordinal d - td_days td in
  if (0 <? o) && (o <=? MAXORDINAL) then Ok (fromordinal o)
  else Raise OverflowError.

(** The calendar arithmetic of the module. *)
Definition is_leap (year : Z) : bool :=
  (year mod 4 =? 0) && (negb (year mod 100 =? 0) || (year mod 400 =? 0)).

Definition days_before_year (year : Z) : Z :=
  let y := year - 1 in
  y * 365 + y / 4 - y / 100 + y / 400.

Definition DAYS_IN_MONTH : list Z :=
  [-1; 31; 28; 31; 30; 31; 30; 31; 31; 30; 31; 30; 31].

Definition DAYS_BEFORE_MONTH : list Z :=
  [-1; 0; 31; 59; 90; 120; 151; 181; 212; 243; 273; 304; 334].

Definition days_in_month (year month : Z) : Z :=
  if (month =? 2) && is_leap year then 29
  else nth (Z.to_nat month) DAYS_IN_MONTH 0.

Definition days_before_month (year month : Z) : Z :=
  nth (Z.to_nat month) DAYS_BEFORE_MONTH 0
  + (if (2 <? month) && is_leap year then 1 else 0).

Definition ymd2ord (year month day : Z) : Z :=
  days_before_year year + days_before_month year month + day.

Definition DI400Y : Z := Eval cbv in days_before_year 401.
Definition DI100Y : Z := Eval cbv in days_before_year 101.
Definition DI4Y : Z := Eval cbv in days_before_year 5.

Definition ord2ymd (ordinal : Z) : Z * Z * Z :=
  let n := ordinal - 1 in
  let n400 := n / DI400Y in
  let n := n mod DI400Y in
  let year := n400 * 400 + 1 in
  let n100 := n / DI100Y in
  let n := n mod DI100Y in
  let n4 := n / DI4Y in
  let n := n mod DI4Y in
  let n1 := n / 365 in
  let n := n mod 365 in
  let year := year + n100 * 100 + n4 * 4 + n1 in
  if (n1 =? 4) || (n100 =? 4) then (year - 1, 12, 31)
  else
    let leapyear := (n1 =? 3) && (negb (n4 =? 24) || (n100 =? 3)) in
    let month := Z.shiftr (n + 50) 5 in
    let preceding :=
      nth (Z.to_nat month) DAYS_BEFORE_MONTH 0
      + (if (2 <? month) && leapyear then 1 else 0) in
    if n <? preceding then
      let month := month - 1 in
      let preceding :=
        preceding
        - (nth (Z.to_nat month) DAYS_IN_MONTH 0
           + (if (month =? 2) && leapyear then 1 else 0)) in
      (year, month, n - preceding + 1)
    else (year, month, n - preceding + 1).

(** [date(year, month, day)]: the fields are checked, then stored. *)
Definition date_of_ymd (year month day : Z) : result date :=
  if (MINYEAR <=? year) && (year <=? MAXYEAR)
     && (1 <=? month) && (month <=? 12)
     && (1 <=? day) && (day <=? days_in_month year month)
  then Ok (fromordinal (ymd2ord year month day))
  else Raise ValueError.

(** [str(d)], the ISO text [yyyy-mm-dd]. *)
Definition isoformat (d : date) : string :=
  let '(y, m, dd) := ord2ymd (toordinal d) in
  zero_pad 4 (Z.to_N y) +++ "-" +++ zero_pad 2 (Z.to_N m)
    +++ "-" +++ zero_pad 2 (Z.to_N dd).

(** *** [datetime.strptime(text, '%Y-%m-%d').date()]

    The directives are matched in order by the patterns of [_strptime]:
    [%Y] is four digits, [%m] is [1[0-2]|0[1-9]|[1-9]], [%d] is
    [3[01]|[12]\d|0[1-9]|[1-9]| [1-9]], with a literal [-] between them;
    text left over after the day, or no match, raises [ValueError], and so
    does a day that the month does not have. *)

Definition digit_of (c : ascii) : option Z :=
  let n := Z.of_nat (nat_of_ascii c) in
  if (48 <=? n) && (n <=? 57) then Some (n - 48) else None.

Definition digit_in (lo hi : Z) (c : ascii) : option Z :=
  match digit_of c with
  | Some v => if (lo <=? v) && (v <=? hi) then Some v else None
  | None => None
  end.

Definition parse_Y (s : string) : option (Z * string) :=
  match s with
  | String a (String b (String c (String d rest))) =>
      match digit_of a, digit_of b, digit_of c, digit_of d with
      | Some x, Some y, Some z, Some w =>
          Some (x * 1000 + y * 100 + z * 10 + w, rest)
      | _, _, _, _ => None
      end
  | _ => None
  end.

(** Two characters [c1 c2] with [c1] the given digit and [c2] a digit in
    [lo..hi]. *)
Definition two_digits (tens : Z) (lo hi : Z) (s : string)
  : option (Z * string) :=
  match s with
  | String c1 (String c2 rest) =>
      match digit_in tens tens c1, digit_in lo hi c2 with
      | Some t, Some u => Some (t * 10 + u, rest)
      | _, _ => None
      end
  | _ => None
  end.

Definition one_digit (lo hi : Z) (s : string) : option (Z * string) :=
  match s with
  | String c rest =>
      match digit_in lo hi c with
      | Some u => Some (u, rest)
      | None => None
      end
  | _ => None
  end.

Definition space_digit (s : string) : option (Z * string) :=
  match s with
  | String c rest =>
      if Ascii.eqb c " "%char then one_digit 1 9 rest else None
  | _ => None
  end.

Definition literal_dash (s : string) : option string :=
  match s with
  | String c rest => if Ascii.eqb c "-"%char then Some rest else None
  | _ => None
  end.

(** The first alternative that matches, in the order of the pattern. *)
Fixpoint first_match (alts : list (string -> option (Z * string)))
  (s : string) : option (Z * string) :=
  match alts with
  | [] => None
  | p :: alts' =>
      match p s with
      | Some r => Some r
      | None => first_match alts' s
      end
  end.

Definition parse_m : string -> option (Z * string) :=
  first_match [two_digits 1 0 2; two_digits 0 1 9; one_digit 1 9].

Definition parse_d : string -> option (Z * string) :=
  first_match [two_digits 3 0 1; two_digits 1 0 9; two_digits 2 0 9;
               two_digits 0 1 9; one_digit 1 9; space_digit].

Definition strptime_date (text : string) : result date :=
  match parse_Y text with
  | None => Raise ValueError
  | Some (year, s1) =>
  match literal_dash s1 with
  | None => Raise ValueError
  | Some s2 =>
  match parse_m s2 with
  | None => Raise ValueError
  | Some (month, s3) =>
  match literal_dash s3 with
  | None => Raise ValueError
  | Some s4 =>
  match parse_d s4 with
  | None => Raise ValueError
  | Some (day, EmptyString) => date_of_ymd year month day
  | Some (_, String _ _) => Raise ValueError
  end end end end end.

End Datetime.
Export Datetime.

(* ===================================================================== *)
(** ** Python values: numbers, [None], and provider payloads *)
(* ===================================================================== *)

(** *** Floats *)

Module Binary64.

Definition prec : Z := 53.
Definition emax : Z := 1024.

Definition float : Type := spec_float.

Definition zero : float := S754_zero false.

(** The float of an integer, as [float(z)] gives it. *)
Definition float_of_Z (z : Z) : float := binary_normalize prec emax z 0 false.

Definition hundred : float := Eval cbv in float_of_Z 100.

Definition fsub : float -> float -> float := SFsub prec emax.
Definition fdiv : float -> float -> float := SFdiv prec emax.
Definition fmul : float -> float -> float := SFmul prec emax.
Definition fabs : float -> float := SFabs.
Definition fopp : float -> float := SFopp.
Definition feqb : float -> float -> bool := SFeqb.
Definition fltb : float -> float -> bool := SFltb.

(** The float written [n / 10^k] in decimal, for instance [decimal 7842 2]
    for [78.42]: both [n] and [10^k] are floats without rounding in the
    range used here, so their quotient is the float nearest to the decimal
    number, which is what reading the literal gives. *)
Definition decimal (n : Z) (k : Z) : float :=
  fdiv (float_of_Z n) (float_of_Z (10 ^ k)).

(** The numbers that can be prices: the zeros and the positive finite
    floats in canonical form. *)
Definition is_price (x : float) : bool :=
  match x with
  | S754_zero _ => true
  | S754_finite false m e => bounded prec emax m e
  | _ => false
  end.

End Binary64.
Export Binary64.

(** A price as the provider reports it: a float, or [None] when the close
    of the day is not known yet. *)
Definition price : Type := option float.

(** [a == b]: [None] equals only [None]. *)
Definition py_eq (a b : price) : bool :=
  match a, b with
  | None, None => true
  | Some x, Some y => feqb x y
  | _, _ => false
  end.

(** [a > b] and [a < b]: ordering [None] raises [TypeError]. *)
Definition py_gt (a b : price) : result bool :=
  match a, b with
  | Some x, Some y => Ok (fltb y x)
  | _, _ => Raise TypeError
  end.

Definition py_lt (a b : price) : result bool :=
  match a, b with
  | Some x, Some y => Ok (fltb x y)
  | _, _ => Raise TypeError
  end.

(** [a - b]. *)
Definition py_sub (a b : price) : result float :=
  match a, b with
  | Some x, Some y => Ok (fsub x y)
  | _, _ => Raise TypeError
  end.

(** [a / b]: a zero divisor raises [ZeroDivisionError]. *)
Definition py_truediv (a b : price) : result float :=
  match a, b with
  | Some x, Some y =>
      if feqb y zero then Raise ZeroDivisionError else Ok (fdiv x y)
  | _, _ => Raise TypeError
  end.

(** Truth value: [None] and the zeros are false. *)
Definition py_bool (a : price) : bool :=
  match a with
  | None => false
  | Some x => negb (feqb x zero)
  end.

(** ['{:.2f}'.format(a)]: the exact value of the float with two decimals,
    rounded to nearest with ties to even, with a minus sign when the sign
    bit is set; [None] has no such format and raises [TypeError]. *)
Definition round_half_even (num den : Z) : Z :=
  let a := num / den in
  let r := num mod den in
  match 2 * r ?= den with
  | Lt => a
  | Gt => a + 1
  | Eq => if Z.even a then a else a + 1
  end.

Definition sign_text (s : bool) : string := if s then "-" else "".

Definition format_2f_float (x : float) : string :=
  match x with
  | S754_nan => "nan"
  | S754_infinity s => sign_text s +++ "inf"
  | S754_zero s => sign_text s +++ "0.00"
  | S754_finite s m e =>
      let hundredths :=
        if 0 <=? e then Zpos m * 2 ^ e * 100
        else round_half_even (Zpos m * 100) (2 ^ (- e)) in
      sign_text s
        +++ str_of_N (Z.to_N (hundredths / 100))
        +++ "." +++ zero_pad 2 (Z.to_N (hundredths mod 100))
  end.

Definition format_2f (a : price) : result string :=
  match a with
  | Some x => Ok (format_2f_float x)
  | None => Raise TypeError
  end.

(** The values a decoded provider response is made of.  A [dict] keeps its
    keys in insertion order. *)
#[local] Set Warnings "-register-all".
Inductive pyval : Type :=
| PNone
| PBool (b : bool)
| PInt (z : Z)
| PFloat (x : float)
| PStr (s : string)
| PList (l : list pyval)
| PDict (items : list (string * pyval)).

(** [v[k]] for a string key [k]: a [dict] looks the key up and raises
    [KeyError] when it is missing; no other value here accepts a string
    subscript. *)
Fixpoint assoc (k : string) (items : list (string * pyval)) : option pyval :=
  match items with
  | [] => None
  | (k', v) :: items' => if String.eqb k k' then Some v else assoc k items'
  end.

Definition py_getitem (v : pyval) (k : string) : result pyval :=
  match v with
  | PDict items =>
      match assoc k items with
      | Some x => Ok x
      | None => Raise KeyError
      end
  | _ => Raise TypeError
  end.

(** [tuple(v.keys())]: only a [dict] has [keys]. *)
Definition py_keys (v : pyval) : result (list string) :=
  match v with
  | PDict items => Ok (map fst items)
  | _ => Raise AttributeError
  end.

(** The elements [for x in v] goes through: the items of a list, the keys of
    a [dict], the characters of a string. *)
Fixpoint chars (s : string) : list pyval :=
  match s with
  | EmptyString => []
  | String c s' => PStr (String c EmptyString) :: chars s'
  end.

Definition py_iter (v : pyval) : result (list pyval) :=
  match v with
  | PList l => Ok l
  | PDict items => Ok (map (fun kv => PStr (fst kv)) items)
  | PStr s => Ok (chars s)
  | _ => Raise TypeError
  end.

(** [for x in l] collecting [f x], stopping at the first exception. *)
Fixpoint mapM {A B : Type} (f : A -> result B) (l : list A)
  : result (list B) :=
  match l with
  | [] => Ok []
  | a :: l' =>
      b <- f a ;;
      bs <- mapM f l' ;;
      Ok (b :: bs)
  end.

(* ===================================================================== *)
(** ** [core.py]: class [Fund] *)
(* ===================================================================== *)

(** The attributes of a [Fund] object.  [dates_prices] is the list of
    [[date, price]] pairs in the order the constructor received them. *)
Record Fund : Type := mkFund {
  symbol : string;
  currency : string;
  instrument_type : string;
  dates_prices : list (date * price);
  name : option string
}.

(** [Fund.__init__(self, symbol, currency, instrument_type, dates_prices,
    name=None)]. *)
Definition Fund_init (symbol currency instrument_type : string)
  (dates_prices : list (string * price)) (name : option string)
  : result Fund :=
  dps <- mapM (fun dp => d <- strptime_date (fst dp) ;; Ok (d, snd dp))
              dates_prices ;;
  Ok (mkFund (upper symbol) (upper currency) (upper instrument_type) dps name).

(** [Fund.__repr__(self)]. *)
Definition Fund_repr (self : Fund) : string := symbol self.

(** [self.name or '']. *)
Definition name_or_empty (self : Fund) : string :=
  match name self with
  | Some n => n
  | None => ""
  end.

(** [Fund.__str__(self)]. *)
Definition Fund_str (self : Fund) : result string :=
  latest <- py_index (dates_prices self) (-1) ;;
  formatted_price <-
    (if py_bool (snd latest) then format_2f (snd latest)
     else
       previous <- py_index (dates_prices self) (-2) ;;
       format_2f (snd previous)) ;;
  Ok (symbol self +++ " - " +++ name_or_empty self +++ newline
      +++ currency self +++ " - " +++ instrument_type self +++ newline
      +++ "Latest price: " +++ isoformat (fst latest)
      +++ " - $" +++ formatted_price).

(** The right operand of [fund == other]: another [Fund], or any other
    Python value. *)
Inductive operand : Type :=
| OFund (f : Fund)
| OVal (v : pyval).


Definition isinstance_str (other : operand) : bool :=
  match other with
  | OVal (PStr _) => true
  | _ => false
  end.

(** [Fund.__eq__(self, other)].  The method starts by logging an f-string
    with [{other}] in it, which is evaluated before any branch: for a fund
    it is [str(other)], that is [Fund.__str__], and what that raises
    leaves the method; a string and the other values are formatted without
    an exception. *)
Definition Fund_eq (self : Fund) (other : operand) : result bool :=
  match other with
  | OFund o =>
      _ <- Fund_str o ;;
      Ok (if String.eqb (symbol self) (symbol o) then true else false)
  | OVal (PStr s) => Ok (if String.eqb (symbol self) s then true else false)
  | OVal _ => Raise CoreError
  end.

(* ===================================================================== *)
(** ** [financeapp.py]: class [FundTracker] *)
(* ===================================================================== *)

(** [FundTracker.calculate_percentage(self, first_price, last_price)].  The
    last [else] is the path on which no branch assigns [difference]. *)
Definition calculate_percentage (first_price last_price : price)
  : result float :=
  if py_eq first_price last_price then Ok zero
  else
    gt <- py_gt first_price last_price ;;
    if gt then
      delta <- py_sub first_price last_price ;;
      ratio <- py_truediv (Some delta) first_price ;;
      let difference := fmul ratio hundred in
      Ok (fopp (fabs difference))
    else
      lt <- py_lt first_price last_price ;;
      if lt then
        delta <- py_sub last_price first_price ;;
        ratio <- py_truediv (Some delta) last_price ;;
        Ok (fmul ratio hundred)
      else Raise UnboundLocalError.

(** The loop shared by the three lookups:
    [for date_price in fund.dates_prices:
       if date_price[0] == target: found = date_price],
    started with [found = None]. *)
Definition scan_step (target : date) (found : option (date * price))
  (date_price : date * price) : option (date * price) :=
  if date_eqb (fst date_price) target then Some date_price else found.

Definition scan (target : date) (points : list (date * price))
  : option (date * price) :=
  fold_left (scan_step target) points None.

(** [FundTracker.day_performance(self, fund)]. *)
Definition day_performance (fund : Fund) : result (option float * Fund) :=
  most_current <- py_index (dates_prices fund) (-1) ;;
  let latest_date := fst most_current in
  day_ago_price <- date_sub latest_date (timedelta_of 1 0) ;;
  let day_before := scan day_ago_price (dates_prices fund) in
  match day_before with
  | Some before =>
      difference <- calculate_percentage (snd before) (snd most_current) ;;
      Ok (Some difference, fund)
  | None => Ok (None, fund)
  end.

(** [FundTracker.week_performance(self, fund)]. *)
Definition week_performance (fund : Fund) : result (option float * Fund) :=
  most_current <- py_index (dates_prices fund) (-1) ;;
  let latest_date := fst most_current in
  week_ago_date <- date_sub latest_date (timedelta_of 0 1) ;;
  let week_before := scan week_ago_date (dates_prices fund) in
  match week_before with
  | Some before =>
      difference <- calculate_percentage (snd before) (snd most_current) ;;
      Ok (Some difference, fund)
  | None => Ok (None, fund)
  end.

(** [FundTracker.year_performance(self, fund)]. *)
Definition year_performance (fund : Fund) : result (option float * Fund) :=
  most_current <- py_index (dates_prices fund) (-1) ;;
  let latest_date := fst most_current in
  year_ago_date <- date_sub latest_date (timedelta_of 0 52) ;;
  let year_before := scan year_ago_date (dates_prices fund) in
  match year_before with
  | Some before =>
      difference <- calculate_percentage (snd before) (snd most_current) ;;
      Ok (Some difference, fund)
  | None => Ok (None, fund)
  end.

(** [FundTracker.generate_fund_performance_str(self, fund, day=True,
    week=True, year=True)]. *)
Definition generate_fund_performance_str (fund : Fund)
  (day week year : bool) : result string :=
  performance <- Fund_str fund ;;
  performance <-
    (if day then
       r <- day_performance fund ;;
       day_change <- format_2f (fst r) ;;
       Ok (performance +++ newline
           +++ "Previous 24 hours: " +++ day_change +++ "%")
     else Ok performance) ;;
  performance <-
    (if week then
       r <- week_performance fund ;;
       week_change <- format_2f (fst r) ;;
       Ok (performance +++ newline
           +++ "Previous week: " +++ week_change +++ "%")
     else Ok performance) ;;
  performance <-
    (if year then
       r <- year_performance fund ;;
       year_change <- format_2f (fst r) ;;
       Ok (performance +++ newline
           +++ "Previous year: " +++ year_change +++ "%")
     else Ok performance) ;;
  Ok performance.

(** [FundTracker.parse_fund_data(self, data)].  The list it builds is
    [[symbol, currency, instrument_type, dates_prices]]; [None or x] is [x]
    for a non-empty list [x]. *)
Record fund_data : Type := mk_fund_data {
  fd_symbol : string;
  fd_currency : pyval;
  fd_instrument_type : pyval;
  fd_dates_prices : list (pyval * pyval)
}.

Definition py_or_list {A : Type} (a b : option A) : option A :=
  match a with
  | Some x => Some x
  | None => b
  end.

Definition parse_fund_data (data : pyval) : result (option fund_data) :=
  key <- py_keys data ;;
  symbol <- py_index key 0 ;;
  entry <- py_getitem data symbol ;;
  currency <- py_getitem entry "currency" ;;
  entry <- py_getitem data symbol ;;
  instrument_type <- py_getitem entry "instrumentType" ;;
  entry <- py_getitem data symbol ;;
  all_dates_prices <- py_getitem entry "prices" ;;
  days <- py_iter all_dates_prices ;;
  dates_prices <-
    mapM (fun day =>
            formatted_date <- py_getitem day "formatted_date" ;;
            close <- py_getitem day "close" ;;
            Ok (formatted_date, close)) days ;;
  let desired_data :=
    mk_fund_data symbol currency instrument_type dates_prices in
  Ok (py_or_list None (Some desired_data)).

(* ===================================================================== *)
(** ** Vocabulary of the statements *)
(* ===================================================================== *)

(** The three fixed windows, the lookup of each, and the number of days each
    one looks back. *)
Inductive window : Type := Day | Week | Year.

Definition lookup (w : window) (fund : Fund) : result (option float * Fund) :=
  match w with
  | Day => day_performance fund
  | Week => week_performance fund
  | Year => year_performance fund
  end.

(** What a lookup answers once the current point and the target date are
    known. *)
Definition compare_with (fund : Fund) (current : date * price)
  (found : option (date * price)) : result (option float * Fund) :=
  match found with
  | Some before =>
      difference <- calculate_percentage (snd before) (snd current) ;;
      Ok (Some difference, fund)
  | None => Ok (None, fund)
  end.

Definition window_days (w : window) : Z :=
  match w with
  | Day => 1
  | Week => 7
  | Year => 364
  end.

(** Orderings of a series by date: each point and the next one are in the
    given order. *)
Fixpoint ordered_by (le : date -> date -> bool)
  (points : list (date * price)) : bool :=
  match points with
  | [] => true
  | p :: rest =>
      match rest with
      | [] => true
      | q :: _ => le (fst p) (fst q) && ordered_by le rest
      end
  end.

Definition ascending_by_date : list (date * price) -> bool :=
  ordered_by date_leb.

Definition descending_by_date : list (date * price) -> bool :=
  ordered_by (fun a b => date_leb b a).

(** [p] is a most recent point of the series: it is in it and no point has
    a later date. *)
Definition most_recent (points : list (date * price)) (p : date * price)
  : Prop :=
  In p points /\ forall q, In q points -> date_leb (fst q) (fst p) = true.

(** The lookback of the spec's words: the current point is the FIRST point
    of the series (the most recent one of a series ordered most recent
    first), and the answer is absent exactly when no point is dated
    [current.date - window]. *)
Definition lookup_most_recent_first (w : window) (fund : Fund) : Prop :=
  forall current target,
    hd_error (dates_prices fund) = Some current ->
    date_sub (fst current) (mk_timedelta (window_days w)) = Ok target ->
    (lookup w fund = Ok (None, fund)
     <-> forall p, In p (dates_prices fund) -> fst p <> target).

(** A float of sign [s] that is not zero and not a NaN, and whose
    magnitude, the number of binary digits of its mantissa plus its
    exponent, is at least [B] when it is finite. *)
Definition pos_result (s : bool) (B : Z) (r : spec_float) : Prop :=
  r = S754_infinity s
  \/ exists m e, r = S754_finite s m e /\ B <= Z.log2 (Zpos m) + 1 + e.

(** Sample prices: 100.0, 80.0, 50.0 and 78.42. *)
Definition price_100 : price := Some (float_of_Z 100).
Definition price_80 : price := Some (float_of_Z 80).
Definition price_50 : price := Some (float_of_Z 50).
Definition price_78_42 : price := Some (decimal 7842 2).

(** Sample series, dates as ordinals: 738250 is 2022-04-05. *)
Definition d_2022_04_05 : date := fromordinal 738250.
Definition d_2022_04_04 : date := fromordinal 738249.
Definition d_2022_03_29 : date := fromordinal 738243.

(** Two days, most recent first. *)
Definition fund_recent_first : Fund :=
  mkFund "F" "USD" "STOCK"
    [(d_2022_04_05, price_100); (d_2022_04_04, price_80)] None.

(** A week apart, most recent first, and the same most recent last. *)
Definition fund_week_recent_first : Fund :=
  mkFund "F" "USD" "STOCK"
    [(d_2022_04_05, price_100); (d_2022_03_29, price_80)] None.

Definition fund_week_recent_last : Fund :=
  mkFund "F" "USD" "STOCK"
    [(d_2022_03_29, price_80); (d_2022_04_05, price_100)] None.

(** A single day of history. *)
Definition fund_single_day : Fund :=
  mkFund "F" "USD" "STOCK" [(d_2022_04_05, price_78_42)] None.

(** Two points on the day before the latest one. *)
Definition fund_repeated_day : Fund :=
  mkFund "F" "USD" "STOCK"
    [(d_2022_04_04, price_50); (d_2022_04_04, price_80);
     (d_2022_04_05, price_100)] None.

(** Provider payloads: a well-formed one, and one whose entry has no
    ['prices'] key. *)
Definition payload_ok : pyval :=
  PDict [("F", PDict [("currency", PStr "usd");
                      ("instrumentType", PStr "stock");
                      ("prices",
                       PList [PDict [("formatted_date", PStr "2022-04-05");
                                     ("close", PFloat (decimal 7842 2))]])])].

Definition payload_without_prices : pyval :=
  PDict [("F", PDict [("currency", PStr "USD");
                      ("instrumentType", PStr "EQUITY")])].

Definition payload_null_entry : pyval := PDict [("F", PNone)].

(* ===================================================================== *)
(** ** [financeapp.py]: loading the funds and the custom range *)
(* ===================================================================== *)

(** Truth value of a payload value, as [if not data] tests it. *)
Definition py_truth (v : pyval) : bool :=
  match v with
  | PNone => false
  | PBool b => b
  | PInt z => negb (z =? 0)
  | PFloat x => negb (feqb x zero)
  | PStr s => negb (String.eqb s "")
  | PList l => match l with [] => false | _ :: _ => true end
  | PDict items => match items with [] => false | _ :: _ => true end
  end.

(** [v.upper()]: only a string has the method. *)
Definition str_upper (v : pyval) : result string :=
  match v with
  | PStr s => Ok (upper s)
  | _ => Raise AttributeError
  end.

(** [datetime.strptime(v, DATE_FORMAT).date()]: the argument must be a
    string. *)
Definition strptime_value (v : pyval) : result date :=
  match v with
  | PStr text => strptime_date text
  | _ => Raise TypeError
  end.

(** The price that a close of the payload is.  The prices of a [Fund] of
    this model are floats or [None], as the docstring of the class has
    them; a close of another type has no counterpart here. *)
Definition price_of_close (v : pyval) : option price :=
  match v with
  | PNone => Some None
  | PFloat x => Some (Some x)
  | _ => None
  end.

Fixpoint prices_of_closes (points : list (date * pyval))
  : option (list (date * price)) :=
  match points with
  | [] => Some []
  | (d, v) :: rest =>
      match price_of_close v, prices_of_closes rest with
      | Some p, Some ps => Some ((d, p) :: ps)
      | _, _ => None
      end
  end.

(** The call of [Fund] with the elements of [fund_data] as arguments, a
    name having been appended to them or not: [Fund.__init__] on the list
    that [parse_fund_data] builds, with the
    attributes as they come out of the payload.  The answer is [None] when
    the construction raises nothing and some close is neither a float nor
    [None]: that fund is outside this model, and nothing is stated about
    it. *)
Definition Fund_of_data (d : fund_data) (name : option string)
  : option (result Fund) :=
  match str_upper (fd_currency d) with
  | Raise e => Some (Raise e)
  | Ok currency =>
  match str_upper (fd_instrument_type d) with
  | Raise e => Some (Raise e)
  | Ok instrument_type =>
  match mapM (fun dp => dt <- strptime_value (fst dp) ;; Ok (dt, snd dp))
          (fd_dates_prices d) with
  | Raise e => Some (Raise e)
  | Ok dated =>
      match prices_of_closes dated with
      | Some points =>
          Some (Ok (mkFund (upper (fd_symbol d)) currency instrument_type
                      points name))
      | None => None
      end
  end end end.

(** The attributes of a [FundTracker] that the modelled methods use:
    [symbols_names] holds one list per tracked fund, the symbol and, when
    the user gave one, a name; [funds] is the list the tracker fills. *)
Record FundTracker : Type := mkFundTracker {
  symbols_names : list (list string);
  funds : list Fund
}.

Section Provider.

(** The two functions of [pull_data], which is not part of the sources:
    any functions, which may return any value or raise. *)
Variable get_fund_data : string -> result pyval.
Variable get_custom_fund_data : operand -> date -> date -> result pyval.

(** The body of the loop of [instantiate_funds] for one tracked entry:
    [Ok None] is [continue], [Ok (Some fund)] the fund to append. *)
Definition instantiate_one (symbol_name : list string)
  : option (result (option Fund)) :=
  match py_index symbol_name 0 with
  | Raise e => Some (Raise e)
  | Ok symbol =>
  match get_fund_data symbol with
  | Raise e => Some (Raise e)
  | Ok data =>
      if negb (py_truth data) then Some (Ok None)
      else
        match parse_fund_data data with
        | Raise e => Some (Raise e)
        | Ok None => Some (Ok None)
        | Ok (Some fund_data) =>
            let name :=
              if 1 <? Z.of_nat (List.length symbol_name)
              then nth_error symbol_name 1 else None in
            match Fund_of_data fund_data name with
            | None => None
            | Some (Raise e) => Some (Raise e)
            | Some (Ok fund) => Some (Ok (Some fund))
            end
        end
  end end.

(** The loop: the funds held so far and how the loop ended. *)
Fixpoint instantiate_loop (entries : list (list string)) (held : list Fund)
  : option (list Fund * result unit) :=
  match entries with
  | [] => Some (held, Ok tt)
  | symbol_name :: rest =>
      match instantiate_one symbol_name with
      | None => None
      | Some (Raise e) => Some (held, Raise e)
      | Some (Ok None) => instantiate_loop rest held
      | Some (Ok (Some fund)) => instantiate_loop rest (held ++ [fund])
      end
  end.

(** [FundTracker.instantiate_funds(self)]: the tracker after the call and
    what the call returns, which is [self.funds]. *)
Definition instantiate_funds (self : FundTracker)
  : option (FundTracker * result (list Fund)) :=
  match instantiate_loop (symbols_names self) (funds self) with
  | None => None
  | Some (held, r) =>
      Some (mkFundTracker (symbols_names self) held,
            _ <- r ;; Ok held)
  end.

(** [fund in self.funds] and [self.funds[self.funds.index(fund)]]: the
    first fund of the list that is found equal to [fund], the items being
    taken in the order of the list.  Each item is compared as
    [item == fund], with the item on the left, as CPython 3.9 and later
    do, and an item that is the very object [fund] is found equal without
    a call of [__eq__]: [same] is [Some i] when the caller passes the
    object that the list holds at position [i], and [None] when it passes
    another object. *)
Fixpoint first_equal (held : list Fund) (fund : operand) (same : option nat)
  : result (option Fund) :=
  match held with
  | [] => Ok None
  | item :: rest =>
      match same with
      | Some O => Ok (Some item)
      | _ =>
          eq <- Fund_eq item fund ;;
          if eq then Ok (Some item)
          else first_equal rest fund (option_map Nat.pred same)
      end
  end.

Definition date_ltb (a b : date) : bool := toordinal a <? toordinal b.

(** The first part of [custom_range_performance]: whether the start price
    was resolved from the funds held.  What it is then bound to is the
    whole list [target_fund.dates_prices]. *)
Definition resolved_in_memory (self : FundTracker) (fund : operand)
  (same : option nat) (start_date end_date : date) : result bool :=
  held <- first_equal (funds self) fund same ;;
  match held with
  | None => Ok false
  | Some target_fund =>
      first <- py_index (dates_prices target_fund) 0 ;;
      let most_current_date := fst first in
      let end_is_recent := date_leb most_current_date end_date in
      second <- py_index (removelast (dates_prices target_fund)) 0 ;;
      if date_ltb (fst second) start_date then
        Ok (existsb (fun date_price => date_eqb (fst date_price) start_date)
              (dates_prices target_fund))
      else Ok false
  end.

(** [FundTracker.custom_range_performance(self, fund, start_date,
    end_date)], with [same] as in [first_equal].  When the start price was
    resolved from the funds held, [calculate_percentage] receives a list
    and a date or [None]: the list is equal to neither, and ordering it
    with them raises [TypeError]. *)
Definition custom_range_performance (self : FundTracker) (fund : operand)
  (same : option nat) (start_date end_date : string)
  : option (result (float * date * date * operand)) :=
  match strptime_date start_date with
  | Raise e => Some (Raise e)
  | Ok start =>
  match strptime_date end_date with
  | Raise e => Some (Raise e)
  | Ok end_ =>
  match resolved_in_memory self fund same start end_ with
  | Raise e => Some (Raise e)
  | Ok true => Some (Raise TypeError)
  | Ok false =>
  match get_custom_fund_data fund start end_ with
  | Raise e => Some (Raise e)
  | Ok data =>
  match parse_fund_data data with
  | Raise e => Some (Raise e)
  | Ok None => Some (Raise TypeError)
  | Ok (Some parsed_data) =>
  match Fund_of_data parsed_data None with
  | None => None
  | Some (Raise e) => Some (Raise e)
  | Some (Ok target_fund) =>
      Some (last <- py_index (dates_prices target_fund) (-1) ;;
            let start_date_price := snd last in
            first <- py_index (dates_prices target_fund) 0 ;;
            let end_date_price := snd first in
            difference <-
              calculate_percentage start_date_price end_date_price ;;
            Ok (difference, start, end_, fund))
  end end end end end end.

End Provider.

(* ===================================================================== *)
(** ** Vocabulary of the further properties *)
(* ===================================================================== *)

(** A float that is a NaN. *)
Definition is_nan (x : float) : bool :=
  match x with
  | S754_nan => true
  | _ => false
  end.

(** A series of prices: every point has a price, finite and not
    negative. *)
Definition priced (points : list (date * price)) : Prop :=
  forall p, In p points -> exists x, snd p = Some x /\ is_price x = true.

(** The text of the summary for a date and a formatted price. *)
Definition summary_text (f : Fund) (d : date) (formatted_price : string)
  : string :=
  symbol f +++ " - " +++ name_or_empty f +++ newline
    +++ currency f +++ " - " +++ instrument_type f +++ newline
    +++ "Latest price: " +++ isoformat d +++ " - $" +++ formatted_price.

(** The line of one window: nothing when the window is not asked for. *)
Definition performance_line (asked : bool) (label : string)
  (change : option float) : string :=
  if asked then
    newline +++ label
      +++ match change with
          | Some d => format_2f_float d
          | None => ""
          end +++ "%"
  else "".

(** The lookup of a window is available when it is not asked for or answers
    a number. *)
Definition available (asked : bool) (r : result (option float * Fund))
  (change : option float) : Prop :=
  if asked then exists d fund', r = Ok (Some d, fund') /\ change = Some d
  else change = None.

(** The two fields read from each record of ['prices']. *)
Definition record_fields (day : pyval) (pair : pyval * pyval) : Prop :=
  py_getitem day "formatted_date" = Ok (fst pair)
  /\ py_getitem day "close" = Ok (snd pair).

Definition is_dict (v : pyval) : bool :=
  match v with
  | PDict _ => true
  | _ => false
  end.

Definition is_str (v : pyval) : bool :=
  match v with
  | PStr _ => true
  | _ => false
  end.

(** A pair of the payload that is a date text and a close that is a float
    or [None]. *)
Definition typed_pair (dp : pyval * pyval) (tp : string * price) : Prop :=
  fst dp = PStr (fst tp) /\ price_of_close (snd dp) = Some (snd tp).

(** The funds that the outcomes of the entries of a loop leave. *)
Definition loaded (outcomes : list (option Fund)) : list Fund :=
  flat_map (fun o => match o with Some fund => [fund] | None => [] end)
    outcomes.

(** [m1 * 2 ^ e1 <= m2 * 2 ^ e2], on integers. *)
Definition value_le (m1 e1 m2 e2 : Z) : Prop :=
  m1 * 2 ^ (e1 - Z.min e1 e2) <= m2 * 2 ^ (e2 - Z.min e1 e2).

(** A positive float in canonical form that is at most [mB * 2 ^ eB]. *)
Definition le_result (prec emax mB eB : Z) (r : spec_float) : Prop :=
  exists m e,
    r = S754_finite false m e /\ bounded prec emax m e = true
    /\ value_le (Zpos m) e mB eB.

(** Two funds with the symbol FXAIX: one with a price, and one whose
    single point has no price yet, so that its summary does not render. *)
Definition fund_fxaix : Fund :=
  mkFund "FXAIX" "USD" "MUTUALFUND" [(d_2022_04_05, price_78_42)] None.

Definition fund_absent_price : Fund :=
  mkFund "FXAIX" "USD" "MUTUALFUND" [(d_2022_04_05, None)] None.

(** A payload with two records a week apart, the older one first. *)
Definition payload_week : pyval :=
  PDict [("f", PDict [("currency", PStr "usd");
                      ("instrumentType", PStr "stock");
                      ("prices",
                       PList [PDict [("formatted_date", PStr "2022-03-29");
                                     ("close", PFloat (float_of_Z 80))];
                              PDict [("formatted_date", PStr "2022-04-05");
                                     ("close", PFloat (float_of_Z 100))]])])].

(** A provider of single funds: the symbol ["F"] has a payload, the symbol
    ["NONE"] an empty answer, any other a payload without an entry. *)
Definition sample_get_fund_data (symbol : string) : result pyval :=
  if String.eqb symbol "F" then Ok payload_ok
  else if String.eqb symbol "NONE" then Ok (PDict [])
  else Ok payload_null_entry.

(** A provider of ranges that answers every request with the same week. *)
Definition sample_get_custom_fund_data (fund : operand)
  (start_date end_date : date) : result pyval :=
  Ok payload_week.

Definition fund_ford : Fund :=
  mkFund "F" "USD" "STOCK" [(d_2022_04_05, price_78_42)] (Some "Ford").

(* ===================================================================== *)
(** * Properties *)
(* ===================================================================== *)

(** ** The error monad *)

Lemma bind_Ok {A B : Type} (a : A) (k : A -> result B) :
  bind (Ok a) k = k a.
Proof. reflexivity. Qed.

Lemma bind_Raise {A B : Type} (e : exn) (k : A -> result B) :
  bind (Raise e) k = Raise e.
Proof. reflexivity. Qed.

Lemma bind_inv_Ok {A B : Type} (c : result A) (k : A -> result B) (b : B) :
  bind c k = Ok b -> exists a, c = Ok a /\ k a = Ok b.
Proof.
  destruct c as [a|e]; simpl; intros H.
  - exists a; split; [reflexivity | exact H].
  - discriminate H.
Qed.

Lemma returns_not_raises {A : Type} (c : result A) :
  returns c -> ~ raises c.
Proof. intros [a Ha] [e He]; rewrite Ha in He; discriminate He. Qed.

(** ** The modelled library functions on sample inputs *)

Example strptime_2022_04_05 :
  strptime_date "2022-04-05" = Ok d_2022_04_05.
Proof. reflexivity. Qed.

Example isoformat_2022_04_05 : isoformat d_2022_04_05 = "2022-04-05".
Proof. reflexivity. Qed.

Example strptime_leap_day :
  strptime_date "2024-02-29" = Ok (fromordinal 738945)
  /\ strptime_date "2023-02-29" = Raise ValueError
  /\ isoformat (fromordinal 738945) = "2024-02-29".
Proof. repeat split; reflexivity. Qed.

Example strptime_malformed :
  strptime_date "05/04/2022" = Raise ValueError
  /\ strptime_date "2022-04-05 " = Raise ValueError
  /\ strptime_date "2022-13-01" = Raise ValueError.
Proof. repeat split; reflexivity. Qed.

Example strptime_short_fields :
  strptime_date "2022-4-5" = Ok d_2022_04_05.
Proof. reflexivity. Qed.

Example strptime_space_day :
  strptime_date "2022-04- 5" = Ok d_2022_04_05
  /\ strptime_date "2022-04-31" = Raise ValueError
  /\ strptime_date "0000-01-01" = Raise ValueError.
Proof. repeat split; reflexivity. Qed.

Example date_range :
  strptime_date "0001-01-01" = Ok (fromordinal 1)
  /\ strptime_date "9999-12-31" = Ok (fromordinal MAXORDINAL)
  /\ isoformat (fromordinal 1) = "0001-01-01"
  /\ isoformat (fromordinal MAXORDINAL) = "9999-12-31"
  /\ isoformat (fromordinal 146097) = "0400-12-31"
  /\ isoformat (fromordinal 146098) = "0401-01-01".
Proof. repeat split; reflexivity. Qed.

Example date_sub_first_day :
  date_sub (fromordinal 1) (timedelta_of 1 0) = Raise OverflowError.
Proof. reflexivity. Qed.

(** The float nearest to 78.42 and the float 100.0. *)
Example decimal_78_42 :
  decimal 7842 2 = S754_finite false 5518316918412411 (-46)
  /\ hundred = S754_finite false 7036874417766400 (-46)
  /\ is_price (decimal 7842 2) = true.
Proof. repeat split; reflexivity. Qed.

Example format_2f_examples :
  format_2f price_78_42 = Ok "78.42"
  /\ format_2f (Some (float_of_Z (-20))) = Ok "-20.00"
  /\ format_2f (Some (decimal 1 0)) = Ok "1.00"
  /\ format_2f (Some (decimal 125 3)) = Ok "0.12"
  /\ format_2f (Some (decimal 2675 3)) = Ok "2.67"
  /\ format_2f (Some (decimal (-1) 3)) = Ok "-0.00"
  /\ format_2f (Some (fdiv (float_of_Z 1) (float_of_Z 3))) = Ok "0.33"
  /\ format_2f (Some (fdiv (float_of_Z 1) zero)) = Ok "inf"
  /\ format_2f None = Raise TypeError.
Proof. repeat split; reflexivity. Qed.

Example timedelta_windows :
  td_days (timedelta_of 1 0) = 1
  /\ td_days (timedelta_of 0 1) = 7
  /\ td_days (timedelta_of 0 52) = 364.
Proof. repeat split; reflexivity. Qed.

(** ** Binary64 arithmetic: sign and magnitude of rounded results *)

(** The number of binary digits of a mantissa is its base-2 logarithm plus
    one. *)
Lemma digits2_pos_size (p : positive) : digits2_pos p = Pos.size p.
Proof. induction p; simpl; congruence. Qed.

Lemma digits2_pos_log2 (p : positive) :
  Zpos (digits2_pos p) = Z.log2 (Zpos p) + 1.
Proof.
  rewrite digits2_pos_size. destruct p; simpl; try reflexivity;
    rewrite Pos.add_1_r; reflexivity.
Qed.

Lemma Zdigits2_log2 (m : Z) : 0 < m -> Zdigits2 m = Z.log2 m + 1.
Proof.
  destruct m as [|p|p]; intros H; try lia. simpl Zdigits2.
  apply digits2_pos_log2.
Qed.

Lemma log2_div_pow2 (m n : Z) :
  0 < m -> 0 <= n <= Z.log2 m ->
  0 < m / 2 ^ n /\ Z.log2 (m / 2 ^ n) = Z.log2 m - n.
Proof.
  intros Hm Hn.
  assert (Hle : 2 ^ n <= m).
  { apply Z.log2_le_pow2; lia. }
  split.
  - apply Z.div_str_pos. split; [apply Z.pow_pos_nonneg; lia | exact Hle].
  - rewrite <- Z.shiftr_div_pow2 by lia. rewrite Z.log2_shiftr by lia. lia.
Qed.

(** Shifting a mantissa to the right divides it by a power of two. *)
Lemma shr_1_m (mrs : shr_record) :
  0 <= shr_m mrs -> shr_m (shr_1 mrs) = shr_m mrs / 2.
Proof.
  destruct mrs as [m r s]. simpl shr_m. intros H.
  destruct m as [|p|p]; try lia; simpl.
  - reflexivity.
  - destruct p; simpl shr_m.
    + rewrite (Pos2Z.inj_xI p).
      apply Z.div_unique with (r := 1); lia.
    + rewrite (Pos2Z.inj_xO p).
      apply Z.div_unique with (r := 0); lia.
    + reflexivity.
Qed.

Lemma iter_shr_1_m (p : positive) (mrs : shr_record) :
  0 <= shr_m mrs ->
  shr_m (iter_pos shr_1 p mrs) = shr_m mrs / 2 ^ Zpos p.
Proof.
  revert mrs. induction p as [p IH | p IH |]; intros mrs H; simpl iter_pos.
  - assert (H1 : 0 <= shr_m (shr_1 mrs)).
    { rewrite shr_1_m by exact H. apply Z.div_pos; lia. }
    assert (H2 : 0 <= shr_m (iter_pos shr_1 p (shr_1 mrs))).
    { rewrite IH by exact H1. apply Z.div_pos; [exact H1|].
      apply Z.pow_pos_nonneg; lia. }
    rewrite IH by exact H2. rewrite IH by exact H1. rewrite shr_1_m by exact H.
    rewrite !Z.div_div by (try apply Z.pow_pos_nonneg; lia).
    f_equal. rewrite (Pos2Z.inj_xI p).
    replace (2 * Zpos p + 1) with (1 + Zpos p + Zpos p) by lia.
    rewrite (Z.pow_add_r 2 (1 + Zpos p) (Zpos p)) by lia.
    rewrite (Z.pow_add_r 2 1 (Zpos p)) by lia. lia.
  - assert (H2 : 0 <= shr_m (iter_pos shr_1 p mrs)).
    { rewrite IH by exact H. apply Z.div_pos; [exact H|].
      apply Z.pow_pos_nonneg; lia. }
    rewrite IH by exact H2. rewrite IH by exact H.
    rewrite !Z.div_div by (try apply Z.pow_pos_nonneg; lia).
    f_equal. rewrite (Pos2Z.inj_xO p).
    replace (2 * Zpos p) with (Zpos p + Zpos p) by lia.
    rewrite (Z.pow_add_r 2 (Zpos p) (Zpos p)) by lia. lia.
  - rewrite shr_1_m by exact H. reflexivity.
Qed.

Lemma shr_spec (mrs : shr_record) (e n : Z) :
  0 <= shr_m mrs ->
  shr_m (fst (shr mrs e n)) = shr_m mrs / 2 ^ Z.max 0 n
  /\ snd (shr mrs e n) = e + Z.max 0 n.
Proof.
  intros H. destruct n as [|p|p]; simpl shr; simpl fst; simpl snd.
  - change (Z.max 0 0) with 0. rewrite Z.div_1_r. lia.
  - rewrite iter_shr_1_m by exact H.
    replace (Z.max 0 (Zpos p)) with (Zpos p) by lia. split; reflexivity.
  - replace (Z.max 0 (Zneg p)) with 0 by lia. rewrite Z.div_1_r. lia.
Qed.

Lemma shr_record_of_loc_m (m : Z) (l : location) :
  shr_m (shr_record_of_loc m l) = m.
Proof. destruct l as [|[| |]]; reflexivity. Qed.

Lemma round_nearest_even_bounds (m : Z) (l : location) :
  m <= round_nearest_even m l <= m + 1.
Proof.
  unfold round_nearest_even. destruct l as [|[| |]]; try lia.
  destruct (Z.even m); lia.
Qed.

(** The lemmas of this section hold for every precision and exponent range;
    binary64 is the instance with precision 53 and maximal exponent 1024. *)
Section Rounding.

Variables prec emax : Z.
Hypothesis Hprec : 0 < prec.

Local Notation "'emin'" := (SpecFloat.emin prec emax).
Local Notation "'fexp'" := (SpecFloat.fexp prec emax).

Lemma fexp_eq (e : Z) : fexp e = Z.max (e - prec) emin.
Proof. reflexivity. Qed.

Lemma pos_result_weaken (s : bool) (B B' : Z) (r : spec_float) :
  B' <= B -> pos_result s B r -> pos_result s B' r.
Proof.
  intros HB [H | [m [e [H Hm]]]]; [left; exact H|].
  right. exists m, e. split; [exact H | lia].
Qed.

(** One shift to the exponent [fexp] asks for keeps a positive mantissa
    positive and keeps its magnitude. *)
Lemma shr_fexp_pos (m e : Z) (l : location) :
  0 < m -> emin < Z.log2 m + 1 + e ->
  let r := shr_fexp prec emax m e l in
  0 < shr_m (fst r)
  /\ Z.log2 (shr_m (fst r)) + 1 + snd r = Z.log2 m + 1 + e.
Proof.
  intros Hm Hmag. unfold shr_fexp.
  rewrite (Zdigits2_log2 m Hm).
  set (n := fexp (Z.log2 m + 1 + e) - e).
  assert (Hn : Z.max 0 n <= Z.log2 m).
  { unfold n. rewrite fexp_eq. pose proof (Z.log2_nonneg m). lia. }
  destruct (shr_spec (shr_record_of_loc m l) e n) as [H1 H2].
  { rewrite shr_record_of_loc_m. lia. }
  rewrite shr_record_of_loc_m in H1.
  cbv zeta. rewrite H1, H2.
  destruct (log2_div_pow2 m (Z.max 0 n) Hm) as [H3 H4]; [lia|].
  split; [exact H3 | lia].
Qed.

Lemma binary_round_aux_pos (sx : bool) (mx ex : Z) (lx : location) :
  0 < mx -> emin < Z.log2 mx + 1 + ex ->
  pos_result sx (Z.log2 mx + 1 + ex) (binary_round_aux prec emax sx mx ex lx).
Proof.
  intros Hm Hmag. unfold binary_round_aux.
  pose proof (shr_fexp_pos mx ex lx Hm Hmag) as H1. cbv zeta in H1.
  destruct (shr_fexp prec emax mx ex lx) as [mrs1 e1].
  simpl fst in H1; simpl snd in H1. destruct H1 as [Hm1 Hmag1].
  set (m2 := round_nearest_even (shr_m mrs1) (loc_of_shr_record mrs1)).
  pose proof (round_nearest_even_bounds (shr_m mrs1)
                (loc_of_shr_record mrs1)) as Hb. fold m2 in Hb.
  assert (Hm2 : 0 < m2) by lia.
  assert (Hl2 : Z.log2 (shr_m mrs1) <= Z.log2 m2).
  { apply Z.log2_le_mono. lia. }
  pose proof (shr_fexp_pos m2 e1 loc_Exact Hm2) as H2. cbv zeta in H2.
  destruct (shr_fexp prec emax m2 e1 loc_Exact) as [mrs2 e2].
  simpl fst in H2; simpl snd in H2.
  destruct H2 as [Hm3 Hmag3]; [lia|].
  destruct (shr_m mrs2) as [|m3|m3] eqn:E; try lia.
  destruct (e2 <=? emax - prec).
  - right. exists m3, e2. split; [reflexivity | lia].
  - left. reflexivity.
Qed.


Lemma Pos_iter_xO (m d : positive) :
  Zpos (Pos.iter xO m d) = Zpos m * 2 ^ Zpos d.
Proof.
  rewrite <- Z.shiftl_mul_pow2 by lia. simpl Z.shiftl.
  apply (Pos.iter_swap_gen _ _ Zpos xO (Z.mul 2)). intros a. reflexivity.
Qed.

Lemma shl_align_spec (mx : positive) (ex ex' : Z) :
  let r := shl_align mx ex ex' in
  snd r = Z.min ex ex'
  /\ Zpos (fst r) = Zpos mx * 2 ^ (ex - Z.min ex ex').
Proof.
  unfold shl_align. destruct (ex' - ex) as [|d|d] eqn:E; simpl fst; simpl snd.
  - replace (Z.min ex ex') with ex by lia. rewrite Z.sub_diag. simpl. lia.
  - replace (Z.min ex ex') with ex by lia. rewrite Z.sub_diag. simpl. lia.
  - replace (Z.min ex ex') with ex' by lia. split; [reflexivity|].
    rewrite Pos_iter_xO. f_equal. f_equal. lia.
Qed.

Lemma log2_mul_pow2 (m k : Z) :
  0 < m -> 0 <= k -> Z.log2 (m * 2 ^ k) = Z.log2 m + k.
Proof.
  intros Hm Hk. rewrite Z.log2_mul_pow2 by lia. lia.
Qed.

Lemma binary_round_pos (sx : bool) (mx : positive) (ex : Z) :
  emin < Z.log2 (Zpos mx) + 1 + ex ->
  pos_result sx (Z.log2 (Zpos mx) + 1 + ex) (binary_round prec emax sx mx ex).
Proof.
  intros Hmag. unfold binary_round.
  pose proof (shl_align_spec mx ex
                (fexp (Zpos (digits2_pos mx) + ex))) as H.
  cbv zeta in H.
  destruct (shl_align mx ex (fexp (Zpos (digits2_pos mx) + ex)))
    as [mz ez].
  simpl fst in H; simpl snd in H. destruct H as [He Hm].
  assert (Hl : Z.log2 (Zpos mz) + 1 + ez = Z.log2 (Zpos mx) + 1 + ex).
  { rewrite Hm, log2_mul_pow2 by lia. lia. }
  rewrite <- Hl. apply binary_round_aux_pos; lia.
Qed.

Lemma binary_normalize_pos (m e : Z) (szero : bool) :
  0 < m -> emin < Z.log2 m + 1 + e ->
  pos_result false (Z.log2 m + 1 + e) (binary_normalize prec emax m e szero).
Proof.
  intros Hm Hmag. destruct m as [|p|p]; try lia.
  simpl binary_normalize. apply binary_round_pos. exact Hmag.
Qed.

(** Facts about a canonical mantissa. *)
Lemma bounded_facts (m : positive) (e : Z) :
  bounded prec emax m e = true ->
  emin <= e /\ Z.log2 (Zpos m) + 1 <= prec
  /\ (emin < e -> Z.log2 (Zpos m) + 1 = prec).
Proof.
  unfold bounded, canonical_mantissa. intros H.
  apply andb_true_iff in H. destruct H as [H _].
  apply Z.eqb_eq in H. rewrite digits2_pos_log2, fexp_eq in H. lia.
Qed.

Lemma SFltb_finite_pos (m1 m2 : positive) (e1 e2 : Z) :
  SFltb (S754_finite false m1 e1) (S754_finite false m2 e2) = true ->
  e1 < e2 \/ (e1 = e2 /\ Zpos m1 < Zpos m2).
Proof.
  unfold SFltb, SFcompare. destruct (Z.compare_spec e1 e2) as [E|E|E].
  - intros H. right. split; [exact E|].
    destruct (Pos.compare_cont Eq m1 m2) eqn:C; try discriminate H.
    change (Pos.compare_cont Eq m1 m2) with (Pos.compare m1 m2) in C.
    exact C.
  - intros _. left. exact E.
  - intros H. discriminate H.
Qed.

(** Subtraction: [x - y] for canonical [x > y > 0]. *)
Lemma SFsub_pos (mx my : positive) (ex ey : Z) :
  bounded prec emax mx ex = true ->
  bounded prec emax my ey = true ->
  SFltb (S754_finite false my ey) (S754_finite false mx ex) = true ->
  pos_result false (Z.log2 (Zpos mx) + 1 + ex - prec)
    (SFsub prec emax (S754_finite false mx ex) (S754_finite false my ey)).
Proof.
  intros Bx By Hlt.
  destruct (bounded_facts mx ex Bx) as [Hex [Hdx Hnx]].
  destruct (bounded_facts my ey By) as [Hey [Hdy _]].
  apply SFltb_finite_pos in Hlt.
  unfold SFsub.
  pose proof (shl_align_spec mx ex (Z.min ex ey)) as Hx.
  pose proof (shl_align_spec my ey (Z.min ex ey)) as Hy.
  cbv zeta in Hx, Hy. destruct Hx as [_ Hx]. destruct Hy as [_ Hy].
  cbv zeta. unfold cond_Zopp. rewrite Hx, Hy. clear Hx Hy.
  set (ez := Z.min ex ey).
  replace (Z.min ex ez) with ez by (unfold ez; lia).
  replace (Z.min ey ez) with ez by (unfold ez; lia).
  set (D := Zpos mx * 2 ^ (ex - ez) - Zpos my * 2 ^ (ey - ez)).
  assert (HD : 0 < D /\ Z.log2 (Zpos mx) + 1 + ex - prec <= Z.log2 D + 1 + ez
               /\ emin < Z.log2 D + 1 + ez).
  { destruct Hlt as [Hlt | [He Hm]].
    - (* ey < ex *)
      assert (Ez : ez = ey) by (unfold ez; lia).
      assert (Hp : Z.log2 (Zpos mx) + 1 = prec) by (apply Hnx; lia).
      unfold D. rewrite Ez, Z.sub_diag, Z.pow_0_r, Z.mul_1_r.
      set (k := ex - ey). assert (Hk : 1 <= k) by (unfold k; lia).
      assert (HA : 2 ^ (prec - 1) <= Zpos mx).
      { apply Z.log2_le_pow2; lia. }
      assert (HB : Zpos my < 2 ^ prec).
      { apply Z.log2_lt_pow2; lia. }
      assert (Hpow : 2 ^ prec = 2 * 2 ^ (prec - 1)).
      { replace prec with (1 + (prec - 1)) at 1 by lia.
        rewrite Z.pow_add_r by lia. reflexivity. }
      assert (Hpk : 2 ^ k = 2 * 2 ^ (k - 1)).
      { replace k with (1 + (k - 1)) at 1 by lia.
        rewrite Z.pow_add_r by lia. reflexivity. }
      assert (HA0 : 0 < 2 ^ (prec - 1)) by (apply Z.pow_pos_nonneg; lia).
      assert (HB0 : 0 < 2 ^ (k - 1)) by (apply Z.pow_pos_nonneg; lia).
      assert (HDge : 2 ^ (k - 1) <= Zpos mx * 2 ^ k - Zpos my).
      { rewrite Hpk. nia. }
      assert (HDpos : 0 < Zpos mx * 2 ^ k - Zpos my) by lia.
      split; [exact HDpos|].
      assert (Hlog : k - 1 <= Z.log2 (Zpos mx * 2 ^ k - Zpos my)).
      { apply Z.log2_le_pow2; [exact HDpos | exact HDge]. }
      unfold k in *. lia.
    - (* ey = ex *)
      assert (Ez : ez = ex) by (unfold ez; lia).
      unfold D. rewrite Ez, <- He, Z.sub_diag, Z.pow_0_r, !Z.mul_1_r.
      assert (HDpos : 0 < Zpos mx - Zpos my) by lia.
      pose proof (Z.log2_nonneg (Zpos mx - Zpos my)).
      split; [exact HDpos | lia]. }
  destruct HD as [HD0 [HDB HDmin]].
  apply (pos_result_weaken false (Z.log2 D + 1 + ez)); [exact HDB|].
  apply binary_normalize_pos; assumption.
Qed.


Hypothesis Hemax : prec + 3 <= emax.

Lemma emin_le : emin + prec <= - prec.
Proof. unfold SpecFloat.emin. lia. Qed.

(** Division of a positive number by a positive number whose magnitude is
    at most [prec] above. *)
Lemma SFdiv_pos (a : spec_float) (mx : positive) (ex : Z) :
  pos_result false (Z.log2 (Zpos mx) + 1 + ex - prec) a ->
  pos_result false (- prec) (SFdiv prec emax a (S754_finite false mx ex)).
Proof.
  pose proof emin_le as Hemin.
  intros [-> | [ma [ea [-> HM]]]]; [left; reflexivity|].
  unfold SFdiv, SFdiv_core_binary. simpl Zdigits2.
  rewrite !digits2_pos_log2.
  set (M := Z.log2 (Zpos ma) + 1 + ea - (Z.log2 (Zpos mx) + 1 + ex)).
  assert (HfM : fexp M = M - prec) by (rewrite fexp_eq; unfold M; lia).
  rewrite HfM.
  set (e' := Z.min (M - prec) (ea - ex)).
  set (s := ea - ex - e').
  assert (Hs : 0 <= s) by (unfold s, e'; lia).
  set (m' := match s with
             | 0 => Zpos ma
             | Zpos _ => Z.shiftl (Zpos ma) s
             | Zneg _ => 0
             end).
  assert (Hm' : m' = Zpos ma * 2 ^ s).
  { unfold m'. destruct s as [|p|p] eqn:Es; try lia.
    rewrite Z.shiftl_mul_pow2 by lia. reflexivity. }
  assert (Hq : fst (Z.div_eucl m' (Zpos mx)) = m' / Zpos mx) by reflexivity.
  destruct (Z.div_eucl m' (Zpos mx)) as [q r]. simpl fst in Hq.
  set (t := Z.log2 (Zpos ma) + s - (Z.log2 (Zpos mx) + 1)).
  assert (Ht : prec - 1 <= t) by (unfold t, s, e', M; lia).
  assert (Hqt : 2 ^ t <= q).
  { rewrite Hq, Hm'. apply Z.div_le_lower_bound; [lia|].
    assert (H1 : Zpos mx < 2 ^ (Z.log2 (Zpos mx) + 1)).
    { apply Z.log2_lt_pow2; lia. }
    assert (H2 : 2 ^ Z.log2 (Zpos ma) <= Zpos ma).
    { apply Z.log2_le_pow2; lia. }
    assert (H3 : 2 ^ t * 2 ^ (Z.log2 (Zpos mx) + 1)
                 = 2 ^ Z.log2 (Zpos ma) * 2 ^ s).
    { pose proof (Z.log2_nonneg (Zpos ma)).
      pose proof (Z.log2_nonneg (Zpos mx)).
      rewrite <- !Z.pow_add_r by lia. f_equal. unfold t. lia. }
    assert (H4 : 0 < 2 ^ t) by (apply Z.pow_pos_nonneg; lia).
    assert (H5 : 0 < 2 ^ s) by (apply Z.pow_pos_nonneg; lia).
    nia. }
  assert (Hq0 : 0 < q).
  { assert (0 < 2 ^ t) by (apply Z.pow_pos_nonneg; lia). lia. }
  assert (Hlq : t <= Z.log2 q) by (apply Z.log2_le_pow2; assumption).
  simpl xorb.
  apply (pos_result_weaken false (Z.log2 q + 1 + e')).
  - unfold t, s, M in *. lia.
  - apply binary_round_aux_pos; [exact Hq0|]. unfold t, s, M in *. lia.
Qed.

(** Multiplication of a positive number by a positive constant. *)
Lemma SFmul_pos (a : spec_float) (B : Z) (mc : positive) (ec : Z) :
  emin < B + Z.log2 (Zpos mc) + ec ->
  pos_result false B a ->
  pos_result false (B + Z.log2 (Zpos mc) + ec)
    (SFmul prec emax a (S754_finite false mc ec)).
Proof.
  intros Hmin [-> | [ma [ea [-> HM]]]]; [left; reflexivity|].
  unfold SFmul. simpl xorb.
  assert (Hl : Z.log2 (Zpos ma) + Z.log2 (Zpos mc)
               <= Z.log2 (Zpos (ma * mc))).
  { rewrite Pos2Z.inj_mul. apply Z.log2_mul_below; lia. }
  apply (pos_result_weaken false (Z.log2 (Zpos (ma * mc)) + 1 + (ea + ec)));
    [lia|].
  apply binary_round_aux_pos; lia.
Qed.

Lemma pos_result_sign (B : Z) (r : spec_float) :
  pos_result false B r ->
  SFopp (SFabs r) = SFopp r
  /\ SFltb (SFopp r) (S754_zero false) = true
  /\ SFltb (S754_zero false) r = true
  /\ SFeqb r (S754_zero false) = false.
Proof.
  intros [-> | [m [e [-> _]]]]; repeat split.
Qed.

End Rounding.

(** ** [calculate_percentage] *)

Lemma binary64_prec : 0 < prec.
Proof. reflexivity. Qed.

Lemma binary64_emax : prec + 3 <= emax.
Proof. discriminate. Qed.

(** The percentage of a positive float [a] in a positive float [x] whose
    magnitude is at most 53 above is a positive float or [+inf]: no step
    rounds to zero. *)
Lemma percent_pos (a : float) (mx : positive) (ex : Z) :
  pos_result false (Z.log2 (Zpos mx) + 1 + ex - prec) a ->
  pos_result false (-47)
    (fmul (fdiv a (S754_finite false mx ex)) hundred).
Proof.
  intros H.
  apply (SFdiv_pos prec emax binary64_prec binary64_emax) in H.
  apply (SFmul_pos prec emax binary64_prec _ (- prec)
           7036874417766400 (-46)); [reflexivity | exact H].
Qed.

(** Comparisons of prices. *)
Lemma fltb_finite_asym (m1 m2 : positive) (e1 e2 : Z) :
  fltb (S754_finite false m1 e1) (S754_finite false m2 e2) = true ->
  feqb (S754_finite false m2 e2) (S754_finite false m1 e1) = false
  /\ feqb (S754_finite false m1 e1) (S754_finite false m2 e2) = false
  /\ fltb (S754_finite false m2 e2) (S754_finite false m1 e1) = false.
Proof.
  intros H. apply SFltb_finite_pos in H.
  unfold feqb, fltb, SFeqb, SFltb, SFcompare.
  rewrite (Z.compare_antisym e1 e2).
  change (Pos.compare_cont Eq m2 m1) with (Pos.compare m2 m1).
  change (Pos.compare_cont Eq m1 m2) with (Pos.compare m1 m2).
  rewrite (Pos.compare_antisym m1 m2).
  destruct H as [H | [H1 H2]].
  - apply Z.compare_lt_iff in H. rewrite H. repeat split.
  - apply Z.compare_eq_iff in H1. rewrite H1.
    assert (C : Pos.compare m1 m2 = Lt) by exact H2.
    rewrite C. repeat split.
Qed.

(** The decrease and the increase between two prices [low < high], taken
    as a percentage of [high]: the computation of both branches of
    [calculate_percentage]. *)
Lemma percent_of_difference (high low : float) :
  is_price high = true -> is_price low = true ->
  fltb low high = true ->
  pos_result false (-47) (fmul (fdiv (fsub high low) high) hundred)
  /\ feqb high low = false /\ feqb low high = false
  /\ fltb high low = false /\ feqb high zero = false.
Proof.
  intros Hh Hl Hlt.
  destruct high as [sh | sh | | sh mh eh]; try discriminate Hh.
  - (* high is a zero: nothing is below it among the prices *)
    destruct low as [sl | sl | | sl ml el]; try discriminate Hl;
      try discriminate Hlt.
    destruct sl; [discriminate Hl | discriminate Hlt].
  - destruct sh; [discriminate Hh|]. simpl in Hh.
    destruct low as [sl | sl | | sl ml el]; try discriminate Hl.
    + (* low is a zero: the difference is [high] itself *)
      split; [|repeat split].
      apply percent_pos. right. exists mh, eh.
      split; [reflexivity|]. unfold prec. lia.
    + destruct sl; [discriminate Hl|]. simpl in Hl.
      destruct (fltb_finite_asym _ _ _ _ Hlt) as [E1 [E2 L]].
      split; [|repeat split; assumption].
      apply percent_pos.
      apply (SFsub_pos prec emax binary64_prec); assumption.
Qed.

(** C1.  For prices, that is floats that are finite and not negative,
    [calculate_percentage first last] is exactly [0.0] when
    [first == last]; when [first > last] it is exactly
    [-((first - last) / first * 100)], which is negative; when
    [first < last] it is exactly [(last - first) / last * 100], which is
    positive.  The decrease is divided by [first], the increase by
    [last]. *)
Theorem calculate_percentage_spec (first last : float)
  (Hfirst : is_price first = true) (Hlast : is_price last = true) :
  (feqb first last = true ->
     calculate_percentage (Some first) (Some last) = Ok zero)
  /\ (fltb last first = true ->
        calculate_percentage (Some first) (Some last)
        = Ok (fopp (fmul (fdiv (fsub first last) first) hundred))
        /\ fltb (fopp (fmul (fdiv (fsub first last) first) hundred)) zero
           = true)
  /\ (fltb first last = true ->
        calculate_percentage (Some first) (Some last)
        = Ok (fmul (fdiv (fsub last first) last) hundred)
        /\ fltb zero (fmul (fdiv (fsub last first) last) hundred) = true).
Proof.
  split; [|split].
  - intros H. unfold calculate_percentage, py_eq. rewrite H. reflexivity.
  - intros Hlt.
    destruct (percent_of_difference first last Hfirst Hlast Hlt)
      as [Hpos [Heq [_ [_ Hnz]]]].
    destruct (pos_result_sign _ _ Hpos) as [Habs [Hneg _]].
    unfold calculate_percentage, py_eq, py_gt, py_sub, py_truediv.
    rewrite Heq. simpl bind. rewrite Hlt, Hnz. simpl bind.
    unfold fopp, fabs. rewrite Habs. split; [reflexivity | exact Hneg].
  - intros Hlt.
    destruct (percent_of_difference last first Hlast Hfirst Hlt)
      as [Hpos [_ [Heq [Hgt Hnz]]]].
    destruct (pos_result_sign _ _ Hpos) as [_ [_ [Hgt0 _]]].
    unfold calculate_percentage, py_eq, py_gt, py_lt, py_sub, py_truediv.
    rewrite Heq. simpl bind. rewrite Hgt. rewrite Hlt, Hnz. simpl bind.
    split; [reflexivity | exact Hgt0].
Qed.

Lemma calculate_percentage_spec_witness :
  is_price (float_of_Z 100) = true /\ is_price (float_of_Z 80) = true
  /\ fltb (float_of_Z 80) (float_of_Z 100) = true
  /\ calculate_percentage price_100 price_80
     = Ok (fopp (fmul (fdiv (fsub (float_of_Z 100) (float_of_Z 80))
                         (float_of_Z 100)) hundred))
  /\ fltb (fopp (fmul (fdiv (fsub (float_of_Z 100) (float_of_Z 80))
                        (float_of_Z 100)) hundred)) zero = true.
Proof.
  split; [reflexivity | split; [reflexivity | split; [reflexivity |]]].
  destruct (calculate_percentage_spec (float_of_Z 100) (float_of_Z 80)
              eq_refl eq_refl) as [_ [Hdecrease _]].
  exact (Hdecrease eq_refl).
Defined.

Example calculate_percentage_values :
  calculate_percentage price_100 price_80 = Ok (float_of_Z (-20))
  /\ calculate_percentage price_80 price_100 = Ok (float_of_Z 20)
  /\ calculate_percentage price_78_42 price_78_42 = Ok zero.
Proof. repeat split; reflexivity. Qed.

(** Outside the prices.  With a negative [first] the decrease branch still
    answers minus the absolute value, which is then the formula without its
    leading minus sign; a zero divisor raises; and a NaN, which no
    comparison holds for, leaves [difference] unassigned. *)
Example calculate_percentage_negative_first :
  calculate_percentage (Some (float_of_Z (-1))) (Some (float_of_Z (-2)))
  = Ok (float_of_Z (-100))
  /\ fopp (fmul (fdiv (fsub (float_of_Z (-1)) (float_of_Z (-2)))
                  (float_of_Z (-1))) hundred)
     = float_of_Z 100.
Proof. split; reflexivity. Qed.

Example calculate_percentage_zero_divisor :
  calculate_percentage (Some zero) (Some (float_of_Z (-2)))
  = Raise ZeroDivisionError
  /\ calculate_percentage (Some (float_of_Z (-2))) (Some zero)
     = Raise ZeroDivisionError.
Proof. split; reflexivity. Qed.

Example calculate_percentage_nan :
  calculate_percentage (Some S754_nan) (Some (float_of_Z 1))
  = Raise UnboundLocalError.
Proof. reflexivity. Qed.

Example calculate_percentage_None :
  calculate_percentage None None = Ok zero
  /\ calculate_percentage None (Some (float_of_Z 1)) = Raise TypeError
  /\ calculate_percentage (Some (float_of_Z 1)) None = Raise TypeError.
Proof. repeat split; reflexivity. Qed.

(** ** Indexing and the scan of a series *)

Lemma py_index_last {A : Type} (pre : list A) (a : A) :
  py_index (pre ++ [a]) (-1) = Ok a.
Proof.
  unfold py_index. rewrite length_app. simpl List.length.
  change (-1 <? 0) with true. cbv iota.
  rewrite Nat2Z.inj_add. change (Z.of_nat 1) with 1.
  replace (-1 + (Z.of_nat (List.length pre) + 1))
    with (Z.of_nat (List.length pre)) by lia.
  assert (Hin : (0 <=? Z.of_nat (List.length pre))
                && (Z.of_nat (List.length pre)
                    <? Z.of_nat (List.length pre) + 1) = true).
  { apply andb_true_iff. split; [apply Z.leb_le | apply Z.ltb_lt]; lia. }
  rewrite Hin, Nat2Z.id.
  rewrite nth_error_app2 by lia. rewrite Nat.sub_diag. reflexivity.
Qed.

Lemma py_index_nil {A : Type} (i : Z) :
  py_index (@nil A) i = Raise IndexError.
Proof.
  unfold py_index. simpl List.length. change (Z.of_nat 0) with 0.
  destruct (i <? 0) eqn:E.
  - apply Z.ltb_lt in E.
    replace (0 <=? i + 0) with false; [reflexivity|].
    symmetry. apply Z.leb_gt. lia.
  - apply Z.ltb_ge in E.
    replace (i <? 0) with false.
    + rewrite andb_false_r. reflexivity.
    + symmetry. apply Z.ltb_ge. exact E.
Qed.

Lemma nonempty_last {A : Type} (l : list A) :
  l <> [] -> exists pre a, l = pre ++ [a].
Proof.
  intros H. destruct (exists_last H) as [pre [a E]].
  exists pre, a. exact E.
Qed.

Lemma date_eqb_eq (a b : date) : date_eqb a b = true <-> a = b.
Proof.
  unfold date_eqb. rewrite Z.eqb_eq. destruct a as [x], b as [y]. simpl.
  split; intros H; [subst; reflexivity | injection H; auto].
Qed.

Lemma date_eqb_neq (a b : date) : date_eqb a b = false <-> a <> b.
Proof.
  rewrite <- date_eqb_eq. destruct (date_eqb a b); split; intros H;
    try discriminate; try reflexivity.
  exfalso; apply H; reflexivity.
Qed.

Section Scan.

Variable target : date.

Lemma scan_fold_no_match (points : list (date * price))
  (found : option (date * price)) :
  (forall p, In p points -> fst p <> target) ->
  fold_left (scan_step target) points found = found.
Proof.
  revert found. induction points as [|p points IH]; intros found H.
  - reflexivity.
  - simpl. unfold scan_step at 2.
    assert (Hp : date_eqb (fst p) target = false).
    { apply date_eqb_neq. apply H. left. reflexivity. }
    rewrite Hp. apply IH. intros q Hq. apply H. right. exact Hq.
Qed.

Lemma scan_fold_app (l1 l2 : list (date * price))
  (found : option (date * price)) :
  fold_left (scan_step target) (l1 ++ l2) found
  = fold_left (scan_step target) l2 (fold_left (scan_step target) l1 found).
Proof. apply fold_left_app. Qed.

(** The scan keeps the last point of the series that has the target date. *)
Lemma scan_last_match (pre post : list (date * price)) (p : date * price) :
  fst p = target ->
  (forall q, In q post -> fst q <> target) ->
  scan target (pre ++ p :: post) = Some p.
Proof.
  intros Hp Hpost. unfold scan. rewrite scan_fold_app. simpl.
  unfold scan_step at 2.
  assert (E : date_eqb (fst p) target = true) by (apply date_eqb_eq; exact Hp).
  rewrite E. apply scan_fold_no_match. exact Hpost.
Qed.

Lemma scan_no_match (points : list (date * price)) :
  (forall p, In p points -> fst p <> target) ->
  scan target points = None.
Proof. intros H. unfold scan. apply scan_fold_no_match. exact H. Qed.

Lemma scan_fold_Some (points : list (date * price))
  (found : option (date * price)) (p : date * price) :
  fold_left (scan_step target) points found = Some p ->
  (In p points /\ fst p = target) \/ found = Some p.
Proof.
  revert found. induction points as [|q points IH]; intros found H.
  - right. exact H.
  - simpl in H. apply IH in H. destruct H as [[Hin Hd] | H].
    + left. split; [right; exact Hin | exact Hd].
    + unfold scan_step in H. destruct (date_eqb (fst q) target) eqn:E.
      * injection H as H. subst q. left. split; [left; reflexivity|].
        apply date_eqb_eq. exact E.
      * right. exact H.
Qed.

Lemma scan_Some (points : list (date * price)) (p : date * price) :
  scan target points = Some p -> In p points /\ fst p = target.
Proof.
  intros H. apply scan_fold_Some in H. destruct H as [H | H];
    [exact H | discriminate H].
Qed.

Lemma scan_None (points : list (date * price)) :
  scan target points = None <-> forall p, In p points -> fst p <> target.
Proof.
  split; [|apply scan_no_match].
  intros H p Hin Hd.
  apply in_split in Hin. destruct Hin as [l1 [l2 E]]. subst points.
  (* the last point with the target date, from [p] on, would be found *)
  assert (Hex : exists q, scan target (l1 ++ p :: l2) = Some q).
  { clear H. revert l1 p Hd. induction l2 as [|r l2 IH]; intros l1 p Hd.
    - exists p. apply scan_last_match; [exact Hd | intros q []].
    - destruct (date_eqb (fst r) target) eqn:E.
      + apply date_eqb_eq in E.
        replace (l1 ++ p :: r :: l2) with ((l1 ++ [p]) ++ r :: l2)
          by (rewrite <- app_assoc; reflexivity).
        apply IH. exact E.
      + unfold scan. rewrite scan_fold_app. simpl.
        unfold scan_step at 2 3.
        assert (Ep : date_eqb (fst p) target = true)
          by (apply date_eqb_eq; exact Hd).
        rewrite Ep, E.
        destruct (IH l1 p Hd) as [q Hq]. exists q.
        unfold scan in Hq. rewrite scan_fold_app in Hq. simpl in Hq.
        unfold scan_step at 2 in Hq. rewrite Ep in Hq. exact Hq. }
  destruct Hex as [q Hq]. rewrite Hq in H. discriminate H.
Qed.

End Scan.

(** ** The fixed-window lookups *)

(** The three lookups are one computation: the current point is the last
    point of the series, and the target date is its date moved back by the
    days of the window. *)
Lemma lookup_unfold (w : window) (fund : Fund)
  (pre : list (date * price)) (current : date * price) :
  dates_prices fund = pre ++ [current] ->
  lookup w fund
  = (target <- date_sub (fst current) (mk_timedelta (window_days w)) ;;
     compare_with fund current (scan target (dates_prices fund))).
Proof.
  intros H.
  destruct w; unfold lookup, day_performance, week_performance,
    year_performance; rewrite H at 1; rewrite py_index_last; reflexivity.
Qed.

Lemma lookup_empty (w : window) (fund : Fund) :
  dates_prices fund = [] -> lookup w fund = Raise IndexError.
Proof.
  intros H.
  destruct w; unfold lookup, day_performance, week_performance,
    year_performance; rewrite H, py_index_nil; reflexivity.
Qed.

Lemma compare_with_None_iff (fund : Fund) (current : date * price)
  (found : option (date * price)) :
  compare_with fund current found = Ok (None, fund) <-> found = None.
Proof.
  split.
  - destruct found as [before|]; [|reflexivity]. simpl.
    destruct (calculate_percentage (snd before) (snd current));
      simpl; intros H; discriminate H.
  - intros ->. reflexivity.
Qed.

Lemma ordered_by_last (le : date -> date -> bool)
  (Hrefl : forall a, le a a = true)
  (Htrans : forall a b c, le a b = true -> le b c = true -> le a c = true)
  (pre : list (date * price)) (current : date * price) :
  ordered_by le (pre ++ [current]) = true ->
  forall p, In p (pre ++ [current]) -> le (fst p) (fst current) = true.
Proof.
  induction pre as [|a pre IH]; intros Hs p Hin.
  - destruct Hin as [<- | []]. apply Hrefl.
  - change ((a :: pre) ++ [current]) with (a :: (pre ++ [current])) in *.
    simpl in Hs.
    destruct (pre ++ [current]) as [|b rest] eqn:E.
    + destruct pre; discriminate E.
    + apply andb_true_iff in Hs. destruct Hs as [Hab Hrest].
      destruct Hin as [<- | Hin].
      * apply (Htrans _ (fst b)); [exact Hab|].
        apply (IH Hrest). left. reflexivity.
      * apply IH; assumption.
Qed.

Lemma date_leb_refl (a : date) : date_leb a a = true.
Proof. unfold date_leb. apply Z.leb_refl. Qed.

Lemma date_leb_trans (a b c : date) :
  date_leb a b = true -> date_leb b c = true -> date_leb a c = true.
Proof. unfold date_leb. rewrite !Z.leb_le. lia. Qed.

Lemma ascending_last_is_latest (pre : list (date * price))
  (current : date * price) :
  ascending_by_date (pre ++ [current]) = true ->
  forall p, In p (pre ++ [current]) -> date_leb (fst p) (fst current) = true.
Proof.
  apply (ordered_by_last date_leb date_leb_refl date_leb_trans).
Qed.

Lemma descending_last_is_oldest (pre : list (date * price))
  (current : date * price) :
  descending_by_date (pre ++ [current]) = true ->
  forall p, In p (pre ++ [current]) -> date_leb (fst current) (fst p) = true.
Proof.
  apply (ordered_by_last (fun a b => date_leb b a) date_leb_refl).
  intros a b c Hab Hbc. exact (date_leb_trans c b a Hbc Hab).
Qed.

Lemma date_sub_ordinal (d target : date) (n : Z) :
  date_sub d (mk_timedelta n) = Ok target ->
  toordinal target = toordinal d - n.
Proof.
  unfold date_sub. simpl td_days.
  destruct ((0 <? toordinal d - n) && (toordinal d - n <=? MAXORDINAL));
    intros H; [|discriminate H].
  injection H as <-. reflexivity.
Qed.

(** The lookups as the spec states them, on a series ordered most recent
    first:
    the points are 2022-04-05 at 100.0 then 2022-04-04 at 80.0.  The most
    recent point is the first one and the series has a point dated one day
    before it, yet the day lookup answers absent, because the current point
    it takes is the last one, 2022-04-04. *)
Lemma lookup_most_recent_first_counterexample :
  Fund_init "F" "usd" "stock"
    [("2022-04-05", price_100); ("2022-04-04", price_80)] None
  = Ok fund_recent_first
  /\ descending_by_date (dates_prices fund_recent_first) = true
  /\ most_recent (dates_prices fund_recent_first)
       (d_2022_04_05, price_100)
  /\ date_sub d_2022_04_05 (mk_timedelta (window_days Day)) = Ok d_2022_04_04
  /\ In (d_2022_04_04, price_80) (dates_prices fund_recent_first)
  /\ py_index (dates_prices fund_recent_first) (-1)
     = Ok (d_2022_04_04, price_80)
  /\ day_performance fund_recent_first = Ok (None, fund_recent_first)
  /\ ~ lookup_most_recent_first Day fund_recent_first.
Proof.
  assert (Hin : In (d_2022_04_04, price_80)
                  (dates_prices fund_recent_first))
    by (right; left; reflexivity).
  repeat split; try reflexivity; try exact Hin.
  - left. reflexivity.
  - intros q [<- | [<- | []]]; reflexivity.
  - intros H.
    destruct (H (d_2022_04_05, price_100) d_2022_04_04
                eq_refl eq_refl) as [Habsent _].
    exact (Habsent eq_refl _ Hin eq_refl).
Qed.

(** C2, amended.  Each fixed-window lookup takes the LAST point of the
    series as its current point and looks for a point dated exactly
    [current.date] minus 1, 7 or 364 days: the answer is absent exactly
    when the series has no such point, and a value it answers is
    [calculate_percentage] of such a point's price and the current price.
    The last point is the most recent one when the series is ordered by
    ascending date; in a series ordered most recent first it is the oldest
    one. *)
Theorem lookup_current_is_last_point (w : window) (fund : Fund)
  (pre : list (date * price)) (current : date * price) (target : date)
  (Hpoints : dates_prices fund = pre ++ [current])
  (Htarget :
     date_sub (fst current) (mk_timedelta (window_days w)) = Ok target) :
  py_index (dates_prices fund) (-1) = Ok current
  /\ toordinal target = toordinal (fst current) - window_days w
  /\ (lookup w fund = Ok (None, fund)
      <-> forall p, In p (dates_prices fund) -> fst p <> target)
  /\ (forall r, lookup w fund = Ok (Some r, fund) ->
        exists p, In p (dates_prices fund) /\ fst p = target
                  /\ calculate_percentage (snd p) (snd current) = Ok r)
  /\ (ascending_by_date (dates_prices fund) = true ->
        most_recent (dates_prices fund) current)
  /\ (descending_by_date (dates_prices fund) = true ->
        forall p, In p (dates_prices fund) ->
                  date_leb (fst current) (fst p) = true).
Proof.
  pose proof (lookup_unfold w fund pre current Hpoints) as Hlookup.
  rewrite Htarget, bind_Ok in Hlookup.
  split; [rewrite Hpoints; apply py_index_last|].
  split; [apply date_sub_ordinal; exact Htarget|].
  split; [|split; [|split]].
  - rewrite Hlookup, compare_with_None_iff. apply scan_None.
  - intros r Hr. rewrite Hlookup in Hr.
    destruct (scan target (dates_prices fund)) as [before|] eqn:Hscan;
      simpl in Hr; [|discriminate Hr].
    apply scan_Some in Hscan. destruct Hscan as [Hin Hdate].
    exists before. split; [exact Hin | split; [exact Hdate|]].
    destruct (calculate_percentage (snd before) (snd current)) as [d|e];
      simpl in Hr; [|discriminate Hr].
    injection Hr as ->. reflexivity.
  - intros Hasc. rewrite Hpoints in *. split.
    + apply in_or_app. right. left. reflexivity.
    + apply ascending_last_is_latest. exact Hasc.
  - intros Hdesc. rewrite Hpoints in *.
    apply descending_last_is_oldest. exact Hdesc.
Qed.

Lemma lookup_current_is_last_point_witness :
  dates_prices fund_week_recent_last
  = [(d_2022_03_29, price_80)] ++ [(d_2022_04_05, price_100)]
  /\ date_sub d_2022_04_05 (mk_timedelta (window_days Week))
     = Ok d_2022_03_29
  /\ py_index (dates_prices fund_week_recent_last) (-1)
     = Ok (d_2022_04_05, price_100)
  /\ most_recent (dates_prices fund_week_recent_last)
       (d_2022_04_05, price_100).
Proof.
  split; [reflexivity | split; [reflexivity |]].
  destruct (lookup_current_is_last_point Week fund_week_recent_last
              [(d_2022_03_29, price_80)]
              (d_2022_04_05, price_100) d_2022_03_29
              eq_refl eq_refl) as [Hlast [_ [_ [_ [Hasc _]]]]].
  split; [exact Hlast | apply Hasc; reflexivity].
Defined.

(** C5.  For a fund whose series has a current point and a target lookback
    date, the date of the current point minus the window: whenever no point
    of the series has the target date, be it a gap at that date or a
    history shorter than the window, each fixed-window lookup returns
    [None] paired with the fund; it raises nothing and it does not answer
    zero. *)
Theorem lookup_unavailable (w : window) (fund : Fund)
  (pre : list (date * price)) (current : date * price) (target : date)
  (Hpoints : dates_prices fund = pre ++ [current])
  (Htarget :
     date_sub (fst current) (mk_timedelta (window_days w)) = Ok target)
  (Hgap : forall p, In p (dates_prices fund) -> fst p <> target) :
  lookup w fund = Ok (None, fund)
  /\ ~ raises (lookup w fund)
  /\ lookup w fund <> Ok (Some zero, fund).
Proof.
  assert (H : lookup w fund = Ok (None, fund)).
  { rewrite (lookup_unfold w fund pre current Hpoints).
    rewrite Htarget, bind_Ok. rewrite (scan_no_match target _ Hgap).
    reflexivity. }
  split; [exact H | split].
  - apply returns_not_raises. exists (None, fund). exact H.
  - rewrite H. discriminate.
Qed.

Lemma lookup_unavailable_witness :
  dates_prices fund_single_day = [] ++ [(d_2022_04_05, price_78_42)]
  /\ date_sub d_2022_04_05 (mk_timedelta (window_days Year))
     = Ok (fromordinal 737886)
  /\ (forall p, In p (dates_prices fund_single_day) ->
                fst p <> fromordinal 737886)
  /\ year_performance fund_single_day = Ok (None, fund_single_day).
Proof.
  assert (Hgap : forall p, In p (dates_prices fund_single_day) ->
                           fst p <> fromordinal 737886).
  { intros p [<- | []]. discriminate. }
  split; [reflexivity | split; [reflexivity | split; [exact Hgap |]]].
  exact (proj1 (lookup_unavailable Year fund_single_day []
                  (d_2022_04_05, price_78_42) (fromordinal 737886)
                  eq_refl eq_refl Hgap)).
Defined.

(** The shorter history: every point is more recent than the target date. *)
Lemma lookup_short_history (w : window) (fund : Fund)
  (pre : list (date * price)) (current : date * price) (target : date) :
  dates_prices fund = pre ++ [current] ->
  date_sub (fst current) (mk_timedelta (window_days w)) = Ok target ->
  (forall p, In p (dates_prices fund) ->
             toordinal (fst current) - window_days w < toordinal (fst p)) ->
  lookup w fund = Ok (None, fund).
Proof.
  intros Hpoints Htarget Hshort.
  rewrite (lookup_unfold w fund pre current Hpoints).
  rewrite Htarget, bind_Ok.
  apply date_sub_ordinal in Htarget.
  rewrite scan_no_match; [reflexivity|].
  intros p Hin E. specialize (Hshort p Hin). rewrite E in Hshort. lia.
Qed.

(** C10.  Each fixed-window lookup goes through the whole series and does
    not stop at the first hit: when several points have the target date, the
    price compared with the current one is that of the last such point in
    the order of the series. *)
Theorem lookup_last_match_wins (w : window) (fund : Fund)
  (before after : list (date * price)) (hit current : date * price)
  (target : date)
  (Hpoints : dates_prices fund = before ++ hit :: after)
  (Hcurrent : py_index (dates_prices fund) (-1) = Ok current)
  (Htarget :
     date_sub (fst current) (mk_timedelta (window_days w)) = Ok target)
  (Hhit : fst hit = target)
  (Hafter : forall p, In p after -> fst p <> target) :
  lookup w fund
  = (difference <- calculate_percentage (snd hit) (snd current) ;;
     Ok (Some difference, fund)).
Proof.
  assert (Hne : dates_prices fund <> []).
  { rewrite Hpoints. destruct before; discriminate. }
  destruct (nonempty_last _ Hne) as [pre [last Hlast]].
  assert (last = current).
  { rewrite Hlast, py_index_last in Hcurrent. injection Hcurrent; auto. }
  subst last.
  rewrite (lookup_unfold w fund pre current Hlast).
  rewrite Htarget, bind_Ok. rewrite Hpoints.
  rewrite (scan_last_match target before after hit Hhit Hafter).
  reflexivity.
Qed.

Lemma lookup_last_match_wins_witness :
  dates_prices fund_repeated_day
  = [(d_2022_04_04, price_50)]
      ++ (d_2022_04_04, price_80) :: [(d_2022_04_05, price_100)]
  /\ py_index (dates_prices fund_repeated_day) (-1)
     = Ok (d_2022_04_05, price_100)
  /\ date_sub d_2022_04_05 (mk_timedelta (window_days Day)) = Ok d_2022_04_04
  /\ day_performance fund_repeated_day
     = (difference <- calculate_percentage price_80 price_100 ;;
        Ok (Some difference, fund_repeated_day)).
Proof.
  split; [reflexivity | split; [reflexivity | split; [reflexivity |]]].
  apply (lookup_last_match_wins Day fund_repeated_day
           [(d_2022_04_04, price_50)] [(d_2022_04_05, price_100)]
           (d_2022_04_04, price_80) (d_2022_04_05, price_100)
           d_2022_04_04 eq_refl eq_refl eq_refl eq_refl).
  intros p [<- | []]. discriminate.
Defined.

Example day_performance_repeated_day :
  day_performance fund_repeated_day
  = Ok (Some (float_of_Z 20), fund_repeated_day)
  /\ calculate_percentage price_50 price_100
     = Ok (float_of_Z 50).
Proof. split; reflexivity. Qed.

(** The week scenario as the spec states it, the most recent point first:
    the week
    lookup takes 2022-03-29 as its current point, finds no point a week
    before it and answers absent; and [calculate_percentage] of 80.0 and
    100.0 is 20.0, not 25.0. *)
Lemma week_performance_recent_first_counterexample :
  Fund_init "F" "usd" "stock"
    [("2022-04-05", price_100); ("2022-03-29", price_80)] None
  = Ok fund_week_recent_first
  /\ date_sub d_2022_04_05 (timedelta_of 0 1) = Ok d_2022_03_29
  /\ week_performance fund_week_recent_first
     = Ok (None, fund_week_recent_first)
  /\ calculate_percentage price_80 price_100
     = Ok (float_of_Z 20)
  /\ feqb (float_of_Z 20) (float_of_Z 25) = false.
Proof. repeat split; reflexivity. Qed.

(** C9, amended.  For a fund whose points are [(d0 - 7 days, 80.0)] then
    [(d0, 100.0)], the most recent one last, the week lookup returns
    [calculate_percentage 80.0 100.0], and that value is 20.0: the increase
    of 20.0 is divided by the last price, 100.0. *)
Theorem week_performance_scenario (fund : Fund) (d0 d7 : date)
  (Hpoints :
     dates_prices fund = [(d7, price_80); (d0, price_100)])
  (Hweek : date_sub d0 (timedelta_of 0 1) = Ok d7) :
  week_performance fund = Ok (Some (float_of_Z 20), fund)
  /\ calculate_percentage price_80 price_100
     = Ok (float_of_Z 20).
Proof.
  split; [|reflexivity].
  change (week_performance fund) with (lookup Week fund).
  rewrite (lookup_unfold Week fund [(d7, price_80)]
             (d0, price_100) Hpoints).
  change (mk_timedelta (window_days Week)) with (timedelta_of 0 1).
  simpl fst. rewrite Hweek, bind_Ok. rewrite Hpoints.
  assert (Hscan : scan d7 [(d7, price_80); (d0, price_100)]
                  = Some (d7, price_80)).
  { apply (scan_last_match d7 [] [(d0, price_100)]
             (d7, price_80) eq_refl).
    intros p [<- | []]. simpl. intros E. subst d0.
    change (timedelta_of 0 1) with (mk_timedelta 7) in Hweek.
    apply date_sub_ordinal in Hweek. lia. }
  rewrite Hscan. reflexivity.
Qed.

Lemma week_performance_scenario_witness :
  dates_prices fund_week_recent_last
  = [(d_2022_03_29, price_80); (d_2022_04_05, price_100)]
  /\ date_sub d_2022_04_05 (timedelta_of 0 1) = Ok d_2022_03_29
  /\ week_performance fund_week_recent_last
     = Ok (Some (float_of_Z 20), fund_week_recent_last)
  /\ calculate_percentage price_80 price_100
     = Ok (float_of_Z 20).
Proof.
  split; [reflexivity | split; [reflexivity |]].
  exact (week_performance_scenario fund_week_recent_last
           d_2022_04_05 d_2022_03_29 eq_refl eq_refl).
Defined.

(** ** [Fund]: construction and equality *)

Lemma Fund_init_fields (symbol0 currency0 instrument_type0 : string)
  (dates_prices0 : list (string * price)) (name0 : option string)
  (f : Fund) :
  Fund_init symbol0 currency0 instrument_type0 dates_prices0 name0 = Ok f ->
  symbol f = upper symbol0
  /\ currency f = upper currency0
  /\ instrument_type f = upper instrument_type0
  /\ name f = name0.
Proof.
  unfold Fund_init. intros H.
  apply bind_inv_Ok in H. destruct H as [dps [_ H]].
  injection H as <-. repeat split.
Qed.

Lemma Fund_eq_Fund (f g : Fund) :
  Fund_eq f (OFund g)
  = (_ <- Fund_str g ;; Ok (String.eqb (symbol f) (symbol g))).
Proof. simpl. destruct (String.eqb (symbol f) (symbol g)); reflexivity. Qed.

Lemma Fund_eq_Fund_Ok (f g : Fund) (b : bool) :
  Fund_eq f (OFund g) = Ok b
  <-> returns (Fund_str g) /\ b = String.eqb (symbol f) (symbol g).
Proof.
  rewrite Fund_eq_Fund. split.
  - intros H. apply bind_inv_Ok in H. destruct H as [text [Ht H]].
    injection H as <-. split; [exists text; exact Ht | reflexivity].
  - intros [[text Ht] ->]. rewrite Ht. reflexivity.
Qed.

Lemma Fund_eq_Fund_Raise (f g : Fund) (e : exn) :
  Fund_eq f (OFund g) = Raise e <-> Fund_str g = Raise e.
Proof.
  rewrite Fund_eq_Fund. destruct (Fund_str g) as [text|e']; simpl.
  - split; discriminate.
  - split; intros H; injection H as ->; reflexivity.
Qed.

Lemma Fund_eq_str (f : Fund) (text : string) :
  Fund_eq f (OVal (PStr text)) = Ok (String.eqb (symbol f) text).
Proof. simpl. destruct (String.eqb (symbol f) text); reflexivity. Qed.

Lemma Ok_eqb_true (a b : string) :
  @Ok bool (String.eqb a b) = Ok true <-> a = b.
Proof.
  rewrite <- String.eqb_eq. split; intros H.
  - injection H; auto.
  - rewrite H. reflexivity.
Qed.

(** C3: the code at a right-hand fund whose summary does not render.
    [Fund.__eq__] logs its operand before it compares, and for a fund that
    is a call of [Fund.__str__]: a comparison with a fund returns exactly
    when the summary of that fund renders, and is then decided by the
    symbols alone, but it raises what the summary raises when it does not
    render.  So the fund built from ["FXAIX"] compared with the fund built
    from ["fxaix"] whose single point has no price raises [IndexError]
    instead of answering [True], that fund compared with itself raises as
    well, and so does a comparison with a fund of an empty series; the
    other way round the answer is [True].  With a string the comparison
    always returns: the upper-cased symbol against the string as it
    stands. *)
Theorem Fund_eq_formats_operand :
  (forall f g b,
     Fund_eq f (OFund g) = Ok b
     <-> returns (Fund_str g) /\ b = String.eqb (symbol f) (symbol g))
  /\ (forall f g e, Fund_eq f (OFund g) = Raise e <-> Fund_str g = Raise e)
  /\ (Fund_init "FXAIX" "usd" "mutualfund" [("2022-04-05", price_78_42)]
         None = Ok fund_fxaix
      /\ Fund_init "fxaix" "USD" "MutualFund" [("2022-04-05", None)] None
         = Ok fund_absent_price
      /\ Fund_eq fund_fxaix (OFund fund_absent_price) = Raise IndexError
      /\ Fund_eq fund_absent_price (OFund fund_absent_price)
         = Raise IndexError
      /\ Fund_eq fund_absent_price (OFund fund_fxaix) = Ok true
      /\ Fund_eq fund_fxaix (OFund (mkFund "FXAIX" "USD" "MUTUALFUND" [] None))
         = Raise IndexError)
  /\ (forall s1 c1 t1 dps1 n1 s2 c2 t2 dps2 n2 f g,
        Fund_init s1 c1 t1 dps1 n1 = Ok f ->
        Fund_init s2 c2 t2 dps2 n2 = Ok g ->
        returns (Fund_str g) ->
        Fund_eq f (OFund g) = Ok (String.eqb (upper s1) (upper s2)))
  /\ (forall s c t dps n f,
        Fund_init s c t dps n = Ok f ->
        forall text,
          Fund_eq f (OVal (PStr text)) = Ok (String.eqb (upper s) text)
          /\ (Fund_eq f (OVal (PStr text)) = Ok true <-> upper s = text)).
Proof.
  split; [exact Fund_eq_Fund_Ok|].
  split; [exact Fund_eq_Fund_Raise|].
  split; [repeat split; reflexivity|].
  split.
  - intros s1 c1 t1 dps1 n1 s2 c2 t2 dps2 n2 f g Hf Hg Hstr.
    destruct (Fund_init_fields _ _ _ _ _ _ Hf) as [Sf _].
    destruct (Fund_init_fields _ _ _ _ _ _ Hg) as [Sg _].
    apply Fund_eq_Fund_Ok. split; [exact Hstr|]. rewrite Sf, Sg.
    reflexivity.
  - intros s c t dps n f Hf text.
    destruct (Fund_init_fields _ _ _ _ _ _ Hf) as [Sf _].
    rewrite Fund_eq_str, Sf.
    split; [reflexivity | apply Ok_eqb_true].
Qed.



(** The comparison returns exactly on strings and on funds whose summary
    renders. *)
Lemma Fund_eq_returns_iff (f : Fund) (other : operand) :
  returns (Fund_eq f other)
  <-> (exists g, other = OFund g /\ returns (Fund_str g))
      \/ isinstance_str other = true.
Proof.
  split.
  - intros [b H]. destruct other as [g | v].
    + left. exists g. split; [reflexivity|].
      apply Fund_eq_Fund_Ok in H. exact (proj1 H).
    + destruct v; try discriminate H. right. reflexivity.
  - intros [[g [-> Hg]] | H].
    + exists (String.eqb (symbol f) (symbol g)).
      apply Fund_eq_Fund_Ok. split; [exact Hg | reflexivity].
    + destruct other as [g | v]; [discriminate H|].
      destruct v; try discriminate H.
      exists (String.eqb (symbol f) s). apply Fund_eq_str.
Qed.

(** ** [Fund.__str__] *)

Lemma py_index_last_but_one {A : Type} (pre : list A) (a b : A) :
  py_index (pre ++ [a; b]) (-2) = Ok a.
Proof.
  unfold py_index. rewrite length_app. simpl List.length.
  change (-2 <? 0) with true. cbv iota.
  rewrite Nat2Z.inj_add. change (Z.of_nat 2) with 2.
  replace (-2 + (Z.of_nat (List.length pre) + 2))
    with (Z.of_nat (List.length pre)) by lia.
  assert (Hin : (0 <=? Z.of_nat (List.length pre))
                && (Z.of_nat (List.length pre)
                    <? Z.of_nat (List.length pre) + 2) = true).
  { apply andb_true_iff. split; [apply Z.leb_le | apply Z.ltb_lt]; lia. }
  rewrite Hin, Nat2Z.id.
  rewrite nth_error_app2 by lia. rewrite Nat.sub_diag. reflexivity.
Qed.

(** The text of the summary for a given date and formatted price. *)
Lemma Fund_str_latest_available (f : Fund) (pre : list (date * price))
  (latest : date * price) :
  dates_prices f = pre ++ [latest] ->
  py_bool (snd latest) = true ->
  Fund_str f
  = (formatted_price <- format_2f (snd latest) ;;
     Ok (symbol f +++ " - " +++ name_or_empty f +++ newline
         +++ currency f +++ " - " +++ instrument_type f +++ newline
         +++ "Latest price: " +++ isoformat (fst latest)
         +++ " - $" +++ formatted_price)).
Proof.
  intros Hpoints Hprice. unfold Fund_str.
  rewrite Hpoints, py_index_last, bind_Ok, Hprice. reflexivity.
Qed.

(** One step back: when the price of the last point is [None] (or zero),
    the price shown is that of the point before it, and the date shown is
    still that of the last point. *)
Lemma Fund_str_fallback (f : Fund) (pre : list (date * price))
  (previous latest : date * price) :
  dates_prices f = pre ++ [previous; latest] ->
  py_bool (snd latest) = false ->
  Fund_str f
  = (formatted_price <- format_2f (snd previous) ;;
     Ok (symbol f +++ " - " +++ name_or_empty f +++ newline
         +++ currency f +++ " - " +++ instrument_type f +++ newline
         +++ "Latest price: " +++ isoformat (fst latest)
         +++ " - $" +++ formatted_price)).
Proof.
  intros Hpoints Hprice. unfold Fund_str.
  rewrite Hpoints.
  replace (pre ++ [previous; latest]) with ((pre ++ [previous]) ++ [latest])
    at 1 by (rewrite <- app_assoc; reflexivity).
  rewrite py_index_last, bind_Ok, Hprice.
  rewrite py_index_last_but_one, bind_Ok. reflexivity.
Qed.

(** The summary as the spec states it, the points in the order given there:
    2022-04-05
    without a price, then 2022-04-04 at 78.42.  The last point has a price,
    so no fallback happens, and both the date and the price shown are those
    of 2022-04-04. *)
Lemma Fund_str_absent_first_counterexample :
  exists f,
    Fund_init "FSMAX" "USD" "MUTUALFUND"
      [("2022-04-05", None); ("2022-04-04", price_78_42)] None = Ok f
    /\ Fund_str f
       = Ok ("FSMAX - " +++ newline +++ "USD - MUTUALFUND" +++ newline
             +++ "Latest price: 2022-04-04 - $78.42")
    /\ Fund_str f
       <> Ok ("FSMAX - " +++ newline +++ "USD - MUTUALFUND" +++ newline
              +++ "Latest price: 2022-04-05 - $78.42").
Proof.
  eexists. split; [reflexivity | split; [reflexivity | discriminate]].
Qed.

(** C6, amended.  For the fund whose points are [(2022-04-04, 78.42)] then
    [(2022-04-05, absent)], the most recent one last, the latest-price line
    of the summary is exactly [Latest price: 2022-04-05 - $78.42]: the
    price of the last point is absent, so the price shown falls back one
    step to the point before it, while the date shown stays that of the
    last point. *)
Theorem Fund_str_absent_latest_price
  (symbol0 currency0 instrument_type0 : string) (name0 : option string) :
  exists f,
    Fund_init symbol0 currency0 instrument_type0
      [("2022-04-04", price_78_42); ("2022-04-05", None)] name0 = Ok f
    /\ dates_prices f
       = [(d_2022_04_04, price_78_42); (d_2022_04_05, None)]
    /\ Fund_str f
       = Ok (upper symbol0 +++ " - "
             +++ match name0 with Some n => n | None => "" end +++ newline
             +++ upper currency0 +++ " - " +++ upper instrument_type0
             +++ newline +++ "Latest price: 2022-04-05 - $78.42").
Proof.
  eexists. split; [reflexivity | split; reflexivity].
Qed.

Example Fund_str_docstring :
  Fund_str (mkFund "FSMAX" "USD" "MUTUALFUND"
              [(d_2022_04_04, price_78_42); (d_2022_04_05, None)] None)
  = Ok ("FSMAX - " +++ newline +++ "USD - MUTUALFUND" +++ newline
        +++ "Latest price: 2022-04-05 - $78.42").
Proof. reflexivity. Qed.

Example Fund_str_too_short :
  Fund_str (mkFund "F" "USD" "STOCK" [] None) = Raise IndexError
  /\ Fund_str (mkFund "F" "USD" "STOCK" [(d_2022_04_05, None)] None)
     = Raise IndexError
  /\ Fund_str (mkFund "F" "USD" "STOCK"
                 [(d_2022_04_04, None); (d_2022_04_05, None)] None)
     = Raise TypeError.
Proof. repeat split; reflexivity. Qed.

(** ** [generate_fund_performance_str] *)

(** C7: the code at a fund with a single day of history.  The summary
    renders and the day lookup answers [None]; formatting that [None] with
    two decimals raises [TypeError], so no string is returned and no
    placeholder is rendered. *)
Theorem generate_fund_performance_str_absent_lookup :
  Fund_str fund_single_day
  = Ok ("F - " +++ newline +++ "USD - STOCK" +++ newline
        +++ "Latest price: 2022-04-05 - $78.42")
  /\ day_performance fund_single_day = Ok (None, fund_single_day)
  /\ week_performance fund_single_day = Ok (None, fund_single_day)
  /\ year_performance fund_single_day = Ok (None, fund_single_day)
  /\ generate_fund_performance_str fund_single_day true true true
     = Raise TypeError
  /\ generate_fund_performance_str fund_single_day true false false
     = Raise TypeError
  /\ generate_fund_performance_str fund_single_day false true false
     = Raise TypeError
  /\ generate_fund_performance_str fund_single_day false false true
     = Raise TypeError.
Proof. repeat split; reflexivity. Qed.

(** The same for every fund: a requested window whose lookup answers [None]
    makes the call raise, whatever the other windows are. *)
Lemma generate_fund_performance_str_absent_raises (fund : Fund)
  (day week year : bool) :
  (day = true /\ day_performance fund = Ok (None, fund))
  \/ (week = true /\ week_performance fund = Ok (None, fund))
  \/ (year = true /\ year_performance fund = Ok (None, fund)) ->
  raises (generate_fund_performance_str fund day week year).
Proof.
  intros H. unfold generate_fund_performance_str, raises.
  destruct (Fund_str fund) as [s|e]; [|exists e; reflexivity].
  rewrite bind_Ok.
  destruct day.
  - destruct (day_performance fund) as [[[d|] f']|e] eqn:Hd;
      try (eexists; reflexivity); simpl.
    destruct week.
    + destruct (week_performance fund) as [[[d'|] f'']|e] eqn:Hw;
        try (eexists; reflexivity); simpl.
      destruct year.
      * destruct (year_performance fund) as [[[d''|] f''']|e] eqn:Hy;
          try (eexists; reflexivity); simpl.
        exfalso. destruct H as [[_ H] | [[_ H] | [_ H]]]; discriminate H.
      * exfalso. destruct H as [[_ H] | [[_ H] | [H _]]]; discriminate H.
    + destruct year.
      * destruct (year_performance fund) as [[[d''|] f''']|e] eqn:Hy;
          try (eexists; reflexivity); simpl.
        exfalso. destruct H as [[_ H] | [[H _] | [_ H]]]; discriminate H.
      * exfalso. destruct H as [[_ H] | [[H _] | [H _]]]; discriminate H.
  - simpl. destruct week.
    + destruct (week_performance fund) as [[[d'|] f'']|e] eqn:Hw;
        try (eexists; reflexivity); simpl.
      destruct year.
      * destruct (year_performance fund) as [[[d''|] f''']|e] eqn:Hy;
          try (eexists; reflexivity); simpl.
        exfalso. destruct H as [[H _] | [[_ H] | [_ H]]]; discriminate H.
      * exfalso. destruct H as [[H _] | [[_ H] | [H _]]]; discriminate H.
    + simpl. destruct year.
      * destruct (year_performance fund) as [[[d''|] f''']|e] eqn:Hy;
          try (eexists; reflexivity); simpl.
        exfalso. destruct H as [[H _] | [[H _] | [_ H]]]; discriminate H.
      * exfalso. destruct H as [[H _] | [[H _] | [H _]]]; discriminate H.
Qed.

(** With every requested lookup available the lines are rendered. *)
Example generate_fund_performance_str_week :
  generate_fund_performance_str fund_week_recent_last false true false
  = Ok ("F - " +++ newline +++ "USD - STOCK" +++ newline
        +++ "Latest price: 2022-04-05 - $100.00" +++ newline
        +++ "Previous week: 20.00%").
Proof. reflexivity. Qed.

(** ** [parse_fund_data] *)

(** C8: the code at payloads that do not have the expected shape.  An entry
    without the ['prices'] key raises [KeyError], an entry that is [None]
    raises [TypeError], a payload without any key raises [IndexError], and
    a payload that is not a mapping raises [AttributeError]; none of them
    returns [None]. *)
Theorem parse_fund_data_malformed_raises :
  parse_fund_data payload_without_prices = Raise KeyError
  /\ parse_fund_data payload_null_entry = Raise TypeError
  /\ parse_fund_data (PDict []) = Raise IndexError
  /\ parse_fund_data (PList []) = Raise AttributeError
  /\ parse_fund_data
       (PDict [("F", PDict [("currency", PStr "USD");
                            ("instrumentType", PStr "EQUITY");
                            ("prices", PList [PDict [("close", PNone)]])])])
     = Raise KeyError.
Proof. repeat split; reflexivity. Qed.

(** Whatever the payload, a call that returns never returns [None]. *)
Lemma parse_fund_data_never_None (data : pyval) :
  parse_fund_data data <> Ok None.
Proof.
  unfold parse_fund_data.
  repeat
    match goal with
    | |- bind ?c _ <> _ =>
        let H := fresh in
        destruct c eqn:H; [rewrite bind_Ok | rewrite bind_Raise; discriminate]
    end.
  simpl. discriminate.
Qed.

Example parse_fund_data_ok :
  parse_fund_data payload_ok
  = Ok (Some (mk_fund_data "F" (PStr "usd") (PStr "stock")
                [(PStr "2022-04-05", PFloat (decimal 7842 2))])).
Proof. reflexivity. Qed.

(** ** More on [calculate_percentage] *)

(** Comparing in the other direction gives the opposite answer. *)
Lemma SFcompare_antisym (x y : float) :
  SFcompare y x = option_map CompOpp (SFcompare x y).
Proof.
  destruct x as [sx | sx | | sx mx ex], y as [sy | sy | | sy my ey];
    try reflexivity;
    try (destruct sx; reflexivity);
    try (destruct sy; reflexivity);
    try (destruct sx, sy; reflexivity).
  unfold SFcompare.
  change (Pos.compare_cont Eq my mx) with (Pos.compare my mx).
  change (Pos.compare_cont Eq mx my) with (Pos.compare mx my).
  rewrite (Z.compare_antisym ex ey), (Pos.compare_antisym mx my).
  destruct sx, sy; simpl; try reflexivity;
    destruct (ex ?= ey); simpl; try reflexivity;
    destruct (mx ?= my)%positive; reflexivity.
Qed.

Lemma SFcompare_None (x y : float) :
  SFcompare x y = None <-> is_nan x = true \/ is_nan y = true.
Proof.
  split.
  - destruct x as [sx | sx | | sx mx ex], y as [sy | sy | | sy my ey];
      simpl; intros H; try discriminate H; auto.
  - intros [H | H].
    + destruct x; try discriminate H. reflexivity.
    + destruct y; try discriminate H. destruct x; reflexivity.
Qed.

(** The three comparisons of two floats: exactly one holds, unless one of
    them is a NaN, and then none does. *)
Lemma float_trichotomy (x y : float) :
  is_nan x = false -> is_nan y = false ->
  (feqb x y = true /\ fltb x y = false /\ fltb y x = false)
  \/ (feqb x y = false /\ fltb x y = true /\ fltb y x = false)
  \/ (feqb x y = false /\ fltb x y = false /\ fltb y x = true).
Proof.
  intros Hx Hy. unfold feqb, fltb, SFeqb, SFltb.
  rewrite (SFcompare_antisym x y).
  destruct (SFcompare x y) as [[| |]|] eqn:E; simpl; auto.
  apply SFcompare_None in E. destruct E as [E | E]; congruence.
Qed.

Lemma float_nan_compare (x y : float) :
  is_nan x = true \/ is_nan y = true ->
  feqb x y = false /\ fltb x y = false /\ fltb y x = false.
Proof.
  intros H. unfold feqb, fltb, SFeqb, SFltb.
  assert (E1 : SFcompare x y = None) by (apply SFcompare_None; exact H).
  assert (E2 : SFcompare y x = None) by (apply SFcompare_None; tauto).
  rewrite E1, E2. repeat split.
Qed.

Lemma is_price_not_nan (x : float) : is_price x = true -> is_nan x = false.
Proof. destruct x; try discriminate; reflexivity. Qed.

(** [calculate_percentage] on two floats, branch by branch. *)
Lemma calculate_percentage_floats (x y : float) :
  calculate_percentage (Some x) (Some y)
  = if feqb x y then Ok zero
    else if fltb y x then
      if feqb x zero then Raise ZeroDivisionError
      else Ok (fopp (fabs (fmul (fdiv (fsub x y) x) hundred)))
    else if fltb x y then
      if feqb y zero then Raise ZeroDivisionError
      else Ok (fmul (fdiv (fsub y x) y) hundred)
    else Raise UnboundLocalError.
Proof.
  unfold calculate_percentage, py_eq, py_gt, py_lt, py_sub, py_truediv.
  destruct (feqb x y); [reflexivity|]. simpl bind.
  destruct (fltb y x).
  - destruct (feqb x zero); reflexivity.
  - simpl bind. destruct (fltb x y); [|reflexivity].
    destruct (feqb y zero); reflexivity.
Qed.

(** X1.  The exceptions of [calculate_percentage] on floats.  It raises
    [UnboundLocalError] exactly when an argument is a NaN, for which no
    comparison holds; it raises [ZeroDivisionError] exactly when the larger
    argument, which is the divisor, is a zero; and it raises nothing
    else. *)
Theorem calculate_percentage_exceptions (x y : float) :
  (calculate_percentage (Some x) (Some y) = Raise UnboundLocalError
   <-> is_nan x = true \/ is_nan y = true)
  /\ (calculate_percentage (Some x) (Some y) = Raise ZeroDivisionError
      <-> (fltb y x = true /\ feqb x zero = true)
          \/ (fltb x y = true /\ feqb y zero = true))
  /\ (forall e, calculate_percentage (Some x) (Some y) = Raise e ->
                e = UnboundLocalError \/ e = ZeroDivisionError).
Proof.
  rewrite calculate_percentage_floats.
  destruct (is_nan x || is_nan y) eqn:N.
  - apply orb_true_iff in N.
    destruct (float_nan_compare x y N) as [E [L G]]. rewrite E, L, G.
    split; [|split].
    + split; [intros _; exact N | reflexivity].
    + split; [discriminate|]. intros [[H _] | [H _]]; discriminate H.
    + intros e H. injection H as <-. left. reflexivity.
  - apply orb_false_iff in N. destruct N as [Nx Ny].
    destruct (float_trichotomy x y Nx Ny)
      as [[E [L G]] | [[E [L G]] | [E [L G]]]]; rewrite E, ?L, ?G.
    + split; [|split].
      * split; [discriminate | intros [H | H]; congruence].
      * split; [discriminate|]. intros [[H _] | [H _]]; discriminate H.
      * intros e H. discriminate H.
    + destruct (feqb y zero) eqn:Z; (split; [|split]).
      * split; [discriminate | intros [H | H]; congruence].
      * split; [intros _; right; split; reflexivity | reflexivity].
      * intros e H. injection H as <-. right. reflexivity.
      * split; [discriminate | intros [H | H]; congruence].
      * split; [discriminate|]. intros [[H _] | [_ H]]; discriminate H.
      * intros e H. discriminate H.
    + destruct (feqb x zero) eqn:Z; (split; [|split]).
      * split; [discriminate | intros [H | H]; congruence].
      * split; [intros _; left; split; reflexivity | reflexivity].
      * intros e H. injection H as <-. right. reflexivity.
      * split; [discriminate | intros [H | H]; congruence].
      * split; [discriminate|]. intros [[_ H] | [H _]]; discriminate H.
      * intros e H. discriminate H.
Qed.

(** X2.  On prices [calculate_percentage] always returns. *)
Theorem calculate_percentage_returns_on_prices (first last : float)
  (Hfirst : is_price first = true) (Hlast : is_price last = true) :
  returns (calculate_percentage (Some first) (Some last)).
Proof.
  rewrite calculate_percentage_floats.
  destruct (float_trichotomy first last (is_price_not_nan _ Hfirst)
              (is_price_not_nan _ Hlast))
    as [[E [L G]] | [[E [L G]] | [E [L G]]]]; rewrite E, ?L, ?G.
  - eexists. reflexivity.
  - destruct (percent_of_difference last first Hlast Hfirst L)
      as [_ [_ [_ [_ Hnz]]]].
    rewrite Hnz. eexists. reflexivity.
  - destruct (percent_of_difference first last Hfirst Hlast G)
      as [_ [_ [_ [_ Hnz]]]].
    rewrite Hnz. eexists. reflexivity.
Qed.

Lemma calculate_percentage_returns_on_prices_witness :
  returns (calculate_percentage price_80 price_100).
Proof.
  exact (calculate_percentage_returns_on_prices (float_of_Z 80)
           (float_of_Z 100) eq_refl eq_refl).
Defined.

(** Swapping two different prices only changes the sign of the answer. *)
Lemma calculate_percentage_opposite (a b : float)
  (Ha : is_price a = true) (Hb : is_price b = true)
  (Hne : feqb a b = false) :
  exists d,
    calculate_percentage (Some a) (Some b) = Ok d
    /\ calculate_percentage (Some b) (Some a) = Ok (fopp d)
    /\ feqb d zero = false.
Proof.
  assert (Hopp : forall r, fopp (fopp r) = r).
  { intros r. destruct r as [s | s | | s m e]; simpl; try reflexivity;
      rewrite negb_involutive; reflexivity. }
  rewrite !calculate_percentage_floats.
  destruct (float_trichotomy a b (is_price_not_nan _ Ha)
              (is_price_not_nan _ Hb))
    as [[E [L G]] | [[E [L G]] | [E [L G]]]]; [congruence | |].
  - (* a < b *)
    destruct (percent_of_difference b a Hb Ha L)
      as [Hpos [Eba [Eab [_ Hnz]]]].
    destruct (pos_result_sign _ _ Hpos) as [Habs [_ [_ Hz]]].
    rewrite Eab, Eba, G, L, Hnz.
    exists (fmul (fdiv (fsub b a) b) hundred).
    split; [reflexivity | split; [|exact Hz]].
    unfold fopp, fabs. rewrite Habs. reflexivity.
  - (* b < a *)
    destruct (percent_of_difference a b Ha Hb G)
      as [Hpos [Eab [Eba [_ Hnz]]]].
    destruct (pos_result_sign _ _ Hpos) as [Habs [_ [_ Hz]]].
    rewrite Eab, Eba, G, L, Hnz.
    exists (fopp (fabs (fmul (fdiv (fsub a b) a) hundred))).
    split; [reflexivity | split].
    + unfold fopp at 1 2, fabs. rewrite Habs, Hopp. reflexivity.
    + unfold fopp, fabs. rewrite Habs.
      destruct Hpos as [-> | [m [e [-> _]]]]; reflexivity.
Qed.

(** X3.  Swapping two different prices only changes the sign of the answer:
    both directions divide by the larger price, and neither answer is a
    zero. *)
Theorem calculate_percentage_swap (a b : float)
  (Ha : is_price a = true) (Hb : is_price b = true)
  (Hne : feqb a b = false) :
  exists d,
    calculate_percentage (Some a) (Some b) = Ok d
    /\ calculate_percentage (Some b) (Some a) = Ok (fopp d)
    /\ feqb d zero = false.
Proof. exact (calculate_percentage_opposite a b Ha Hb Hne). Qed.

Lemma calculate_percentage_swap_witness :
  exists d,
    calculate_percentage price_80 price_100 = Ok d
    /\ calculate_percentage price_100 price_80 = Ok (fopp d)
    /\ feqb d zero = false.
Proof.
  exact (calculate_percentage_swap (float_of_Z 80) (float_of_Z 100)
           eq_refl eq_refl eq_refl).
Defined.

(** ** Collecting results *)

Lemma mapM_Ok {A B : Type} (f : A -> result B) (l : list A) (bs : list B) :
  mapM f l = Ok bs -> Forall2 (fun a b => f a = Ok b) l bs.
Proof.
  revert bs. induction l as [|a l IH]; intros bs H; simpl in H.
  - injection H as <-. constructor.
  - destruct (f a) as [b|e] eqn:E; simpl in H; [|discriminate H].
    destruct (mapM f l) as [bs'|e] eqn:E'; simpl in H; [|discriminate H].
    injection H as <-. constructor; [exact E | apply IH; reflexivity].
Qed.

Lemma mapM_Ok_intro {A B : Type} (f : A -> result B) (l : list A)
  (bs : list B) :
  Forall2 (fun a b => f a = Ok b) l bs -> mapM f l = Ok bs.
Proof.
  induction 1 as [|a b l bs Hab _ IH]; simpl.
  - reflexivity.
  - rewrite Hab, IH. reflexivity.
Qed.

(** The exception of a collection is that of its first failing element. *)
Lemma mapM_Raise {A B : Type} (f : A -> result B) (l : list A) (e : exn) :
  mapM f l = Raise e ->
  exists pre a post,
    l = pre ++ a :: post
    /\ (forall x, In x pre -> returns (f x))
    /\ f a = Raise e.
Proof.
  induction l as [|a l IH]; intros H; simpl in H; [discriminate H|].
  destruct (f a) as [b|e'] eqn:E; simpl in H.
  - destruct (mapM f l) as [bs'|e''] eqn:E'; simpl in H; [discriminate H|].
    injection H as ->. destruct (IH eq_refl) as [pre [x [post [Hl [Hpre Hx]]]]].
    exists (a :: pre), x, post. split; [rewrite Hl; reflexivity|].
    split; [|exact Hx].
    intros y [<- | Hy]; [exists b; exact E | apply Hpre; exact Hy].
  - injection H as ->. exists [], a, l. split; [reflexivity|].
    split; [intros x []| exact E].
Qed.

(** ** Dates read by [strptime] *)

Lemma date_of_ymd_raises (y m d : Z) (e : exn) :
  date_of_ymd y m d = Raise e -> e = ValueError.
Proof.
  unfold date_of_ymd.
  destruct ((MINYEAR <=? y) && (y <=? MAXYEAR) && (1 <=? m) && (m <=? 12)
            && (1 <=? d) && (d <=? days_in_month y m));
    intros H; [discriminate H | injection H; auto].
Qed.

(** A text that is not a date raises [ValueError] and nothing else. *)
Lemma strptime_date_raises (text : string) (e : exn) :
  strptime_date text = Raise e -> e = ValueError.
Proof.
  unfold strptime_date.
  destruct (parse_Y text) as [[y s1]|]; [|intros H; injection H; auto].
  destruct (literal_dash s1) as [s2|]; [|intros H; injection H; auto].
  destruct (parse_m s2) as [[m s3]|]; [|intros H; injection H; auto].
  destruct (literal_dash s3) as [s4|]; [|intros H; injection H; auto].
  destruct (parse_d s4) as [[d [|c s5]]|]; try (intros H; injection H; auto).
  apply date_of_ymd_raises.
Qed.

Lemma days_before_year_mono (y y' : Z) :
  y <= y' -> days_before_year y <= days_before_year y'.
Proof.
  unfold days_before_year. intros H.
  pose proof (Z.div_le_mono (y - 1) (y' - 1) 4).
  pose proof (Z.div_le_mono (y - 1) (y' - 1) 400).
  (* the century term is subtracted: bound the three together *)
  assert (Hc : (y' - 1) / 100 - (y - 1) / 100 <= (y' - 1) / 4 - (y - 1) / 4).
  { Z.div_mod_to_equations. lia. }
  lia.
Qed.

Lemma days_in_year_bound (y m d : Z) :
  1 <= m <= 12 -> 1 <= d <= days_in_month y m ->
  1 <= days_before_month y m + d
  /\ days_before_month y m + d <= 365 + (if is_leap y then 1 else 0).
Proof.
  intros Hm Hd. unfold days_before_month, days_in_month in *.
  assert (Hcases : m = 1 \/ m = 2 \/ m = 3 \/ m = 4 \/ m = 5 \/ m = 6
                   \/ m = 7 \/ m = 8 \/ m = 9 \/ m = 10 \/ m = 11 \/ m = 12)
    by lia.
  destruct (is_leap y);
    repeat (destruct Hcases as [Hc | Hcases]); subst m;
    repeat match goal with
      | H : context [nth ?n ?l ?x] |- _ =>
          let v := eval vm_compute in (nth n l x) in
          change (nth n l x) with v in H
      | |- context [nth ?n ?l ?x] =>
          let v := eval vm_compute in (nth n l x) in
          change (nth n l x) with v
      end;
    repeat match goal with
      | H : context [if ?b then ?u else ?v] |- _ =>
          let c := eval vm_compute in b in
          change (if b then u else v) with (if c then u else v) in H;
          cbv iota in H
      | |- context [if ?b then ?u else ?v] =>
          let c := eval vm_compute in b in
          change (if b then u else v) with (if c then u else v);
          cbv iota
      end;
    lia.
Qed.

Lemma days_before_next_year (y : Z) :
  days_before_year (y + 1)
  = days_before_year y + 365 + (if is_leap y then 1 else 0).
Proof.
  unfold days_before_year, is_leap.
  replace (y + 1 - 1) with y by lia.
  destruct (y mod 4 =? 0) eqn:E4; destruct (y mod 100 =? 0) eqn:E100;
    destruct (y mod 400 =? 0) eqn:E400; simpl;
    rewrite ?Z.eqb_eq, ?Z.eqb_neq in *;
    Z.div_mod_to_equations; lia.
Qed.

(** Every date the constructor reads is between 0001-01-01 and
    9999-12-31. *)
Lemma date_of_ymd_range (y m d : Z) (dt : date) :
  date_of_ymd y m d = Ok dt -> 1 <= toordinal dt <= MAXORDINAL.
Proof.
  unfold date_of_ymd.
  destruct ((MINYEAR <=? y) && (y <=? MAXYEAR) && (1 <=? m) && (m <=? 12)
            && (1 <=? d) && (d <=? days_in_month y m)) eqn:C;
    intros H; [|discriminate H].
  injection H as <-. simpl toordinal.
  repeat (apply andb_true_iff in C; destruct C as [C ?]).
  rewrite ?Z.leb_le in *. unfold MINYEAR, MAXYEAR in *.
  destruct (days_in_year_bound y m d) as [Hlo Hhi]; [lia | lia |].
  pose proof (days_before_next_year y) as Hnext.
  pose proof (days_before_year_mono 1 y ltac:(lia)) as Hfirst.
  pose proof (days_before_year_mono (y + 1) 10000 ltac:(lia)) as Hlast.
  change (days_before_year 1) with 0 in Hfirst.
  change (days_before_year 10000) with 3652059 in Hlast.
  unfold ymd2ord, MAXORDINAL. lia.
Qed.

Lemma strptime_date_range (text : string) (dt : date) :
  strptime_date text = Ok dt -> 1 <= toordinal dt <= MAXORDINAL.
Proof.
  unfold strptime_date.
  destruct (parse_Y text) as [[y s1]|]; [|discriminate].
  destruct (literal_dash s1) as [s2|]; [|discriminate].
  destruct (parse_m s2) as [[m s3]|]; [|discriminate].
  destruct (literal_dash s3) as [s4|]; [|discriminate].
  destruct (parse_d s4) as [[d [|c s5]]|]; try discriminate.
  apply date_of_ymd_range.
Qed.

(** ** The constructor *)

Lemma Fund_init_points (s c t : string) (dps : list (string * price))
  (n : option string) (f : Fund) :
  Fund_init s c t dps n = Ok f ->
  Forall2 (fun dp p => strptime_date (fst dp) = Ok (fst p) /\ snd p = snd dp)
    dps (dates_prices f).
Proof.
  unfold Fund_init. intros H.
  apply bind_inv_Ok in H. destruct H as [points [Hm H]].
  injection H as <-. simpl dates_prices.
  apply mapM_Ok in Hm.
  induction Hm as [|dp p dps points Hp _ IH]; constructor; [|exact IH].
  destruct (strptime_date (fst dp)) as [d|e]; simpl in Hp; [|discriminate Hp].
  injection Hp as <-. split; reflexivity.
Qed.

(** X4.  What the constructor keeps.  A fund that [Fund.__init__] returns has
    its symbol, currency and instrument type in upper case and its name as
    given; it has one point per input pair, in the order of the input, with
    the date read from the text and the price untouched; and every date is
    between 0001-01-01 and 9999-12-31. *)
Theorem Fund_init_keeps (s c t : string) (dps : list (string * price))
  (n : option string) (f : Fund)
  (Hf : Fund_init s c t dps n = Ok f) :
  symbol f = upper s /\ currency f = upper c
  /\ instrument_type f = upper t /\ name f = n
  /\ List.length (dates_prices f) = List.length dps
  /\ map snd (dates_prices f) = map snd dps
  /\ map (fun dp => strptime_date (fst dp)) dps
     = map (fun p => Ok (fst p)) (dates_prices f)
  /\ Forall (fun p => 1 <= toordinal (fst p) <= MAXORDINAL) (dates_prices f).
Proof.
  destruct (Fund_init_fields _ _ _ _ _ _ Hf) as [H1 [H2 [H3 H4]]].
  pose proof (Fund_init_points _ _ _ _ _ _ Hf) as HP.
  repeat (split; [assumption|]).
  set (pts := dates_prices f) in *. clearbody pts. clear Hf.
  induction HP as [|dp p dps points [Hd Hs] _ IH]; simpl.
  - repeat split. constructor.
  - destruct IH as [IH1 [IH2 [IH3 IH4]]].
    rewrite IH1, IH2, IH3, Hd, Hs. repeat split.
    constructor; [|exact IH4]. apply (strptime_date_range _ _ Hd).
Qed.

Lemma Fund_init_keeps_witness :
  Fund_init "fxaix" "usd" "mutualfund"
    [("2022-04-04", price_78_42); ("2022-04-05", None)] (Some "index")
  = Ok (mkFund "FXAIX" "USD" "MUTUALFUND"
          [(d_2022_04_04, price_78_42); (d_2022_04_05, None)] (Some "index"))
  /\ map snd [(d_2022_04_04, price_78_42); (d_2022_04_05, @None float)]
     = map snd [("2022-04-04", price_78_42); ("2022-04-05", None)].
Proof.
  split; [reflexivity|].
  destruct (Fund_init_keeps "fxaix" "usd" "mutualfund"
              [("2022-04-04", price_78_42); ("2022-04-05", None)]
              (Some "index") _ eq_refl) as [_ [_ [_ [_ [_ [H _]]]]]].
  exact H.
Defined.

(** X5.  When the constructor fails.  [Fund.__init__] returns exactly when
    every date text is a date; otherwise it raises [ValueError], and never
    another exception. *)
Theorem Fund_init_returns_iff (s c t : string)
  (dps : list (string * price)) (n : option string) :
  (returns (Fund_init s c t dps n)
   <-> forall dp, In dp dps -> returns (strptime_date (fst dp)))
  /\ (forall e, Fund_init s c t dps n = Raise e -> e = ValueError).
Proof.
  split; [split|].
  - intros [f Hf] dp Hin.
    pose proof (Fund_init_points _ _ _ _ _ _ Hf) as HP.
    clear Hf. induction HP as [|dp' p dps points [Hd _] _ IH];
      [destruct Hin|].
    destruct Hin as [<- | Hin];
      [exists (fst p); exact Hd | apply IH; exact Hin].
  - intros H. unfold Fund_init.
    destruct (mapM (fun dp => d <- strptime_date (fst dp) ;; Ok (d, snd dp))
                dps) as [points|e] eqn:E.
    + eexists. reflexivity.
    + exfalso. apply mapM_Raise in E.
      destruct E as [pre [a [post [Hl [_ Ha]]]]].
      destruct (H a) as [d Hd]; [rewrite Hl; apply in_or_app; right; left;
                                 reflexivity|].
      rewrite Hd in Ha. discriminate Ha.
  - intros e H. unfold Fund_init in H.
    destruct (mapM (fun dp => d <- strptime_date (fst dp) ;; Ok (d, snd dp))
                dps) as [points|e'] eqn:E; simpl in H; [discriminate H|].
    injection H as ->. apply mapM_Raise in E.
    destruct E as [pre [a [post [_ [_ Ha]]]]].
    destruct (strptime_date (fst a)) as [d|e''] eqn:Ed; simpl in Ha;
      [discriminate Ha|].
    injection Ha as <-. apply (strptime_date_raises _ _ Ed).
Qed.

Lemma Fund_init_returns_iff_witness :
  returns (Fund_init "F" "usd" "stock"
             [("2022-04-05", price_100); ("2022-4-6", price_80)] None)
  /\ Fund_init "F" "usd" "stock"
       [("2022-04-05", price_100); ("05/04/2022", price_80)] None
     = Raise ValueError.
Proof.
  split.
  - apply (proj1 (Fund_init_returns_iff "F" "usd" "stock"
                    [("2022-04-05", price_100); ("2022-4-6", price_80)]
                    None)).
    intros dp [<- | [<- | []]]; eexists; reflexivity.
  - destruct (Fund_init "F" "usd" "stock"
                [("2022-04-05", price_100); ("05/04/2022", price_80)] None)
      as [f|e] eqn:E; [discriminate E|].
    rewrite (proj2 (Fund_init_returns_iff "F" "usd" "stock"
                      [("2022-04-05", price_100); ("05/04/2022", price_80)]
                      None) e E).
    reflexivity.
Defined.

(** ** Upper case and equality *)

Lemma upper_ascii_idem (c : ascii) :
  upper_ascii (upper_ascii c) = upper_ascii c.
Proof.
  destruct c as [[] [] [] [] [] [] [] []]; reflexivity.
Qed.

Lemma upper_idem (s : string) : upper (upper s) = upper s.
Proof.
  induction s as [|c s IH]; simpl; [reflexivity|].
  rewrite upper_ascii_idem, IH. reflexivity.
Qed.

(** X6.  Equality with a string is case sensitive on the string side.  A
    fund that the constructor returns equals the upper-cased text of the
    symbol it was built from, and it equals no text that has a lower-case
    letter, that is, no text that its own upper-casing changes. *)
Theorem Fund_eq_str_upper_only (s c t : string)
  (dps : list (string * price)) (n : option string) (f : Fund)
  (Hf : Fund_init s c t dps n = Ok f) :
  Fund_eq f (OVal (PStr (upper s))) = Ok true
  /\ (forall text, upper text <> text ->
                   Fund_eq f (OVal (PStr text)) = Ok false)
  /\ (forall text, Fund_eq f (OVal (PStr text))
                   = Ok (String.eqb (upper s) text)).
Proof.
  destruct (Fund_init_fields _ _ _ _ _ _ Hf) as [Hs _].
  split; [|split].
  - rewrite Fund_eq_str, Hs, String.eqb_refl. reflexivity.
  - intros text Hne. rewrite Fund_eq_str, Hs.
    destruct (String.eqb (upper s) text) eqn:E; [|reflexivity].
    apply String.eqb_eq in E. exfalso. apply Hne.
    rewrite <- E. apply upper_idem.
  - intros text. rewrite Fund_eq_str, Hs. reflexivity.
Qed.

Lemma Fund_eq_str_upper_only_witness :
  Fund_init "Fxaix" "usd" "stock" [] None
  = Ok (mkFund "FXAIX" "USD" "STOCK" [] None)
  /\ upper "Fxaix" <> "Fxaix"
  /\ Fund_eq (mkFund "FXAIX" "USD" "STOCK" [] None) (OVal (PStr "Fxaix"))
     = Ok false.
Proof.
  assert (Hne : upper "Fxaix" <> "Fxaix") by discriminate.
  split; [reflexivity | split; [exact Hne|]].
  destruct (Fund_eq_str_upper_only "Fxaix" "usd" "stock" [] None _ eq_refl)
    as [_ [H _]].
  exact (H "Fxaix" Hne).
Defined.

(** X7.  Among funds whose summary renders, equality between funds is an
    equivalence: a fund equals itself, the comparison gives the same
    answer both ways round, and it is transitive; equal funds are equal
    to the same strings.  A comparison with a fund whose summary does not
    render raises what the summary raises, whatever the fund on the left
    is, so that [f == g] can raise where [g == f] answers. *)
Theorem Fund_eq_equivalence (f g h : Fund) :
  (returns (Fund_str f) -> Fund_eq f (OFund f) = Ok true)
  /\ (returns (Fund_str f) -> returns (Fund_str g) ->
      Fund_eq f (OFund g) = Fund_eq g (OFund f))
  /\ (Fund_eq f (OFund g) = Ok true -> Fund_eq g (OFund h) = Ok true ->
      Fund_eq f (OFund h) = Ok true)
  /\ (Fund_eq f (OFund g) = Ok true ->
      forall text, Fund_eq f (OVal (PStr text))
                   = Fund_eq g (OVal (PStr text)))
  /\ (forall e, Fund_str g = Raise e ->
        Fund_eq f (OFund g) = Raise e
        /\ (returns (Fund_str f) -> returns (Fund_eq g (OFund f)))).
Proof.
  split; [|split; [|split; [|split]]].
  - intros Hf. apply Fund_eq_Fund_Ok. split; [exact Hf|].
    rewrite String.eqb_refl. reflexivity.
  - intros [tf Hf] [tg Hg]. rewrite !Fund_eq_Fund, Hf, Hg. simpl.
    rewrite String.eqb_sym. reflexivity.
  - intros H1 H2. apply Fund_eq_Fund_Ok in H1, H2.
    destruct H1 as [_ H1]. destruct H2 as [Hh H2].
    apply Fund_eq_Fund_Ok. split; [exact Hh|].
    symmetry in H1, H2. apply String.eqb_eq in H1, H2.
    symmetry. apply String.eqb_eq. congruence.
  - intros H1 text. apply Fund_eq_Fund_Ok in H1. destruct H1 as [_ H1].
    symmetry in H1. apply String.eqb_eq in H1.
    rewrite !Fund_eq_str, H1. reflexivity.
  - intros e Hg. split; [apply Fund_eq_Fund_Raise; exact Hg|].
    intros Hf. exists (String.eqb (symbol g) (symbol f)).
    apply Fund_eq_Fund_Ok. split; [exact Hf | reflexivity].
Qed.

Lemma Fund_eq_equivalence_witness :
  Fund_eq fund_recent_first (OFund fund_recent_first) = Ok true
  /\ Fund_eq fund_recent_first (OFund fund_repeated_day) = Ok true
  /\ Fund_eq fund_fxaix (OFund fund_absent_price) = Raise IndexError
  /\ returns (Fund_eq fund_absent_price (OFund fund_fxaix)).
Proof.
  destruct (Fund_eq_equivalence fund_recent_first fund_single_day
              fund_repeated_day) as [Hrefl [_ [Htrans _]]].
  destruct (Fund_eq_equivalence fund_fxaix fund_absent_price
              fund_fxaix) as [_ [_ [_ [_ Hraise]]]].
  destruct (Hraise IndexError eq_refl) as [H1 H2].
  split; [apply Hrefl; eexists; reflexivity|].
  split; [exact (Htrans eq_refl eq_refl)|].
  split; [exact H1 | apply H2; eexists; reflexivity].
Defined.

(** ** More on the fixed-window lookups *)

(** A lookup whose scan found a point. *)
Lemma lookup_found (w : window) (fund : Fund)
  (pre : list (date * price)) (current hit : date * price) (target : date) :
  dates_prices fund = pre ++ [current] ->
  date_sub (fst current) (mk_timedelta (window_days w)) = Ok target ->
  scan target (dates_prices fund) = Some hit ->
  lookup w fund
  = (difference <- calculate_percentage (snd hit) (snd current) ;;
     Ok (Some difference, fund)).
Proof.
  intros Hpoints Htarget Hscan.
  rewrite (lookup_unfold w fund pre current Hpoints).
  rewrite Htarget, bind_Ok, Hscan. reflexivity.
Qed.

Lemma date_sub_raises (d : date) (td : timedelta) (e : exn) :
  date_sub d td = Raise e -> e = OverflowError.
Proof.
  unfold date_sub.
  destruct ((0 <? toordinal d - td_days td)
            && (toordinal d - td_days td <=? MAXORDINAL));
    intros H; [discriminate H | injection H; auto].
Qed.

Lemma date_sub_Ok_iff (d : date) (n : Z) :
  returns (date_sub d (mk_timedelta n))
  <-> 0 < toordinal d - n <= MAXORDINAL.
Proof.
  unfold date_sub, returns. simpl td_days.
  destruct ((0 <? toordinal d - n) && (toordinal d - n <=? MAXORDINAL)) eqn:E.
  - apply andb_true_iff in E. rewrite Z.ltb_lt, Z.leb_le in E.
    split; [intros _; exact E | intros _; eexists; reflexivity].
  - apply andb_false_iff in E. rewrite Z.ltb_ge, Z.leb_gt in E.
    split; [intros [a H]; discriminate H | lia].
Qed.

(** The exceptions of [calculate_percentage] on any two prices, absent or
    not. *)
Lemma calculate_percentage_raises (a b : price) (e : exn) :
  calculate_percentage a b = Raise e ->
  e = TypeError \/ e = ZeroDivisionError \/ e = UnboundLocalError.
Proof.
  destruct a as [x|], b as [y|].
  - intros H.
    destruct (calculate_percentage_exceptions x y) as [_ [_ Hall]].
    destruct (Hall e H) as [-> | ->]; auto.
  - simpl. intros H. injection H as <-. auto.
  - simpl. intros H. injection H as <-. auto.
  - simpl. intros H. discriminate H.
Qed.

Lemma window_days_pos (w : window) : 0 < window_days w.
Proof. destruct w; reflexivity. Qed.

(** X8.  The two errors of a lookup that do not come from the prices.  A
    lookup raises [IndexError] exactly when the series is empty.  On a
    series whose dates are dates, as those of a fund the constructor
    returns, it raises [OverflowError] exactly when the date of the last
    point is within the window of 0001-01-01, the target date then being
    before the first date there is. *)
Theorem lookup_series_errors (w : window) (fund : Fund) :
  (lookup w fund = Raise IndexError <-> dates_prices fund = [])
  /\ (Forall (fun p => 1 <= toordinal (fst p) <= MAXORDINAL)
        (dates_prices fund) ->
      (lookup w fund = Raise OverflowError
       <-> exists pre current,
             dates_prices fund = pre ++ [current]
             /\ toordinal (fst current) <= window_days w)).
Proof.
  pose proof (window_days_pos w) as Hw.
  destruct (dates_prices fund) as [|p0 rest] eqn:E.
  - rewrite (lookup_empty w fund E). split.
    + split; reflexivity.
    + intros _. split; [discriminate|].
      intros [pre [current [H _]]]. destruct pre; discriminate H.
  - assert (Hne : p0 :: rest <> []) by discriminate.
    destruct (nonempty_last _ Hne) as [pre [current Hlast]].
    rewrite Hlast in E.
    pose proof (lookup_unfold w fund pre current E) as Hl.
    assert (Hnot : forall e,
               (target <- date_sub (fst current)
                            (mk_timedelta (window_days w)) ;;
                compare_with fund current (scan target (dates_prices fund)))
               = Raise e ->
               (e = OverflowError
                /\ ~ returns (date_sub (fst current)
                                (mk_timedelta (window_days w))))
               \/ e = TypeError \/ e = ZeroDivisionError
               \/ e = UnboundLocalError).
    { intros e. destruct (date_sub (fst current) _) as [target|e'] eqn:Ed.
      - rewrite bind_Ok. unfold compare_with.
        destruct (scan target (dates_prices fund)) as [hit|];
          [|discriminate].
        destruct (calculate_percentage (snd hit) (snd current)) as [d|e'']
          eqn:Ec; simpl; [discriminate|].
        intros H. injection H as ->. right.
        apply (calculate_percentage_raises _ _ _ Ec).
      - rewrite bind_Raise. intros H. injection H as <-. left.
        split; [apply (date_sub_raises _ _ _ Ed)|].
        intros [a Ha]. discriminate Ha. }
    rewrite Hl. split.
    + split; [|intros H; destruct pre; discriminate H].
      intros H. destruct (Hnot _ H) as [[H1 _] | [H1 | [H1 | H1]]];
        discriminate H1.
    + rewrite Hlast. intros Hrange.
      assert (Hcur : 1 <= toordinal (fst current) <= MAXORDINAL).
      { rewrite Forall_forall in Hrange. apply Hrange.
        apply in_or_app. right. left. reflexivity. }
      split.
      * intros H. exists pre, current. split; [reflexivity|].
        destruct (Hnot _ H) as [[_ H1] | [H1 | [H1 | H1]]];
          try discriminate H1.
        rewrite date_sub_Ok_iff in H1. lia.
      * intros [pre' [current' [Heq Hle]]].
        apply app_inj_tail in Heq. destruct Heq as [_ <-].
        destruct (date_sub (fst current) (mk_timedelta (window_days w)))
          as [target|e] eqn:Ed.
        -- exfalso.
           assert (Hr : returns (date_sub (fst current)
                                   (mk_timedelta (window_days w))))
             by (eexists; exact Ed).
           rewrite date_sub_Ok_iff in Hr. lia.
        -- rewrite bind_Raise. rewrite (date_sub_raises _ _ _ Ed).
           reflexivity.
Qed.

Lemma lookup_series_errors_witness :
  Forall (fun p => 1 <= toordinal (fst p) <= MAXORDINAL)
    (dates_prices (mkFund "F" "USD" "STOCK" [(fromordinal 7, price_100)] None))
  /\ lookup Week (mkFund "F" "USD" "STOCK" [(fromordinal 7, price_100)] None)
     = Raise OverflowError.
Proof.
  assert (Hrange : Forall (fun p => 1 <= toordinal (fst p) <= MAXORDINAL)
                     [(fromordinal 7, price_100)]).
  { constructor; [|constructor]. simpl. unfold MAXORDINAL. lia. }
  split; [exact Hrange|].
  apply (proj2 (lookup_series_errors Week
                  (mkFund "F" "USD" "STOCK" [(fromordinal 7, price_100)] None))
           Hrange).
  exists [], (fromordinal 7, price_100). split; [reflexivity|].
  simpl. lia.
Defined.

(** X9.  Absent prices in a lookup.  When the lookup finds a point at the
    target date, an absent ([None]) price on exactly one side, the found
    point or the current point, makes it raise [TypeError]; when both are
    absent it answers 0.0. *)
Theorem lookup_absent_price (w : window) (fund : Fund)
  (pre : list (date * price)) (current hit : date * price) (target : date)
  (Hpoints : dates_prices fund = pre ++ [current])
  (Htarget :
     date_sub (fst current) (mk_timedelta (window_days w)) = Ok target)
  (Hscan : scan target (dates_prices fund) = Some hit) :
  (snd hit = None -> snd current = None ->
     lookup w fund = Ok (Some zero, fund))
  /\ (forall x, snd hit = Some x -> snd current = None ->
        lookup w fund = Raise TypeError)
  /\ (forall x, snd hit = None -> snd current = Some x ->
        lookup w fund = Raise TypeError).
Proof.
  rewrite (lookup_found w fund pre current hit target Hpoints Htarget Hscan).
  split; [|split].
  - intros -> ->. reflexivity.
  - intros x -> ->. reflexivity.
  - intros x -> ->. reflexivity.
Qed.

Lemma lookup_absent_price_witness :
  dates_prices (mkFund "F" "USD" "STOCK"
                  [(d_2022_04_04, price_78_42); (d_2022_04_05, None)] None)
  = [(d_2022_04_04, price_78_42)] ++ [(d_2022_04_05, None)]
  /\ date_sub d_2022_04_05 (mk_timedelta (window_days Day)) = Ok d_2022_04_04
  /\ day_performance (mkFund "F" "USD" "STOCK"
                        [(d_2022_04_04, price_78_42); (d_2022_04_05, None)]
                        None)
     = Raise TypeError.
Proof.
  split; [reflexivity | split; [reflexivity|]].
  destruct (lookup_absent_price Day
              (mkFund "F" "USD" "STOCK"
                 [(d_2022_04_04, price_78_42); (d_2022_04_05, None)] None)
              [(d_2022_04_04, price_78_42)] (d_2022_04_05, None)
              (d_2022_04_04, price_78_42) d_2022_04_04
              eq_refl eq_refl eq_refl) as [_ [H _]].
  exact (H (decimal 7842 2) eq_refl eq_refl).
Defined.

(** With one point per date, the point found is the point that has the
    target date. *)
Lemma lookup_at_unique_date (w : window) (fund : Fund)
  (pre : list (date * price)) (current hit : date * price) (target : date)
  (Hpoints : dates_prices fund = pre ++ [current])
  (Htarget :
     date_sub (fst current) (mk_timedelta (window_days w)) = Ok target)
  (Hunique : NoDup (map fst (dates_prices fund)))
  (Hin : In hit (dates_prices fund))
  (Hhit : fst hit = target) :
  lookup w fund
  = (difference <- calculate_percentage (snd hit) (snd current) ;;
     Ok (Some difference, fund)).
Proof.
  apply (lookup_found w fund pre current hit target Hpoints Htarget).
  apply in_split in Hin. destruct Hin as [l1 [l2 Hsplit]].
  rewrite Hsplit in *. apply scan_last_match; [exact Hhit|].
  intros q Hq Hdate.
  rewrite map_app in Hunique. simpl in Hunique.
  apply NoDup_remove_2 in Hunique. apply Hunique.
  apply in_or_app. right. rewrite Hhit, <- Hdate.
  apply in_map. exact Hq.
Qed.

(** X10.  With one point per date the order of the earlier points does not
    matter.  When no two points of the series have the same date, a lookup
    compares the current price with the price of the point that has the
    target date, wherever that point stands in the series. *)
Theorem lookup_unique_dates (w : window) (fund : Fund)
  (pre : list (date * price)) (current hit : date * price) (target : date)
  (Hpoints : dates_prices fund = pre ++ [current])
  (Htarget :
     date_sub (fst current) (mk_timedelta (window_days w)) = Ok target)
  (Hunique : NoDup (map fst (dates_prices fund)))
  (Hin : In hit (dates_prices fund))
  (Hhit : fst hit = target) :
  lookup w fund
  = (difference <- calculate_percentage (snd hit) (snd current) ;;
     Ok (Some difference, fund)).
Proof.
  exact (lookup_at_unique_date w fund pre current hit target
           Hpoints Htarget Hunique Hin Hhit).
Qed.

Lemma lookup_unique_dates_witness :
  NoDup (map fst (dates_prices fund_week_recent_last))
  /\ week_performance fund_week_recent_last
     = (difference <- calculate_percentage price_80 price_100 ;;
        Ok (Some difference, fund_week_recent_last)).
Proof.
  assert (Hunique : NoDup (map fst (dates_prices fund_week_recent_last))).
  { simpl. constructor.
    - intros [H | []]. discriminate H.
    - constructor; [intros [] | constructor]. }
  split; [exact Hunique|].
  apply (lookup_unique_dates Week fund_week_recent_last
           [(d_2022_03_29, price_80)] (d_2022_04_05, price_100)
           (d_2022_03_29, price_80) d_2022_03_29
           eq_refl eq_refl Hunique); [left; reflexivity | reflexivity].
Defined.

(** X11.  On a series of prices a lookup never raises, and the sign of its
    answer is the direction of the price.  For a fund with a last point,
    whose target date exists and whose points all have a finite price that
    is not negative, each lookup returns; when it finds a point at the
    target date, the answer is negative when the current price is below the
    price found, positive when it is above, and 0.0 when they are equal. *)
Theorem lookup_on_prices (w : window) (fund : Fund)
  (pre : list (date * price)) (current : date * price) (target : date)
  (Hpoints : dates_prices fund = pre ++ [current])
  (Htarget :
     date_sub (fst current) (mk_timedelta (window_days w)) = Ok target)
  (Hpriced : priced (dates_prices fund)) :
  returns (lookup w fund)
  /\ (forall hit a b,
        scan target (dates_prices fund) = Some hit ->
        snd hit = Some a -> snd current = Some b ->
        exists d,
          lookup w fund = Ok (Some d, fund)
          /\ (fltb b a = true -> fltb d zero = true)
          /\ (fltb a b = true -> fltb zero d = true)
          /\ (feqb a b = true -> d = zero)).
Proof.
  assert (Hcur : exists b, snd current = Some b /\ is_price b = true).
  { apply Hpriced. rewrite Hpoints. apply in_or_app. right. left.
    reflexivity. }
  assert (Hsign : forall hit a b,
             scan target (dates_prices fund) = Some hit ->
             snd hit = Some a -> snd current = Some b ->
             exists d,
               lookup w fund = Ok (Some d, fund)
               /\ (fltb b a = true -> fltb d zero = true)
               /\ (fltb a b = true -> fltb zero d = true)
               /\ (feqb a b = true -> d = zero)).
  { intros hit a b Hscan Ha Hb.
    rewrite (lookup_found w fund pre current hit target
               Hpoints Htarget Hscan).
    assert (Pa : is_price a = true).
    { destruct (Hpriced hit (proj1 (scan_Some _ _ _ Hscan))) as [x [Hx Px]].
      congruence. }
    assert (Pb : is_price b = true).
    { destruct Hcur as [x [Hx Px]]. congruence. }
    rewrite Ha, Hb, calculate_percentage_floats.
    destruct (float_trichotomy a b (is_price_not_nan _ Pa)
                (is_price_not_nan _ Pb))
      as [[E [L G]] | [[E [L G]] | [E [L G]]]]; rewrite E, ?L, ?G.
    - exists zero. split; [reflexivity|].
      split; [intros H; discriminate H|].
      split; [intros H; discriminate H | reflexivity].
    - destruct (percent_of_difference b a Pb Pa L)
        as [Hpos [_ [_ [_ Hnz]]]].
      destruct (pos_result_sign _ _ Hpos) as [_ [_ [Hgt _]]].
      rewrite Hnz. eexists. split; [reflexivity|].
      split; [intros H; discriminate H|].
      split; [intros _; exact Hgt | intros H; discriminate H].
    - destruct (percent_of_difference a b Pa Pb G)
        as [Hpos [_ [_ [_ Hnz]]]].
      destruct (pos_result_sign _ _ Hpos) as [Habs [Hneg _]].
      rewrite Hnz. eexists. split; [reflexivity|].
      split; [|split; intros H; discriminate H].
      intros _. unfold fopp, fabs. rewrite Habs. exact Hneg. }
  split; [|exact Hsign].
  destruct (scan target (dates_prices fund)) as [hit|] eqn:Hscan.
  - destruct (Hpriced hit (proj1 (scan_Some _ _ _ Hscan))) as [a [Ha _]].
    destruct Hcur as [b [Hb _]].
    destruct (Hsign hit a b eq_refl Ha Hb) as [d [Hd _]].
    eexists. exact Hd.
  - rewrite (lookup_unfold w fund pre current Hpoints).
    rewrite Htarget, bind_Ok, Hscan. eexists. reflexivity.
Qed.

Lemma lookup_on_prices_witness :
  priced (dates_prices fund_week_recent_last)
  /\ returns (lookup Week fund_week_recent_last)
  /\ exists d,
       lookup Week fund_week_recent_last
       = Ok (Some d, fund_week_recent_last)
       /\ fltb zero d = true.
Proof.
  assert (Hpriced : priced (dates_prices fund_week_recent_last)).
  { intros p [<- | [<- | []]]; eexists; split; reflexivity. }
  destruct (lookup_on_prices Week fund_week_recent_last
              [(d_2022_03_29, price_80)] (d_2022_04_05, price_100)
              d_2022_03_29 eq_refl eq_refl Hpriced) as [Hret Hsign].
  split; [exact Hpriced | split; [exact Hret|]].
  destruct (Hsign (d_2022_03_29, price_80) (float_of_Z 80) (float_of_Z 100)
              eq_refl eq_refl eq_refl) as [d [Hd [_ [Hup _]]]].
  exists d. split; [exact Hd | exact (Hup eq_refl)].
Defined.

Lemma py_index_single_but_one {A : Type} (a : A) :
  py_index [a] (-2) = Raise IndexError.
Proof. reflexivity. Qed.

(** X12.  The outcomes of [Fund.__str__], by the last two points of the
    series.  An empty series raises [IndexError].  A last price that is a
    number other than zero is shown with the last date.  Otherwise, the
    last price being [None] or a zero, the price of the point before is
    shown, still with the last date: this raises [IndexError] when there is
    no point before, and [TypeError] when the price before is [None]. *)
Theorem Fund_str_outcome (f : Fund) :
  (dates_prices f = [] -> Fund_str f = Raise IndexError)
  /\ (forall pre last x,
        dates_prices f = pre ++ [last] -> snd last = Some x ->
        feqb x zero = false ->
        Fund_str f = Ok (summary_text f (fst last) (format_2f_float x)))
  /\ (forall last,
        dates_prices f = [last] -> py_bool (snd last) = false ->
        Fund_str f = Raise IndexError)
  /\ (forall pre previous last,
        dates_prices f = pre ++ [previous; last] ->
        py_bool (snd last) = false ->
        Fund_str f
        = match snd previous with
          | Some y => Ok (summary_text f (fst last) (format_2f_float y))
          | None => Raise TypeError
          end).
Proof.
  split; [|split; [|split]].
  - intros H. unfold Fund_str. rewrite H. reflexivity.
  - intros pre last x Hp Hx Hz.
    rewrite (Fund_str_latest_available f pre last Hp).
    + rewrite Hx. reflexivity.
    + rewrite Hx. simpl. rewrite Hz. reflexivity.
  - intros last Hp Hb. unfold Fund_str. rewrite Hp.
    change (py_index [last] (-1)) with (Ok last). rewrite bind_Ok, Hb.
    rewrite py_index_single_but_one. reflexivity.
  - intros pre previous last Hp Hb.
    rewrite (Fund_str_fallback f pre previous last Hp Hb).
    destruct (snd previous); reflexivity.
Qed.

Lemma Fund_str_outcome_witness :
  py_bool (Some zero) = false
  /\ Fund_str (mkFund "F" "USD" "STOCK"
                 [(d_2022_04_04, price_78_42); (d_2022_04_05, Some zero)]
                 None)
     = Ok ("F - " +++ newline +++ "USD - STOCK" +++ newline
           +++ "Latest price: 2022-04-05 - $78.42").
Proof.
  split; [reflexivity|].
  destruct (Fund_str_outcome
              (mkFund "F" "USD" "STOCK"
                 [(d_2022_04_04, price_78_42); (d_2022_04_05, Some zero)]
                 None)) as [_ [_ [_ H]]].
  exact (H [] (d_2022_04_04, price_78_42) (d_2022_04_05, Some zero)
           eq_refl eq_refl).
Defined.

(** ** More on [generate_fund_performance_str] *)

Lemma append_assoc (a b c : string) : (a +++ b) +++ c = a +++ (b +++ c).
Proof.
  induction a as [|x a IH]; simpl; [reflexivity|]. rewrite IH. reflexivity.
Qed.

Lemma append_empty_r (a : string) : a +++ "" = a.
Proof.
  induction a as [|x a IH]; simpl; [reflexivity|]. rewrite IH. reflexivity.
Qed.

Lemma add_line_available (asked : bool) (label : string)
  (r : result (option float * Fund)) (change : option float)
  (performance : string) :
  available asked r change ->
  (if asked then
     x <- r ;;
     text <- format_2f (fst x) ;;
     Ok (performance +++ newline +++ label +++ text +++ "%")
   else Ok performance)
  = Ok (performance +++ performance_line asked label change).
Proof.
  unfold available, performance_line. destruct asked.
  - intros [d [fund' [-> ->]]]. reflexivity.
  - intros ->. rewrite append_empty_r. reflexivity.
Qed.

Lemma add_line_returns (asked : bool) (label : string)
  (r : result (option float * Fund)) (performance out : string) :
  (if asked then
     x <- r ;;
     text <- format_2f (fst x) ;;
     Ok (performance +++ newline +++ label +++ text +++ "%")
   else Ok performance) = Ok out ->
  exists change, available asked r change.
Proof.
  unfold available. destruct asked.
  - destruct r as [[[d|] fund']|e]; simpl; intros H; try discriminate H.
    exists (Some d), d, fund'. split; reflexivity.
  - intros _. exists None. reflexivity.
Qed.

(** X13.  When [generate_fund_performance_str] returns, and what.  It returns
    exactly when the summary of the fund returns and each window asked for
    has a lookup that answers a number; the text is then the summary
    followed by one line per window asked for, in the order day, week,
    year, each with the change in two decimals. *)
Theorem generate_fund_performance_str_returns (fund : Fund)
  (day week year : bool) (out : string) :
  generate_fund_performance_str fund day week year = Ok out
  <-> exists summary d1 d2 d3,
        Fund_str fund = Ok summary
        /\ available day (day_performance fund) d1
        /\ available week (week_performance fund) d2
        /\ available year (year_performance fund) d3
        /\ out = summary
                   +++ performance_line day "Previous 24 hours: " d1
                   +++ performance_line week "Previous week: " d2
                   +++ performance_line year "Previous year: " d3.
Proof.
  unfold generate_fund_performance_str. split.
  - intros H.
    apply bind_inv_Ok in H. destruct H as [summary [Hs H]].
    apply bind_inv_Ok in H. destruct H as [p1 [H1 H]].
    apply bind_inv_Ok in H. destruct H as [p2 [H2 H]].
    apply bind_inv_Ok in H. destruct H as [p3 [H3 H]].
    injection H as <-.
    destruct (add_line_returns _ _ _ _ _ H1) as [d1 A1].
    destruct (add_line_returns _ _ _ _ _ H2) as [d2 A2].
    destruct (add_line_returns _ _ _ _ _ H3) as [d3 A3].
    rewrite (add_line_available _ _ _ _ _ A1) in H1. injection H1 as <-.
    rewrite (add_line_available _ _ _ _ _ A2) in H2. injection H2 as <-.
    rewrite (add_line_available _ _ _ _ _ A3) in H3. injection H3 as <-.
    exists summary, d1, d2, d3. repeat (split; [assumption|]).
    rewrite !append_assoc. reflexivity.
  - intros [summary [d1 [d2 [d3 [Hs [A1 [A2 [A3 ->]]]]]]]].
    rewrite Hs, bind_Ok.
    rewrite (add_line_available _ _ _ _ _ A1), bind_Ok.
    rewrite (add_line_available _ _ _ _ _ A2), bind_Ok.
    rewrite (add_line_available _ _ _ _ _ A3), bind_Ok.
    rewrite !append_assoc. reflexivity.
Qed.

(** ** More on [parse_fund_data] *)

Lemma py_index_head {A : Type} (a : A) (l : list A) :
  py_index (a :: l) 0 = Ok a.
Proof.
  unfold py_index. cbv zeta.
  change (if 0 <? 0 then 0 + Z.of_nat (List.length (a :: l)) else 0) with 0.
  assert (E : (0 <=? 0) && (0 <? Z.of_nat (List.length (a :: l))) = true).
  { apply andb_true_iff. split; [reflexivity|].
    apply Z.ltb_lt. simpl List.length. lia. }
  rewrite E. reflexivity.
Qed.

Lemma assoc_head (k : string) (v : pyval) (items : list (string * pyval)) :
  assoc k ((k, v) :: items) = Some v.
Proof. simpl. rewrite String.eqb_refl. reflexivity. Qed.

(** The fields read from a payload of the expected shape. *)
Lemma parse_fund_data_records (key : string)
  (entry others : list (string * pyval)) (cur ty : pyval)
  (days : list pyval) (pairs : list (pyval * pyval))
  (Hcur : assoc "currency" entry = Some cur)
  (Hty : assoc "instrumentType" entry = Some ty)
  (Hprices : assoc "prices" entry = Some (PList days))
  (Hdays : Forall2 record_fields days pairs) :
  parse_fund_data (PDict ((key, PDict entry) :: others))
  = Ok (Some (mk_fund_data key cur ty pairs)).
Proof.
  assert (H0 : py_getitem (PDict ((key, PDict entry) :: others)) key
               = Ok (PDict entry)).
  { unfold py_getitem. rewrite assoc_head. reflexivity. }
  assert (Hc : py_getitem (PDict entry) "currency" = Ok cur).
  { unfold py_getitem. rewrite Hcur. reflexivity. }
  assert (Ht : py_getitem (PDict entry) "instrumentType" = Ok ty).
  { unfold py_getitem. rewrite Hty. reflexivity. }
  assert (Hp : py_getitem (PDict entry) "prices" = Ok (PList days)).
  { unfold py_getitem. rewrite Hprices. reflexivity. }
  unfold parse_fund_data. simpl py_keys. cbn [bind].
  rewrite py_index_head. cbn [bind].
  rewrite H0. cbn [bind]. rewrite Hc. cbn [bind].
  rewrite Ht. cbn [bind]. rewrite Hp. cbn [bind py_iter].
  assert (Hm : mapM (fun day =>
                       formatted_date <- py_getitem day "formatted_date" ;;
                       close <- py_getitem day "close" ;;
                       Ok (formatted_date, close)) days = Ok pairs).
  { apply mapM_Ok_intro. clear Hprices Hp.
    induction Hdays as [|day pair days pairs [H1 H2] _ IH]; [constructor|].
    constructor; [|exact IH].
    rewrite H1, bind_Ok, H2, bind_Ok. destruct pair; reflexivity. }
  rewrite Hm. reflexivity.
Qed.

(** X14.  What [parse_fund_data] extracts.  From a payload whose first key
    maps to a mapping that has ['currency'], ['instrumentType'] and a list
    under ['prices'], each element of which is a mapping with
    ['formatted_date'] and ['close'], it returns the first key, the two
    values and the pairs of date and close in the order of the list.  The
    other keys of the payload, of the entry and of the records are not
    read. *)
Theorem parse_fund_data_extracts (key : string)
  (entry others : list (string * pyval)) (cur ty : pyval)
  (days : list pyval) (pairs : list (pyval * pyval))
  (Hcur : assoc "currency" entry = Some cur)
  (Hty : assoc "instrumentType" entry = Some ty)
  (Hprices : assoc "prices" entry = Some (PList days))
  (Hdays : Forall2 record_fields days pairs) :
  parse_fund_data (PDict ((key, PDict entry) :: others))
  = Ok (Some (mk_fund_data key cur ty pairs)).
Proof.
  exact (parse_fund_data_records key entry others cur ty days pairs
           Hcur Hty Hprices Hdays).
Qed.

Lemma parse_fund_data_extracts_witness :
  Forall2 record_fields
    [PDict [("formatted_date", PStr "2022-04-05");
            ("close", PFloat (decimal 7842 2))]]
    [(PStr "2022-04-05", PFloat (decimal 7842 2))]
  /\ parse_fund_data payload_ok
     = Ok (Some (mk_fund_data "F" (PStr "usd") (PStr "stock")
                   [(PStr "2022-04-05", PFloat (decimal 7842 2))])).
Proof.
  assert (H : Forall2 record_fields
                [PDict [("formatted_date", PStr "2022-04-05");
                        ("close", PFloat (decimal 7842 2))]]
                [(PStr "2022-04-05", PFloat (decimal 7842 2))]).
  { constructor; [split; reflexivity | constructor]. }
  split; [exact H|].
  exact (parse_fund_data_extracts "F"
           [("currency", PStr "usd"); ("instrumentType", PStr "stock");
            ("prices", PList [PDict [("formatted_date", PStr "2022-04-05");
                                     ("close", PFloat (decimal 7842 2))]])]
           [] (PStr "usd") (PStr "stock") _ _
           eq_refl eq_refl eq_refl H).
Defined.

(** X15.  The exceptions of [parse_fund_data] by the place of the defect.  A
    payload that is not a mapping raises [AttributeError]; a mapping without
    keys raises [IndexError]; a first entry that is not a mapping raises
    [TypeError]; a first entry that lacks one of ['currency'],
    ['instrumentType'] and ['prices'] raises [KeyError]. *)
Theorem parse_fund_data_defects :
  (forall data, is_dict data = false ->
                parse_fund_data data = Raise AttributeError)
  /\ parse_fund_data (PDict []) = Raise IndexError
  /\ (forall key v others,
        is_dict v = false ->
        parse_fund_data (PDict ((key, v) :: others)) = Raise TypeError)
  /\ (forall key entry others,
        assoc "currency" entry = None
        \/ assoc "instrumentType" entry = None
        \/ assoc "prices" entry = None ->
        parse_fund_data (PDict ((key, PDict entry) :: others))
        = Raise KeyError).
Proof.
  split; [|split; [reflexivity | split]].
  - intros data H. destruct data; try discriminate H; reflexivity.
  - intros key v others H. unfold parse_fund_data. simpl py_keys.
    cbn [bind]. rewrite py_index_head. cbn [bind].
    unfold py_getitem at 1. rewrite assoc_head. cbn [bind].
    destruct v; try discriminate H; reflexivity.
  - intros key entry others H.
    assert (H0 : py_getitem (PDict ((key, PDict entry) :: others)) key
                 = Ok (PDict entry)).
    { unfold py_getitem. rewrite assoc_head. reflexivity. }
    unfold parse_fund_data. simpl py_keys. cbn [bind].
    rewrite py_index_head. cbn [bind]. rewrite H0. cbn [bind].
    unfold py_getitem at 1.
    destruct (assoc "currency" entry) as [cur|]; [|reflexivity].
    cbn [bind]. unfold py_getitem at 1.
    destruct (assoc "instrumentType" entry) as [ty|]; [|reflexivity].
    cbn [bind]. unfold py_getitem at 1.
    destruct (assoc "prices" entry) as [prices|]; [|reflexivity].
    exfalso. destruct H as [H | [H | H]]; discriminate H.
Qed.

Lemma parse_fund_data_defects_witness :
  parse_fund_data (PList []) = Raise AttributeError
  /\ parse_fund_data payload_null_entry = Raise TypeError
  /\ parse_fund_data payload_without_prices = Raise KeyError.
Proof.
  destruct parse_fund_data_defects as [H1 [_ [H3 H4]]].
  split; [exact (H1 (PList []) eq_refl)|].
  split; [exact (H3 "F" PNone [] eq_refl)|].
  apply H4. right. right. reflexivity.
Defined.

(** X16.  What [parse_fund_data] returns is never [None], and its symbol is the
    first key of the payload. *)
Theorem parse_fund_data_returns_first_key (data : pyval)
  (r : option fund_data) (Hr : parse_fund_data data = Ok r) :
  exists d v others,
    r = Some d /\ data = PDict ((fd_symbol d, v) :: others).
Proof.
  unfold parse_fund_data in Hr.
  destruct data as [| | | | | |items]; try discriminate Hr.
  simpl py_keys in Hr. cbn [bind] in Hr.
  destruct items as [|[key v] others]; [discriminate Hr|].
  simpl map in Hr. rewrite py_index_head in Hr. cbn [bind] in Hr.
  repeat match type of Hr with
    | bind ?c _ = _ =>
        let H := fresh in
        destruct c eqn:H;
        [rewrite bind_Ok in Hr | rewrite bind_Raise in Hr; discriminate Hr]
    end.
  injection Hr as <-. eexists _, v, others. split; reflexivity.
Qed.

Lemma parse_fund_data_returns_first_key_witness :
  exists d v others,
    Some (mk_fund_data "F" (PStr "usd") (PStr "stock")
            [(PStr "2022-04-05", PFloat (decimal 7842 2))]) = Some d
    /\ payload_ok = PDict ((fd_symbol d, v) :: others).
Proof.
  exact (parse_fund_data_returns_first_key payload_ok _ eq_refl).
Defined.

Lemma typed_pairs_dated (pairs : list (pyval * pyval))
  (dps : list (string * price)) :
  Forall2 typed_pair pairs dps ->
  match mapM (fun dp => d <- strptime_date (fst dp) ;; Ok (d, snd dp)) dps with
  | Ok points =>
      exists dated,
        mapM (fun dp => dt <- strptime_value (fst dp) ;; Ok (dt, snd dp))
          pairs = Ok dated
        /\ prices_of_closes dated = Some points
  | Raise e =>
      mapM (fun dp => dt <- strptime_value (fst dp) ;; Ok (dt, snd dp)) pairs
      = Raise e
  end.
Proof.
  induction 1 as [|[v c] [text p] pairs dps [Hv Hc] _ IH]; simpl.
  - exists []. split; reflexivity.
  - simpl in Hv, Hc. subst v. simpl strptime_value.
    destruct (strptime_date text) as [d|e]; simpl; [|reflexivity].
    destruct (mapM (fun dp => d0 <- strptime_date (fst dp) ;; Ok (d0, snd dp))
                dps) as [points|e]; simpl.
    + destruct IH as [dated [Hd Hp]]. rewrite Hd. simpl.
      exists ((d, c) :: dated). split; [reflexivity|].
      simpl. rewrite Hc, Hp. reflexivity.
    + rewrite IH. reflexivity.
Qed.

(** On strings, date texts and closes that are floats or [None], the call
    of [Fund] on the parsed list is [Fund.__init__] on its elements. *)
Lemma Fund_of_data_typed (d : fund_data) (name : option string)
  (c t : string) (dps : list (string * price))
  (Hc : fd_currency d = PStr c)
  (Ht : fd_instrument_type d = PStr t)
  (Hpairs : Forall2 typed_pair (fd_dates_prices d) dps) :
  Fund_of_data d name = Some (Fund_init (fd_symbol d) c t dps name).
Proof.
  unfold Fund_of_data, Fund_init. rewrite Hc, Ht. simpl str_upper.
  pose proof (typed_pairs_dated _ _ Hpairs) as H.
  destruct (mapM (fun dp => d0 <- strptime_date (fst dp) ;; Ok (d0, snd dp))
              dps) as [points|e].
  - destruct H as [dated [Hd Hp]]. rewrite Hd, Hp. reflexivity.
  - rewrite H. reflexivity.
Qed.

(** X17.  The exceptions of building a fund from a payload, whatever the
    closes are.  A currency or an instrument type that is not a string
    raises [AttributeError]; with both strings, the first pair whose date
    is not a string raises [TypeError] and the first whose date text is not
    a date raises [ValueError], whichever pair comes first. *)
Theorem Fund_of_data_raises (d : fund_data) (name : option string) :
  (is_str (fd_currency d) = false ->
     Fund_of_data d name = Some (Raise AttributeError))
  /\ (is_str (fd_currency d) = true ->
      is_str (fd_instrument_type d) = false ->
      Fund_of_data d name = Some (Raise AttributeError))
  /\ (is_str (fd_currency d) = true ->
      is_str (fd_instrument_type d) = true ->
      forall pre bad post,
        fd_dates_prices d = pre ++ bad :: post ->
        (forall dp, In dp pre -> returns (strptime_value (fst dp))) ->
        (is_str (fst bad) = false ->
           Fund_of_data d name = Some (Raise TypeError))
        /\ (forall text, fst bad = PStr text ->
              strptime_date text = Raise ValueError ->
              Fund_of_data d name = Some (Raise ValueError))).
Proof.
  unfold Fund_of_data. split; [|split].
  - intros H. destruct (fd_currency d); try discriminate H; reflexivity.
  - intros H1 H2. destruct (fd_currency d); try discriminate H1.
    destruct (fd_instrument_type d); try discriminate H2; reflexivity.
  - intros H1 H2 pre bad post Hsplit Hpre.
    destruct (fd_currency d); try discriminate H1.
    destruct (fd_instrument_type d); try discriminate H2.
    simpl str_upper. rewrite Hsplit.
    assert (Hm : forall e, strptime_value (fst bad) = Raise e ->
                 mapM (fun dp => dt <- strptime_value (fst dp) ;;
                                 Ok (dt, snd dp)) (pre ++ bad :: post)
                 = Raise e).
    { intros e He. clear Hsplit. induction pre as [|a pre IH]; simpl.
      - rewrite He. reflexivity.
      - destruct (Hpre a (or_introl eq_refl)) as [da Hda]. rewrite Hda.
        simpl. rewrite IH; [reflexivity|].
        intros dp Hdp. apply Hpre. right. exact Hdp. }
    split.
    + intros Hbad. rewrite (Hm TypeError); [reflexivity|].
      destruct (fst bad); try discriminate Hbad; reflexivity.
    + intros text Htext Hdate. rewrite (Hm ValueError); [reflexivity|].
      rewrite Htext. exact Hdate.
Qed.

Lemma Fund_of_data_raises_witness :
  is_str (PStr "usd") = true /\ is_str (PStr "stock") = true
  /\ is_str (PInt 20220405) = false
  /\ Fund_of_data
       (mk_fund_data "F" (PStr "usd") (PStr "stock")
          [(PStr "2022-04-04", PFloat (decimal 7842 2));
           (PInt 20220405, PStr "n/a")]) None
     = Some (Raise TypeError).
Proof.
  split; [reflexivity | split; [reflexivity | split; [reflexivity|]]].
  destruct (Fund_of_data_raises
              (mk_fund_data "F" (PStr "usd") (PStr "stock")
                 [(PStr "2022-04-04", PFloat (decimal 7842 2));
                  (PInt 20220405, PStr "n/a")]) None) as [_ [_ H]].
  destruct (H eq_refl eq_refl
              [(PStr "2022-04-04", PFloat (decimal 7842 2))]
              (PInt 20220405, PStr "n/a") [] eq_refl) as [Hbad _].
  - intros dp [<- | []]. eexists. reflexivity.
  - exact (Hbad eq_refl).
Defined.

(** ** Loading the funds of a tracker *)

Section ProviderFacts.

Variable get_fund_data : string -> result pyval.

(** X18.  One tracked entry, from the answer of the provider to the fund.  An
    answer that is false in a test skips the entry.  For a payload whose
    first key maps to a dictionary with a currency and an instrument type
    that are strings and a list of records of a date text and a close that
    is a float or [None], the entry gives what [Fund.__init__] gives on the
    first key of the payload, not on the symbol that was asked for, with
    the second element of the entry as name when there is one. *)
Theorem instantiate_one_payload (symbol : string) (more : list string) :
  (forall data,
     get_fund_data symbol = Ok data -> py_truth data = false ->
     instantiate_one get_fund_data (symbol :: more) = Some (Ok None))
  /\ (forall key entry others c t days pairs dps,
        get_fund_data symbol = Ok (PDict ((key, PDict entry) :: others)) ->
        assoc "currency" entry = Some (PStr c) ->
        assoc "instrumentType" entry = Some (PStr t) ->
        assoc "prices" entry = Some (PList days) ->
        Forall2 record_fields days pairs ->
        Forall2 typed_pair pairs dps ->
        instantiate_one get_fund_data (symbol :: more)
        = Some (fund <- Fund_init key c t dps (hd_error more) ;;
                Ok (Some fund))).
Proof.
  assert (H0 : py_index (symbol :: more) 0 = Ok symbol)
    by apply py_index_head.
  split.
  - intros data Hdata Hfalse. unfold instantiate_one.
    rewrite H0, Hdata, Hfalse. reflexivity.
  - intros key entry others c t days pairs dps Hdata Hc Ht Hp Hdays Hpairs.
    unfold instantiate_one. rewrite H0, Hdata.
    simpl py_truth. cbv iota. simpl negb. cbv iota.
    rewrite (parse_fund_data_records key entry others _ _ days pairs
               Hc Ht Hp Hdays).
    rewrite (Fund_of_data_typed (mk_fund_data key (PStr c) (PStr t) pairs)
               _ c t dps eq_refl eq_refl Hpairs).
    assert (Hname : (if 1 <? Z.of_nat (List.length (symbol :: more))
                     then nth_error (symbol :: more) 1 else None)
                    = hd_error more).
    { destruct more as [|name rest]; [reflexivity|].
      simpl List.length.
      replace (1 <? Z.of_nat (S (S (List.length rest)))) with true;
        [reflexivity|].
      symmetry. apply Z.ltb_lt. lia. }
    cbv zeta. rewrite Hname. simpl fd_symbol.
    destruct (Fund_init key c t dps (hd_error more)); reflexivity.
Qed.

Lemma instantiate_loop_held (entries : list (list string))
  (held : list Fund) :
  instantiate_loop get_fund_data entries held
  = match instantiate_loop get_fund_data entries [] with
    | None => None
    | Some (added, r) => Some (held ++ added, r)
    end.
Proof.
  revert held. induction entries as [|entry rest IH]; intros held; simpl.
  - rewrite app_nil_r. reflexivity.
  - destruct (instantiate_one get_fund_data entry) as [[[fund|]|e]|].
    + rewrite (IH (held ++ [fund])), (IH [fund]).
      destruct (instantiate_loop get_fund_data rest []) as [[added r]|];
        [|reflexivity].
      rewrite <- app_assoc. reflexivity.
    + apply IH.
    + rewrite app_nil_r. reflexivity.
    + reflexivity.
Qed.

Lemma instantiate_loop_length (entries : list (list string))
  (added : list Fund) (r : result unit) :
  instantiate_loop get_fund_data entries [] = Some (added, r) ->
  (List.length added <= List.length entries)%nat.
Proof.
  revert added r. induction entries as [|entry rest IH]; intros added r;
    simpl.
  - intros H. injection H as <- _. simpl. lia.
  - destruct (instantiate_one get_fund_data entry) as [[[fund|]|e]|].
    + rewrite instantiate_loop_held.
      destruct (instantiate_loop get_fund_data rest []) as [[more r']|] eqn:E;
        [|discriminate].
      intros H. injection H as <- _. specialize (IH _ _ eq_refl).
      simpl. lia.
    + intros H. specialize (IH _ _ H). lia.
    + intros H. injection H as <- _. simpl. lia.
    + discriminate.
Qed.

(** X19.  [instantiate_funds] only appends, and a second call loads every fund
    again.  A call keeps [symbols_names] and the funds held in their order,
    adds at most one fund per tracked entry after them, also when it
    raises, and returns the list held; nothing is removed and no held fund
    is looked for, so with a provider that answers as before a second call
    appends the same funds a second time. *)
Theorem instantiate_funds_accumulates (self self' : FundTracker)
  (r : result (list Fund))
  (Hcall : instantiate_funds get_fund_data self = Some (self', r)) :
  symbols_names self' = symbols_names self
  /\ exists added,
       funds self' = funds self ++ added
       /\ (List.length added <= List.length (symbols_names self))%nat
       /\ (forall l, r = Ok l -> l = funds self')
       /\ instantiate_funds get_fund_data self'
          = Some (mkFundTracker (symbols_names self)
                    (funds self ++ added ++ added),
                  _ <- r ;; Ok (funds self ++ added ++ added)).
Proof.
  unfold instantiate_funds in *.
  rewrite instantiate_loop_held in Hcall.
  destruct (instantiate_loop get_fund_data (symbols_names self) [])
    as [[added u]|] eqn:E;
    [|discriminate Hcall].
  injection Hcall as <- <-. simpl. split; [reflexivity|].
  exists added. split; [reflexivity|].
  split; [exact (instantiate_loop_length _ _ _ E)|].
  split.
  - intros l H. destruct u as [[]|e]; simpl in H; [|discriminate H].
    injection H as <-. reflexivity.
  - rewrite instantiate_loop_held, E. rewrite <- app_assoc.
    destruct u as [[]|e]; reflexivity.
Qed.

Lemma instantiate_loop_outcomes (entries : list (list string))
  (outcomes : list (option Fund)) (tail : list (list string)) :
  Forall2 (fun entry o => instantiate_one get_fund_data entry = Some (Ok o))
    entries outcomes ->
  instantiate_loop get_fund_data (entries ++ tail) []
  = match instantiate_loop get_fund_data tail [] with
    | None => None
    | Some (added, r) => Some (loaded outcomes ++ added, r)
    end.
Proof.
  induction 1 as [|entry o entries outcomes Ho _ IH]; simpl.
  - destruct (instantiate_loop get_fund_data tail []) as [[added r]|];
      reflexivity.
  - rewrite Ho. destruct o as [fund|]; simpl.
    + rewrite instantiate_loop_held, IH.
      destruct (instantiate_loop get_fund_data tail []) as [[added r]|];
        reflexivity.
    + exact IH.
Qed.

(** X20.  What a call of [instantiate_funds] leaves.  When every tracked
    entry is loaded or skipped, the funds loaded are appended to the funds
    held in the order of the entries and the list held is returned.  When
    an entry raises, the call raises the same exception and the funds of
    the entries before it stay appended: the tracker is left half
    filled. *)
Theorem instantiate_funds_outcome (self : FundTracker)
  (outcomes : list (option Fund)) :
  (Forall2
     (fun entry o => instantiate_one get_fund_data entry = Some (Ok o))
     (symbols_names self) outcomes ->
   instantiate_funds get_fund_data self
   = Some (mkFundTracker (symbols_names self)
             (funds self ++ loaded outcomes),
           Ok (funds self ++ loaded outcomes)))
  /\ (forall pre bad post e,
        symbols_names self = pre ++ bad :: post ->
        Forall2
          (fun entry o => instantiate_one get_fund_data entry = Some (Ok o))
          pre outcomes ->
        instantiate_one get_fund_data bad = Some (Raise e) ->
        instantiate_funds get_fund_data self
        = Some (mkFundTracker (symbols_names self)
                  (funds self ++ loaded outcomes),
                Raise e)).
Proof.
  unfold instantiate_funds. split.
  - intros H. rewrite instantiate_loop_held.
    rewrite <- (app_nil_r (symbols_names self)) at 1.
    rewrite (instantiate_loop_outcomes _ _ [] H). simpl.
    rewrite app_nil_r. reflexivity.
  - intros pre bad post e Hsplit H Hbad.
    rewrite instantiate_loop_held. rewrite Hsplit at 1.
    rewrite (instantiate_loop_outcomes _ _ (bad :: post) H). simpl.
    rewrite Hbad, app_nil_r. reflexivity.
Qed.

End ProviderFacts.

Lemma instantiate_one_payload_witness :
  instantiate_one sample_get_fund_data ["F"; "Ford"]
  = Some (Ok (Some fund_ford))
  /\ instantiate_one sample_get_fund_data ["NONE"; "Ford"] = Some (Ok None).
Proof.
  split.
  - refine (proj2 (instantiate_one_payload sample_get_fund_data "F"
                     ["Ford"])
              "F" _ [] "usd" "stock" _
              [(PStr "2022-04-05", PFloat (decimal 7842 2))]
              [("2022-04-05", price_78_42)]
              eq_refl eq_refl eq_refl eq_refl _ _).
    + constructor; [split; reflexivity | constructor].
    + constructor; [split; reflexivity | constructor].
  - exact (proj1 (instantiate_one_payload sample_get_fund_data "NONE"
                    ["Ford"]) (PDict []) eq_refl eq_refl).
Defined.

Lemma instantiate_funds_accumulates_witness :
  instantiate_funds sample_get_fund_data
    (mkFundTracker [["F"; "Ford"]] [fund_ford])
  = Some (mkFundTracker [["F"; "Ford"]] [fund_ford; fund_ford],
          Ok [fund_ford; fund_ford]).
Proof.
  destruct (instantiate_funds_accumulates sample_get_fund_data
              (mkFundTracker [["F"; "Ford"]] [])
              (mkFundTracker [["F"; "Ford"]] [fund_ford])
              (Ok [fund_ford]) eq_refl)
    as [_ [added [Hadded [_ [_ Hagain]]]]].
  simpl in Hadded. subst added. exact Hagain.
Defined.

Lemma instantiate_funds_outcome_witness :
  instantiate_funds sample_get_fund_data
    (mkFundTracker [["F"; "Ford"]; ["NONE"]; ["BAD"]; ["F"]] [])
  = Some (mkFundTracker [["F"; "Ford"]; ["NONE"]; ["BAD"]; ["F"]]
            [fund_ford],
          Raise TypeError).
Proof.
  refine (proj2 (instantiate_funds_outcome sample_get_fund_data
                   (mkFundTracker [["F"; "Ford"]; ["NONE"]; ["BAD"]; ["F"]]
                      [])
                   [Some fund_ford; None])
            [["F"; "Ford"]; ["NONE"]] ["BAD"] [["F"]] TypeError
            eq_refl _ eq_refl).
  repeat constructor.
Defined.

Lemma py_index_single_0 {A : Type} (i : Z) (a : A) :
  py_index (removelast [a]) i = Raise IndexError.
Proof. apply py_index_nil. Qed.

(** ** The performance over a custom range *)

Section RangeFacts.

Variable get_custom_fund_data : operand -> date -> date -> result pyval.

(** X21.  Every answer of [custom_range_performance] comes from the provider.
    When the call returns, both texts are dates, the provider was asked
    for the fund between them, and the percentage is that of the change
    from the price of the last point of the series it gave to the price of
    its first point, whatever the tracker holds and whether the fund
    passed is one of the objects it holds or not: a series held by the
    tracker never gives an answer. *)
Theorem custom_range_performance_answer (self : FundTracker)
  (fund : operand) (same : option nat) (start_date end_date : string)
  (difference : float) (start end_ : date) (asked : operand)
  (Hcall : custom_range_performance get_custom_fund_data self fund same
             start_date end_date
           = Some (Ok (difference, start, end_, asked))) :
  strptime_date start_date = Ok start
  /\ strptime_date end_date = Ok end_
  /\ asked = fund
  /\ exists data parsed target last first,
       get_custom_fund_data fund start end_ = Ok data
       /\ parse_fund_data data = Ok (Some parsed)
       /\ Fund_of_data parsed None = Some (Ok target)
       /\ py_index (dates_prices target) (-1) = Ok last
       /\ py_index (dates_prices target) 0 = Ok first
       /\ calculate_percentage (snd last) (snd first) = Ok difference.
Proof.
  unfold custom_range_performance in Hcall.
  destruct (strptime_date start_date) as [s|] eqn:Hs; [|discriminate].
  destruct (strptime_date end_date) as [e|] eqn:He; [|discriminate].
  destruct (resolved_in_memory self fund same s e) as [[|]|];
    try discriminate.
  destruct (get_custom_fund_data fund s e) as [data|] eqn:Hd;
    [|discriminate].
  destruct (parse_fund_data data) as [[parsed|]|] eqn:Hp; try discriminate.
  destruct (Fund_of_data parsed None) as [[target|]|] eqn:Hf;
    try discriminate.
  destruct (py_index (dates_prices target) (-1)) as [last|] eqn:Hl;
    [|discriminate].
  destruct (py_index (dates_prices target) 0) as [first|] eqn:H0;
    [|discriminate].
  cbn [bind] in Hcall.
  destruct (calculate_percentage (snd last) (snd first)) as [d|] eqn:Hc;
    [|discriminate].
  cbn [bind] in Hcall. injection Hcall as <- <- <- <-.
  repeat split.
  exists data, parsed, target, last, first. repeat split; assumption.
Qed.

(** X22.  [custom_range_performance] on the funds that the tracker holds.
    With both texts dates: when the membership test finds a held fund
    equal to the fund passed, a held series of fewer than two points
    raises [IndexError], and a held series of two points or more whose
    first date is before the start date and which has a point at the
    start date raises [TypeError], the series itself being taken for the
    start price; the provider is asked in neither case.  When the fund
    passed is a fund whose summary does not render and is not the first
    object held, the membership test itself raises what the summary
    raises, at the comparison with the first fund held. *)
Theorem custom_range_performance_held (self : FundTracker)
  (fund : operand) (same : option nat) (start_date end_date : string)
  (start end_ : date)
  (Hstart : strptime_date start_date = Ok start)
  (Hend : strptime_date end_date = Ok end_) :
  (forall target,
     first_equal (funds self) fund same = Ok (Some target) ->
     ((List.length (dates_prices target) <= 1)%nat ->
        custom_range_performance get_custom_fund_data self fund same
          start_date end_date
        = Some (Raise IndexError))
     /\ (forall p0 p1 rest,
           dates_prices target = p0 :: p1 :: rest ->
           toordinal (fst p0) < toordinal start ->
           In start (map fst (dates_prices target)) ->
           custom_range_performance get_custom_fund_data self fund same
             start_date end_date
           = Some (Raise TypeError)))
  /\ (forall item rest g e,
        funds self = item :: rest -> same <> Some O ->
        fund = OFund g -> Fund_str g = Raise e ->
        custom_range_performance get_custom_fund_data self fund same
          start_date end_date
        = Some (Raise e)).
Proof.
  unfold custom_range_performance, resolved_in_memory.
  rewrite Hstart, Hend. split.
  - intros target Hheld. rewrite Hheld. cbn [bind]. split.
    + intros Hlen. destruct (dates_prices target) as [|p0 [|p1 rest]].
      * rewrite py_index_nil. reflexivity.
      * rewrite py_index_head. cbn [bind]. cbv zeta.
        rewrite py_index_single_0. reflexivity.
      * simpl in Hlen. lia.
    + intros p0 p1 rest Hpts Hlt Hin. rewrite Hpts in *.
      rewrite py_index_head. cbn [bind]. cbv zeta.
      change (removelast (p0 :: p1 :: rest))
        with (p0 :: removelast (p1 :: rest)).
      rewrite py_index_head. cbn [bind].
      unfold date_ltb. apply Z.ltb_lt in Hlt. rewrite Hlt.
      assert (E : existsb
                    (fun date_price => date_eqb (fst date_price) start)
                    (p0 :: p1 :: rest) = true).
      { apply existsb_exists. apply in_map_iff in Hin.
        destruct Hin as [p [Hp Hin]]. exists p. split; [exact Hin|].
        rewrite Hp. unfold date_eqb. apply Z.eqb_refl. }
      rewrite E. reflexivity.
  - intros item rest g e Hfunds Hsame -> Hstr. rewrite Hfunds.
    assert (Hfirst : first_equal (item :: rest) (OFund g) same = Raise e).
    { cbn [first_equal].
      assert (Hraise : Fund_eq item (OFund g) = Raise e)
        by (apply Fund_eq_Fund_Raise; exact Hstr).
      destruct same as [[|k]|]; [congruence | |]; rewrite Hraise;
        reflexivity. }
    rewrite Hfirst. reflexivity.
Qed.

(** X23.  [custom_range_performance] reads the series in the other direction
    than the lookups.  For a fund that the membership test finds equal to
    none of the funds held, and a series of the provider with distinct
    dates whose first point, dated the target date of a lookup, and last
    point have distinct prices, the lookup on the fund of that series
    answers the change from the first price to the last, and
    [custom_range_performance] answers the opposite number. *)
Theorem custom_range_performance_reversed (self : FundTracker)
  (fund : operand) (same : option nat)
  (start_date end_date : string) (start end_ : date)
  (data : pyval) (parsed : fund_data) (target : Fund) (w : window)
  (d1 d2 : date) (a b : float) (mid : list (date * price))
  (Hstart : strptime_date start_date = Ok start)
  (Hend : strptime_date end_date = Ok end_)
  (Hnot : first_equal (funds self) fund same = Ok None)
  (Hdata : get_custom_fund_data fund start end_ = Ok data)
  (Hparse : parse_fund_data data = Ok (Some parsed))
  (Hfund : Fund_of_data parsed None = Some (Ok target))
  (Hpts : dates_prices target = (d1, Some a) :: mid ++ [(d2, Some b)])
  (Hunique : NoDup (map fst (dates_prices target)))
  (Hwin : date_sub d2 (mk_timedelta (window_days w)) = Ok d1)
  (Ha : is_price a = true) (Hb : is_price b = true)
  (Hne : feqb a b = false) :
  exists x,
    lookup w target = Ok (Some x, target)
    /\ custom_range_performance get_custom_fund_data self fund same
         start_date end_date
       = Some (Ok (fopp x, start, end_, fund))
    /\ feqb x zero = false.
Proof.
  destruct (calculate_percentage_opposite a b Ha Hb Hne)
    as [x [Hab [Hba Hx]]].
  exists x. split; [|split; [|exact Hx]].
  - rewrite (lookup_at_unique_date w target ((d1, Some a) :: mid)
               (d2, Some b) (d1, Some a) d1 Hpts Hwin Hunique).
    + simpl snd. rewrite Hab. reflexivity.
    + rewrite Hpts. left. reflexivity.
    + reflexivity.
  - unfold custom_range_performance, resolved_in_memory.
    rewrite Hstart, Hend, Hnot. cbn [bind].
    rewrite Hdata, Hparse, Hfund, Hpts.
    rewrite py_index_head.
    change ((d1, Some a) :: mid ++ [(d2, Some b)])
      with (((d1, Some a) :: mid) ++ [(d2, Some b)]).
    rewrite py_index_last. cbn [bind]. cbv zeta. simpl snd.
    rewrite Hba. reflexivity.
Qed.

End RangeFacts.

Lemma custom_range_performance_answer_witness :
  strptime_date "2022-03-29" = Ok d_2022_03_29
  /\ strptime_date "2022-04-05" = Ok d_2022_04_05
  /\ calculate_percentage price_100 price_80
     = Ok (fopp (float_of_Z 20)).
Proof.
  destruct (custom_range_performance_answer sample_get_custom_fund_data
              (mkFundTracker [] []) (OVal (PStr "F")) None
              "2022-03-29" "2022-04-05" (fopp (float_of_Z 20))
              d_2022_03_29 d_2022_04_05 (OVal (PStr "F")) eq_refl)
    as [Hs [He [_ [data [parsed [target [last [first H]]]]]]]].
  split; [exact Hs | split; [exact He|]].
  destruct H as [Hd [Hp [Hf [Hl [H0 Hc]]]]].
  injection Hd as <-.
  vm_compute in Hp. injection Hp as <-.
  vm_compute in Hf. injection Hf as <-.
  vm_compute in Hl. injection Hl as <-.
  vm_compute in H0. injection H0 as <-.
  exact Hc.
Defined.

Lemma custom_range_performance_held_witness :
  custom_range_performance sample_get_custom_fund_data
    (mkFundTracker [["F"]] [fund_week_recent_last]) (OVal (PStr "F")) None
    "2022-04-05" "2022-04-05"
  = Some (Raise TypeError)
  /\ custom_range_performance sample_get_custom_fund_data
       (mkFundTracker [["F"]] [fund_single_day]) (OVal (PStr "F")) None
       "2022-04-05" "2022-04-05"
     = Some (Raise IndexError)
  /\ custom_range_performance sample_get_custom_fund_data
       (mkFundTracker [["F"]] [fund_week_recent_last])
       (OFund (mkFund "F" "USD" "STOCK" [] None)) None
       "2022-04-05" "2022-04-05"
     = Some (Raise IndexError).
Proof.
  split; [|split].
  - destruct (custom_range_performance_held sample_get_custom_fund_data
                (mkFundTracker [["F"]] [fund_week_recent_last])
                (OVal (PStr "F")) None "2022-04-05" "2022-04-05"
                d_2022_04_05 d_2022_04_05 eq_refl eq_refl) as [Hheld _].
    destruct (Hheld fund_week_recent_last eq_refl) as [_ Hlist].
    refine (Hlist _ _ [] eq_refl eq_refl _).
    right. left. reflexivity.
  - destruct (custom_range_performance_held sample_get_custom_fund_data
                (mkFundTracker [["F"]] [fund_single_day])
                (OVal (PStr "F")) None "2022-04-05" "2022-04-05"
                d_2022_04_05 d_2022_04_05 eq_refl eq_refl) as [Hheld _].
    destruct (Hheld fund_single_day eq_refl) as [Hshort _].
    apply Hshort. simpl. lia.
  - destruct (custom_range_performance_held sample_get_custom_fund_data
                (mkFundTracker [["F"]] [fund_week_recent_last])
                (OFund (mkFund "F" "USD" "STOCK" [] None)) None
                "2022-04-05" "2022-04-05"
                d_2022_04_05 d_2022_04_05 eq_refl eq_refl) as [_ Hraise].
    refine (Hraise fund_week_recent_last [] _ IndexError
              eq_refl _ eq_refl eq_refl).
    discriminate.
Defined.

Lemma custom_range_performance_reversed_witness :
  week_performance fund_week_recent_last
  = Ok (Some (float_of_Z 20), fund_week_recent_last)
  /\ custom_range_performance sample_get_custom_fund_data
       (mkFundTracker [] []) (OVal (PStr "F")) None
       "2022-03-29" "2022-04-05"
     = Some (Ok (fopp (float_of_Z 20), d_2022_03_29, d_2022_04_05,
                 OVal (PStr "F"))).
Proof.
  assert (Hunique : NoDup (map fst (dates_prices fund_week_recent_last))).
  { simpl. constructor.
    - intros [H | []]. discriminate H.
    - constructor; [intros [] | constructor]. }
  destruct (custom_range_performance_reversed sample_get_custom_fund_data
              (mkFundTracker [] []) (OVal (PStr "F")) None
              "2022-03-29" "2022-04-05" d_2022_03_29 d_2022_04_05
              payload_week
              (mk_fund_data "f" (PStr "usd") (PStr "stock")
                 [(PStr "2022-03-29", PFloat (float_of_Z 80));
                  (PStr "2022-04-05", PFloat (float_of_Z 100))])
              fund_week_recent_last Week
              d_2022_03_29 d_2022_04_05 (float_of_Z 80) (float_of_Z 100) []
              eq_refl eq_refl eq_refl eq_refl eq_refl eq_refl eq_refl
              Hunique eq_refl eq_refl eq_refl eq_refl)
    as [x [Hweek [Hrange _]]].
  assert (Hx : x = float_of_Z 20).
  { assert (E : week_performance fund_week_recent_last
                = Ok (Some (float_of_Z 20), fund_week_recent_last))
      by (vm_compute; reflexivity).
    change (lookup Week fund_week_recent_last)
      with (week_performance fund_week_recent_last) in Hweek.
    rewrite E in Hweek. injection Hweek as <-. reflexivity. }
  subst x. split; [exact Hweek | exact Hrange].
Defined.

(** ** Printing a date and reading it again *)

Ltac table_values :=
  repeat match goal with
    | H : context [nth ?n ?l ?x] |- _ =>
        let v := eval vm_compute in (nth n l x) in
        change (nth n l x) with v in H
    | |- context [nth ?n ?l ?x] =>
        let v := eval vm_compute in (nth n l x) in
        change (nth n l x) with v
    end.

Ltac closed_tests :=
  repeat match goal with
    | |- context [if ?b then ?u else ?v] =>
        let c := eval vm_compute in b in
        match c with
        | true => change (if b then u else v) with u
        | false => change (if b then u else v) with v
        end
    end.

Lemma days_before_year_cycles (a b c e : Z) :
  0 <= a -> 0 <= b <= 3 -> 0 <= c <= 24 -> 0 <= e <= 3 ->
  days_before_year (400 * a + 100 * b + 4 * c + e + 1)
  = 146097 * a + 36524 * b + 1461 * c + 365 * e.
Proof.
  intros Ha Hb Hc He. unfold days_before_year. cbv zeta.
  replace (400 * a + 100 * b + 4 * c + e + 1 - 1)
    with (400 * a + 100 * b + 4 * c + e) by lia.
  assert (H4 : (400 * a + 100 * b + 4 * c + e) / 4 = 100 * a + 25 * b + c).
  { symmetry. apply (Z.div_unique _ 4 _ e); lia. }
  assert (H100 : (400 * a + 100 * b + 4 * c + e) / 100 = 4 * a + b).
  { symmetry. apply (Z.div_unique _ 100 _ (4 * c + e)); lia. }
  assert (H400 : (400 * a + 100 * b + 4 * c + e) / 400 = a).
  { symmetry. apply (Z.div_unique _ 400 _ (100 * b + 4 * c + e)); lia. }
  rewrite H4, H100, H400. lia.
Qed.

Lemma is_leap_cycles (a b c e : Z) :
  0 <= a -> 0 <= b <= 3 -> 0 <= c <= 24 -> 0 <= e <= 3 ->
  is_leap (400 * a + 100 * b + 4 * c + e + 1)
  = (e =? 3) && (negb (c =? 24) || (b =? 3)).
Proof.
  intros Ha Hb Hc He. unfold is_leap.
  set (y := 400 * a + 100 * b + 4 * c + e + 1).
  assert (M4 : y mod 4 = (e + 1) mod 4).
  { unfold y. replace (400 * a + 100 * b + 4 * c + e + 1)
      with ((e + 1) + (100 * a + 25 * b + c) * 4) by lia.
    apply Z.mod_add. lia. }
  assert (M100 : y mod 100 = (4 * c + e + 1) mod 100).
  { unfold y. replace (400 * a + 100 * b + 4 * c + e + 1)
      with ((4 * c + e + 1) + (4 * a + b) * 100) by lia.
    apply Z.mod_add. lia. }
  assert (M400 : y mod 400 = (100 * b + 4 * c + e + 1) mod 400).
  { unfold y. replace (400 * a + 100 * b + 4 * c + e + 1)
      with ((100 * b + 4 * c + e + 1) + a * 400) by lia.
    apply Z.mod_add. lia. }
  rewrite M4, M100, M400.
  destruct (e =? 3) eqn:E3.
  - apply Z.eqb_eq in E3. subst e. change ((3 + 1) mod 4) with 0.
    change (0 =? 0) with true. cbv [andb].
    destruct (c =? 24) eqn:E24.
    + apply Z.eqb_eq in E24. subst c.
      change ((4 * 24 + 3 + 1) mod 100) with 0.
      change (0 =? 0) with true. cbv [negb orb].
      destruct (b =? 3) eqn:Eb.
      * apply Z.eqb_eq in Eb. subst b. reflexivity.
      * apply Z.eqb_neq in Eb. apply Z.eqb_neq.
        rewrite Z.mod_small by lia. lia.
    + apply Z.eqb_neq in E24. cbv [negb orb].
      replace ((4 * c + 3 + 1) mod 100 =? 0) with false; [reflexivity|].
      symmetry. apply Z.eqb_neq. rewrite Z.mod_small by lia. lia.
  - apply Z.eqb_neq in E3. cbv [andb].
    replace ((e + 1) mod 4 =? 0) with false; [reflexivity|].
    symmetry. apply Z.eqb_neq. rewrite Z.mod_small by lia. lia.
Qed.

(** The month and the day of the [r]-th day of a year, counted from 0, as
    [_ord2ymd] finds them from the estimate [(r + 50) >> 5]. *)
Lemma month_of_day_of_year (r : Z) (leap : bool) :
  0 <= r <= 364 ->
  exists m d,
    (let month := Z.shiftr (r + 50) 5 in
     let preceding :=
       nth (Z.to_nat month) DAYS_BEFORE_MONTH 0
       + (if (2 <? month) && leap then 1 else 0) in
     if r <? preceding then
       let month := month - 1 in
       let preceding :=
         preceding
         - (nth (Z.to_nat month) DAYS_IN_MONTH 0
            + (if (month =? 2) && leap then 1 else 0)) in
       (month, r - preceding + 1)
     else (month, r - preceding + 1)) = (m, d)
    /\ 1 <= m <= 12
    /\ 1 <= d <= (if (m =? 2) && leap then 29
                  else nth (Z.to_nat m) DAYS_IN_MONTH 0)
    /\ nth (Z.to_nat m) DAYS_BEFORE_MONTH 0
       + (if (2 <? m) && leap then 1 else 0) + d = r + 1.
Proof.
  intros Hr. cbv zeta.
  rewrite Z.shiftr_div_pow2 by lia. change (2 ^ 5) with 32.
  pose proof (Z.div_mod (r + 50) 32 ltac:(lia)) as Hdm.
  pose proof (Z.mod_pos_bound (r + 50) 32 ltac:(lia)) as Hmod.
  set (month := (r + 50) / 32) in *.
  assert (Hcases : month = 1 \/ month = 2 \/ month = 3 \/ month = 4
                   \/ month = 5 \/ month = 6 \/ month = 7 \/ month = 8
                   \/ month = 9 \/ month = 10 \/ month = 11 \/ month = 12)
    by lia.
  clearbody month.
  destruct leap;
    repeat (destruct Hcases as [Hc | Hcases]); subst month;
    table_values; closed_tests;
    match goal with
    | |- context [r <? ?p] =>
        destruct (r <? p) eqn:E;
        [apply Z.ltb_lt in E | apply Z.ltb_ge in E]
    end;
    eexists; eexists; (split; [reflexivity|]);
    table_values; closed_tests; lia.
Qed.

(** [_ord2ymd] inverts [_ymd2ord]: an ordinal of the calendar is the
    ordinal of the year, month and day found for it, which are those of a
    date. *)
Lemma ord2ymd_ymd2ord (n : Z) :
  1 <= n <= MAXORDINAL ->
  exists y m d,
    ord2ymd n = (y, m, d)
    /\ MINYEAR <= y <= MAXYEAR /\ 1 <= m <= 12
    /\ 1 <= d <= days_in_month y m
    /\ ymd2ord y m d = n.
Proof.
  unfold MAXORDINAL, MINYEAR, MAXYEAR. intros Hn.
  unfold ord2ymd. cbv zeta.
  change DI400Y with 146097. change DI100Y with 36524.
  change DI4Y with 1461.
  pose proof (Z.div_mod (n - 1) 146097 ltac:(lia)) as D1.
  pose proof (Z.mod_pos_bound (n - 1) 146097 ltac:(lia)) as B1.
  set (a := (n - 1) / 146097) in *.
  set (r1 := (n - 1) mod 146097) in *.
  pose proof (Z.div_mod r1 36524 ltac:(lia)) as D2.
  pose proof (Z.mod_pos_bound r1 36524 ltac:(lia)) as B2.
  set (b := r1 / 36524) in *.
  set (r2 := r1 mod 36524) in *.
  pose proof (Z.div_mod r2 1461 ltac:(lia)) as D3.
  pose proof (Z.mod_pos_bound r2 1461 ltac:(lia)) as B3.
  set (c := r2 / 1461) in *.
  set (r3 := r2 mod 1461) in *.
  pose proof (Z.div_mod r3 365 ltac:(lia)) as D4.
  pose proof (Z.mod_pos_bound r3 365 ltac:(lia)) as B4.
  set (e := r3 / 365) in *.
  set (r := r3 mod 365) in *.
  clearbody a r1 b r2 c r3 e r.
  assert (Ha : 0 <= a) by lia.
  assert (Hb : 0 <= b <= 4) by lia.
  assert (Hc : 0 <= c <= 24) by lia.
  assert (He : 0 <= e <= 4) by lia.
  destruct ((e =? 4) || (b =? 4)) eqn:Last.
  - (* the last day of a leap year *)
    exists (a * 400 + 1 + b * 100 + c * 4 + e - 1), 12, 31.
    split; [reflexivity|].
    apply orb_true_iff in Last. rewrite !Z.eqb_eq in Last.
    assert (Hday : n - 1 = 146097 * a + 36524 * b + 1461 * c + 365 * e
                   /\ ((b = 4 /\ c = 0 /\ e = 0)
                       \/ (b <= 3 /\ e = 4 /\ c <= 23)))
      by lia.
    destruct Hday as [Hday Hcase].
    assert (Hyear :
              exists b' c',
                0 <= b' <= 3 /\ 0 <= c' <= 24
                /\ (c' <> 24 \/ b' = 3)
                /\ a * 400 + 1 + b * 100 + c * 4 + e - 1
                   = 400 * a + 100 * b' + 4 * c' + 3 + 1
                /\ n - 1 = 146097 * a + 36524 * b' + 1461 * c' + 365 * 3
                           + 365).
    { destruct Hcase as [[-> [-> ->]] | [Hb3 [-> Hc23]]].
      - exists 3, 24. lia.
      - exists b, c. lia. }
    destruct Hyear as [b' [c' [Hb' [Hc' [Hleap [-> Hn1]]]]]].
    assert (L : is_leap (400 * a + 100 * b' + 4 * c' + 3 + 1) = true).
    { rewrite is_leap_cycles by lia. change (3 =? 3) with true.
      cbv [andb]. apply orb_true_iff.
      destruct Hleap as [H | H].
      - left. apply negb_true_iff. apply Z.eqb_neq. exact H.
      - right. apply Z.eqb_eq. exact H. }
    unfold ymd2ord, days_in_month, days_before_month.
    rewrite L, days_before_year_cycles by lia.
    table_values. closed_tests. lia.
  - apply orb_false_iff in Last. rewrite !Z.eqb_neq in Last.
    destruct (month_of_day_of_year r
                ((e =? 3) && (negb (c =? 24) || (b =? 3))) ltac:(lia))
      as [m [d [Hmd [Hm [Hd Hsum]]]]].
    cbv zeta in Hmd.
    exists (a * 400 + 1 + b * 100 + c * 4 + e), m, d.
    assert (Hyear : a * 400 + 1 + b * 100 + c * 4 + e
                    = 400 * a + 100 * b + 4 * c + e + 1) by lia.
    split.
    + destruct (r <? _); injection Hmd as <- <-; reflexivity.
    + rewrite Hyear. unfold ymd2ord, days_in_month, days_before_month.
      rewrite is_leap_cycles, days_before_year_cycles by lia.
      split; [lia|]. split; [exact Hm|]. split; [exact Hd|]. lia.
Qed.

(** A test that holds for every number below a bound, by running it. *)
Lemma all_below (check : N -> bool) (n : N) :
  snd (N.iter n (fun s => (N.succ (fst s), snd s && check (fst s)))
         (0%N, true)) = true ->
  forall k, (k < n)%N -> check k = true.
Proof.
  set (step := fun s : N * bool => (N.succ (fst s), snd s && check (fst s))).
  assert (Hfst : forall m, fst (N.iter m step (0%N, true)) = m).
  { intros m. induction m as [|m IH] using N.peano_ind; [reflexivity|].
    rewrite N.iter_succ. simpl. rewrite IH. reflexivity. }
  induction n as [|n IH] using N.peano_ind; intros H k Hk; [lia|].
  rewrite N.iter_succ in H. simpl in H. rewrite Hfst in H.
  apply andb_true_iff in H. destruct H as [H1 H2].
  destruct (N.eq_dec k n) as [-> | Hne]; [exact H2|].
  apply IH; [exact H1 | lia].
Qed.

Lemma parse_Y_years (k : N) :
  (k < 10000)%N ->
  parse_Y (zero_pad 4 k) = Some (Z.of_N k, EmptyString).
Proof.
  intros Hk.
  assert (H : (fun k => match parse_Y (zero_pad 4 k) with
                        | Some (v, EmptyString) => v =? Z.of_N k
                        | _ => false
                        end) k = true).
  { apply (all_below
             (fun k => match parse_Y (zero_pad 4 k) with
                       | Some (v, EmptyString) => v =? Z.of_N k
                       | _ => false
                       end) 10000); [vm_compute; reflexivity | exact Hk]. }
  cbv beta in H.
  destruct (parse_Y (zero_pad 4 k)) as [[v [|c s]]|]; try discriminate H.
  apply Z.eqb_eq in H. subst v. reflexivity.
Qed.

Lemma parse_Y_app (s rest : string) (v : Z) :
  parse_Y s = Some (v, EmptyString) ->
  parse_Y (s +++ rest) = Some (v, rest).
Proof.
  destruct s as [|a [|b [|c [|d s']]]]; simpl; try discriminate.
  destruct (digit_of a), (digit_of b), (digit_of c), (digit_of d);
    try discriminate.
  intros H. injection H as <- ->. reflexivity.
Qed.

Lemma parse_m_printed (m : Z) (rest : string) :
  1 <= m <= 12 ->
  parse_m (zero_pad 2 (Z.to_N m) +++ rest) = Some (m, rest).
Proof.
  intros Hm.
  assert (Hcases : m = 1 \/ m = 2 \/ m = 3 \/ m = 4 \/ m = 5 \/ m = 6
                   \/ m = 7 \/ m = 8 \/ m = 9 \/ m = 10 \/ m = 11 \/ m = 12)
    by lia.
  repeat (destruct Hcases as [-> | Hcases]); try subst m; reflexivity.
Qed.

Lemma parse_d_printed (d : Z) :
  1 <= d <= 31 ->
  parse_d (zero_pad 2 (Z.to_N d)) = Some (d, EmptyString).
Proof.
  intros Hd. rewrite <- (Z2Nat.id d) by lia.
  assert (Hn : (1 <= Z.to_nat d <= 31)%nat) by lia.
  revert Hn. generalize (Z.to_nat d). clear d Hd. intros n Hn.
  do 32 (destruct n as [|n]; [try lia; reflexivity|]).
  lia.
Qed.

Lemma literal_dash_printed (s : string) :
  literal_dash ("-" +++ s) = Some s.
Proof. reflexivity. Qed.

(** The text of a date of the calendar is read as that date. *)
Lemma strptime_date_printed (y m d : Z) :
  MINYEAR <= y <= MAXYEAR -> 1 <= m <= 12 ->
  1 <= d <= days_in_month y m ->
  strptime_date
    (zero_pad 4 (Z.to_N y) +++ "-" +++ zero_pad 2 (Z.to_N m)
       +++ "-" +++ zero_pad 2 (Z.to_N d))
  = Ok (fromordinal (ymd2ord y m d)).
Proof.
  unfold MINYEAR, MAXYEAR. intros Hy Hm Hd.
  assert (Hd31 : 1 <= d <= 31).
  { split; [lia|]. destruct Hd as [_ Hd]. revert Hd.
    unfold days_in_month.
    assert (Hcases : m = 1 \/ m = 2 \/ m = 3 \/ m = 4 \/ m = 5 \/ m = 6
                     \/ m = 7 \/ m = 8 \/ m = 9 \/ m = 10 \/ m = 11
                     \/ m = 12) by lia.
    destruct (is_leap y);
      repeat (destruct Hcases as [-> | Hcases]); try subst m;
      table_values; closed_tests; lia. }
  unfold strptime_date.
  rewrite (parse_Y_app _ _ y).
  2:{ rewrite parse_Y_years by lia. rewrite Z2N.id by lia. reflexivity. }
  rewrite literal_dash_printed, parse_m_printed by exact Hm.
  rewrite literal_dash_printed, parse_d_printed by exact Hd31.
  unfold date_of_ymd, MINYEAR, MAXYEAR.
  replace ((1 <=? y) && (y <=? 9999) && (1 <=? m) && (m <=? 12)
           && (1 <=? d) && (d <=? days_in_month y m)) with true;
    [reflexivity|].
  symmetry. repeat (apply andb_true_iff; split); apply Z.leb_le; lia.
Qed.

Lemma strptime_date_isoformat (dt : date) :
  1 <= toordinal dt <= MAXORDINAL -> strptime_date (isoformat dt) = Ok dt.
Proof.
  intros Hdt.
  destruct (ord2ymd_ymd2ord _ Hdt) as [y [m [d [E [Hy [Hm [Hd Hn]]]]]]].
  unfold isoformat. rewrite E.
  rewrite strptime_date_printed by assumption.
  rewrite Hn. destruct dt. reflexivity.
Qed.

(** X24.  A date that is printed is read back.  For every date from
    0001-01-01 to 9999-12-31, the text that [str] gives for it, which is
    what [Fund.__str__] shows, is read by [strptime] with ['%Y-%m-%d'], as
    [Fund.__init__] does, as the same date. *)
Theorem strptime_isoformat (dt : date)
  (Hdt : 1 <= toordinal dt <= MAXORDINAL) :
  strptime_date (isoformat dt) = Ok dt.
Proof. exact (strptime_date_isoformat dt Hdt). Qed.

Lemma strptime_isoformat_witness :
  strptime_date (isoformat d_2022_04_05) = Ok d_2022_04_05.
Proof.
  apply strptime_isoformat. unfold MAXORDINAL. simpl. lia.
Defined.

(** Two dates of the calendar with the same ordinal have the same year,
    month and day. *)
Lemma ymd2ord_inj (y m d y' m' d' : Z) :
  1 <= m <= 12 -> 1 <= d <= days_in_month y m ->
  1 <= m' <= 12 -> 1 <= d' <= days_in_month y' m' ->
  ymd2ord y m d = ymd2ord y' m' d' ->
  y = y' /\ m = m' /\ d = d'.
Proof.
  intros Hm Hd Hm' Hd' H. unfold ymd2ord in H.
  pose proof (days_in_year_bound y m d Hm Hd) as B.
  pose proof (days_in_year_bound y' m' d' Hm' Hd') as B'.
  assert (Hy : y = y').
  { destruct (Z.lt_trichotomy y y') as [L | [E | L]]; [|exact E|].
    - pose proof (days_before_year_mono (y + 1) y' ltac:(lia)).
      pose proof (days_before_next_year y). lia.
    - pose proof (days_before_year_mono (y' + 1) y ltac:(lia)).
      pose proof (days_before_next_year y'). lia. }
  subst y'. split; [reflexivity|].
  assert (Hsum : days_before_month y m + d = days_before_month y m' + d')
    by lia.
  clear H B B'. unfold days_before_month, days_in_month in *.
  assert (Hcases : m = 1 \/ m = 2 \/ m = 3 \/ m = 4 \/ m = 5 \/ m = 6
                   \/ m = 7 \/ m = 8 \/ m = 9 \/ m = 10 \/ m = 11 \/ m = 12)
    by lia.
  assert (Hcases' : m' = 1 \/ m' = 2 \/ m' = 3 \/ m' = 4 \/ m' = 5
                    \/ m' = 6 \/ m' = 7 \/ m' = 8 \/ m' = 9 \/ m' = 10
                    \/ m' = 11 \/ m' = 12) by lia.
  destruct (is_leap y);
    repeat (destruct Hcases as [-> | Hcases]); try subst m;
    repeat (destruct Hcases' as [-> | Hcases']); try subst m';
    repeat match goal with
      | H : context [nth ?n ?l ?x] |- _ =>
          let v := eval vm_compute in (nth n l x) in
          change (nth n l x) with v in H
      end;
    repeat match goal with
      | H : context [if ?b then ?u else ?v] |- _ =>
          let c := eval vm_compute in b in
          match c with
          | true => change (if b then u else v) with u in H
          | false => change (if b then u else v) with v in H
          end
      end;
    lia.
Qed.

Lemma isoformat_of_date (y m d : Z) (dt : date) :
  date_of_ymd y m d = Ok dt ->
  isoformat dt
  = zero_pad 4 (Z.to_N y) +++ "-" +++ zero_pad 2 (Z.to_N m)
      +++ "-" +++ zero_pad 2 (Z.to_N d).
Proof.
  intros H. pose proof (date_of_ymd_range _ _ _ _ H) as Hdt.
  unfold date_of_ymd in H.
  destruct ((MINYEAR <=? y) && (y <=? MAXYEAR) && (1 <=? m) && (m <=? 12)
            && (1 <=? d) && (d <=? days_in_month y m)) eqn:C;
    [|discriminate H].
  injection H as <-. simpl toordinal in Hdt.
  repeat (apply andb_true_iff in C; destruct C as [C ?]).
  rewrite ?Z.leb_le in *.
  destruct (ord2ymd_ymd2ord _ Hdt) as [y' [m' [d' [E [Hy [Hm [Hd Hn]]]]]]].
  destruct (ymd2ord_inj y' m' d' y m d) as [-> [-> ->]];
    [assumption | assumption | lia | lia | exact Hn |].
  unfold isoformat. simpl toordinal. rewrite E. reflexivity.
Qed.

(** X25.  A zero-padded date text is read and printed unchanged.  For a year
    from 1 to 9999, a month and a day that the month has, the text
    [yyyy-mm-dd] with the fields padded with zeros is read by [strptime],
    and [str] of the date read is that text. *)
Theorem isoformat_strptime_padded (y m d : Z)
  (Hy : MINYEAR <= y <= MAXYEAR) (Hm : 1 <= m <= 12)
  (Hd : 1 <= d <= days_in_month y m) :
  exists dt,
    strptime_date
      (zero_pad 4 (Z.to_N y) +++ "-" +++ zero_pad 2 (Z.to_N m)
         +++ "-" +++ zero_pad 2 (Z.to_N d)) = Ok dt
    /\ isoformat dt
       = zero_pad 4 (Z.to_N y) +++ "-" +++ zero_pad 2 (Z.to_N m)
           +++ "-" +++ zero_pad 2 (Z.to_N d).
Proof.
  exists (fromordinal (ymd2ord y m d)).
  split; [apply strptime_date_printed; assumption|].
  apply isoformat_of_date. unfold date_of_ymd.
  replace ((MINYEAR <=? y) && (y <=? MAXYEAR) && (1 <=? m) && (m <=? 12)
           && (1 <=? d) && (d <=? days_in_month y m)) with true;
    [reflexivity|].
  symmetry. repeat (apply andb_true_iff; split); apply Z.leb_le; lia.
Qed.

Lemma isoformat_strptime_padded_witness :
  exists dt,
    strptime_date "2024-02-29" = Ok dt /\ isoformat dt = "2024-02-29".
Proof.
  apply (isoformat_strptime_padded 2024 2 29);
    [unfold MINYEAR, MAXYEAR; lia | lia | vm_compute; split; discriminate].
Defined.

(** X26.  A fund is rebuilt from its own series.  When [Fund.__init__]
    returns a fund, calling it again with the same attributes and the
    series of the fund, the dates printed as [Fund.__str__] prints them,
    returns the same fund. *)
Theorem Fund_init_of_printed_series (s c t : string)
  (dps : list (string * price)) (n : option string) (f : Fund)
  (Hf : Fund_init s c t dps n = Ok f) :
  Fund_init s c t
    (map (fun p => (isoformat (fst p), snd p)) (dates_prices f)) n
  = Ok f.
Proof.
  unfold Fund_init in *.
  apply bind_inv_Ok in Hf. destruct Hf as [points [Hm Hf]].
  injection Hf as <-. simpl dates_prices.
  apply mapM_Ok in Hm.
  assert (Hagain :
            mapM (fun dp => d <- strptime_date (fst dp) ;; Ok (d, snd dp))
              (map (fun p => (isoformat (fst p), snd p)) points)
            = Ok points).
  { apply mapM_Ok_intro. clear s c t n.
    induction Hm as [|dp p dps points Hp _ IH]; simpl; constructor;
      [|exact IH].
    simpl fst. simpl snd.
    destruct (strptime_date (fst dp)) as [d|e] eqn:E; simpl in Hp;
      [|discriminate Hp].
    injection Hp as <-. simpl fst.
    rewrite (strptime_date_isoformat d (strptime_date_range _ _ E)).
    reflexivity. }
  rewrite Hagain. reflexivity.
Qed.

Lemma Fund_init_of_printed_series_witness :
  Fund_init "f" "usd" "stock" [("2022-04-05", price_78_42)] None
  = Ok fund_single_day
  /\ Fund_init "f" "usd" "stock"
       (map (fun p => (isoformat (fst p), snd p))
          (dates_prices fund_single_day)) None
     = Ok fund_single_day.
Proof.
  split; [reflexivity|].
  exact (Fund_init_of_printed_series "f" "usd" "stock"
           [("2022-04-05", price_78_42)] None fund_single_day eq_refl).
Defined.

(** X27.  The summary of a fund shows what the constructor was given.  For a
    series whose date texts are all dates and whose last pair has a
    zero-padded date text and a price that is a number other than zero,
    the constructor returns a fund whose summary has the symbol, the
    currency and the instrument type in upper case, the name, that date
    text unchanged and that price with two decimals. *)
Theorem Fund_str_of_Fund_init (s c t : string)
  (earlier : list (string * price)) (y m d : Z) (x : float)
  (n : option string)
  (Hearlier : forall dp, In dp earlier -> returns (strptime_date (fst dp)))
  (Hy : MINYEAR <= y <= MAXYEAR) (Hm : 1 <= m <= 12)
  (Hd : 1 <= d <= days_in_month y m)
  (Hx : feqb x zero = false) :
  exists f,
    Fund_init s c t
      (earlier
       ++ [(zero_pad 4 (Z.to_N y) +++ "-" +++ zero_pad 2 (Z.to_N m)
              +++ "-" +++ zero_pad 2 (Z.to_N d), Some x)]) n
    = Ok f
    /\ Fund_str f
       = Ok (upper s +++ " - "
             +++ match n with Some given => given | None => "" end
             +++ newline +++ upper c +++ " - " +++ upper t +++ newline
             +++ "Latest price: "
             +++ (zero_pad 4 (Z.to_N y) +++ "-" +++ zero_pad 2 (Z.to_N m)
                    +++ "-" +++ zero_pad 2 (Z.to_N d))
             +++ " - $" +++ format_2f_float x).
Proof.
  set (text := zero_pad 4 (Z.to_N y) +++ "-" +++ zero_pad 2 (Z.to_N m)
                 +++ "-" +++ zero_pad 2 (Z.to_N d)).
  assert (Hpre : exists points,
             mapM (fun dp => d <- strptime_date (fst dp) ;; Ok (d, snd dp))
               earlier = Ok points).
  { induction earlier as [|dp earlier IH]; [exists []; reflexivity|].
    destruct (Hearlier dp (or_introl eq_refl)) as [d0 Hd0].
    destruct IH as [points Hpoints].
    { intros dp' Hin. apply Hearlier. right. exact Hin. }
    exists ((d0, snd dp) :: points). simpl. rewrite Hd0. simpl.
    rewrite Hpoints. reflexivity. }
  destruct Hpre as [points Hpoints].
  assert (Htext : strptime_date text = Ok (fromordinal (ymd2ord y m d)))
    by (apply strptime_date_printed; assumption).
  assert (Hiso : isoformat (fromordinal (ymd2ord y m d)) = text).
  { apply isoformat_of_date. unfold date_of_ymd.
    replace ((MINYEAR <=? y) && (y <=? MAXYEAR) && (1 <=? m) && (m <=? 12)
             && (1 <=? d) && (d <=? days_in_month y m)) with true;
      [reflexivity|].
    symmetry. repeat (apply andb_true_iff; split); apply Z.leb_le; lia. }
  assert (Hall :
            mapM (fun dp => d <- strptime_date (fst dp) ;; Ok (d, snd dp))
              (earlier ++ [(text, Some x)])
            = Ok (points ++ [(fromordinal (ymd2ord y m d), Some x)])).
  { apply mapM_Ok_intro. apply Forall2_app.
    - apply mapM_Ok. exact Hpoints.
    - constructor; [|constructor]. simpl fst. rewrite Htext. reflexivity. }
  eexists. split.
  - unfold Fund_init. rewrite Hall. reflexivity.
  - rewrite (Fund_str_latest_available _ points
               (fromordinal (ymd2ord y m d), Some x)); [|reflexivity|].
    + simpl snd. simpl fst. rewrite Hiso. unfold name_or_empty.
      simpl. destruct n as [given|]; [|reflexivity].
      destruct given; reflexivity.
    + simpl. rewrite Hx. reflexivity.
Qed.

Lemma Fund_str_of_Fund_init_witness :
  exists f,
    Fund_init "f" "usd" "stock"
      ([("2022-4-4", price_80)] ++ [("2022-04-05", price_78_42)])
      (Some "Ford")
    = Ok f
    /\ Fund_str f
       = Ok ("F - Ford" +++ newline +++ "USD - STOCK" +++ newline
             +++ "Latest price: 2022-04-05 - $78.42").
Proof.
  refine (Fund_str_of_Fund_init "f" "usd" "stock" [("2022-4-4", price_80)]
            2022 4 5 (decimal 7842 2) (Some "Ford") _ _ _ _ eq_refl).
  - intros dp [<- | []]. eexists. reflexivity.
  - unfold MINYEAR, MAXYEAR. lia.
  - lia.
  - vm_compute. split; discriminate.
Defined.

(** ** A bound on what rounding gives *)

Lemma value_le_at (k m1 e1 m2 e2 : Z) :
  k <= e1 -> k <= e2 ->
  (value_le m1 e1 m2 e2 <-> m1 * 2 ^ (e1 - k) <= m2 * 2 ^ (e2 - k)).
Proof.
  intros H1 H2. unfold value_le. set (j := Z.min e1 e2).
  assert (Hj : k <= j) by (unfold j; lia).
  assert (Hj1 : j <= e1) by (unfold j; lia).
  assert (Hj2 : j <= e2) by (unfold j; lia).
  replace (e1 - k) with ((e1 - j) + (j - k)) by lia.
  replace (e2 - k) with ((e2 - j) + (j - k)) by lia.
  rewrite !Z.pow_add_r by lia.
  assert (Hp : 0 < 2 ^ (j - k)) by (apply Z.pow_pos_nonneg; lia).
  rewrite !Z.mul_assoc.
  split; intros H.
  - apply Z.mul_le_mono_nonneg_r; [lia | exact H].
  - apply Z.mul_le_mono_pos_r in H; [exact H | exact Hp].
Qed.

Lemma value_le_elim (k m1 e1 m2 e2 : Z) :
  value_le m1 e1 m2 e2 -> k <= e1 -> k <= e2 ->
  m1 * 2 ^ (e1 - k) <= m2 * 2 ^ (e2 - k).
Proof. intros H H1 H2. apply (value_le_at k); assumption. Qed.

Lemma value_le_intro (k m1 e1 m2 e2 : Z) :
  k <= e1 -> k <= e2 ->
  m1 * 2 ^ (e1 - k) <= m2 * 2 ^ (e2 - k) -> value_le m1 e1 m2 e2.
Proof. intros H1 H2 H. apply (value_le_at k); assumption. Qed.

Lemma value_le_trans (m1 e1 m2 e2 m3 e3 : Z) :
  value_le m1 e1 m2 e2 -> value_le m2 e2 m3 e3 -> value_le m1 e1 m3 e3.
Proof.
  intros H12 H23. set (k := Z.min e1 (Z.min e2 e3)).
  apply (value_le_elim k) in H12; [|unfold k; lia|unfold k; lia].
  apply (value_le_elim k) in H23; [|unfold k; lia|unfold k; lia].
  apply (value_le_intro k); [unfold k; lia | unfold k; lia | lia].
Qed.

Lemma value_le_refl (m e : Z) : value_le m e m e.
Proof. unfold value_le. lia. Qed.

(** Shifting out zeros is exact. *)
Lemma iter_shr_1_exact (p : positive) (m : Z) :
  0 <= m ->
  iter_pos shr_1 p (Build_shr_record (m * 2 ^ Zpos p) false false)
  = Build_shr_record m false false.
Proof.
  assert (One : forall n, 0 <= n ->
            shr_1 (Build_shr_record (n * 2) false false)
            = Build_shr_record n false false).
  { intros n Hn. rewrite Z.mul_comm.
    destruct n as [|q|q]; try lia; reflexivity. }
  revert m. induction p as [p IH | p IH |]; intros m Hm; cbn [iter_pos].
  - rewrite (Pos2Z.inj_xI p).
    replace (m * 2 ^ (2 * Zpos p + 1))
      with ((m * 2 ^ Zpos p * 2 ^ Zpos p) * 2).
    2:{ replace (2 * Zpos p + 1) with (Zpos p + Zpos p + 1) by lia.
        rewrite !Z.pow_add_r by lia. simpl (2 ^ 1). lia. }
    assert (H0 : 0 < 2 ^ Zpos p) by (apply Z.pow_pos_nonneg; lia).
    rewrite One by nia. rewrite IH by nia. apply IH. exact Hm.
  - rewrite (Pos2Z.inj_xO p).
    replace (m * 2 ^ (2 * Zpos p)) with (m * 2 ^ Zpos p * 2 ^ Zpos p).
    2:{ replace (2 * Zpos p) with (Zpos p + Zpos p) by lia.
        rewrite !Z.pow_add_r by lia. lia. }
    assert (H0 : 0 < 2 ^ Zpos p) by (apply Z.pow_pos_nonneg; lia).
    rewrite IH by nia. apply IH. exact Hm.
  - simpl (2 ^ 1). apply One. exact Hm.
Qed.

Lemma shr_exact (m e n : Z) :
  0 <= m -> m mod 2 ^ Z.max 0 n = 0 ->
  loc_of_shr_record (fst (shr (shr_record_of_loc m loc_Exact) e n))
  = loc_Exact.
Proof.
  intros Hm Hmod. destruct n as [|p|p]; try reflexivity.
  simpl shr. simpl fst. simpl shr_record_of_loc.
  replace (Z.max 0 (Zpos p)) with (Zpos p) in Hmod by lia.
  assert (H0 : 0 < 2 ^ Zpos p) by (apply Z.pow_pos_nonneg; lia).
  assert (E : m = m / 2 ^ Zpos p * 2 ^ Zpos p).
  { pose proof (Z.div_mod m (2 ^ Zpos p) ltac:(lia)). lia. }
  rewrite E. rewrite iter_shr_1_exact; [reflexivity|].
  apply Z.div_pos; lia.
Qed.

Section RoundingBound.

Variables prec emax : Z.
Hypothesis Hprec : 0 < prec.

Local Notation "'emin'" := (SpecFloat.emin prec emax).
Local Notation "'fexp'" := (SpecFloat.fexp prec emax).

(** What one shift to the exponent [fexp] asks for leaves. *)
Lemma shr_fexp_spec (m e : Z) (l : location) :
  0 < m ->
  let s := Z.max 0 (fexp (Z.log2 m + 1 + e) - e) in
  let r := shr_fexp prec emax m e l in
  shr_m (fst r) = m / 2 ^ s /\ snd r = e + s
  /\ (l = loc_Exact -> m mod 2 ^ s = 0 ->
      loc_of_shr_record (fst r) = loc_Exact).
Proof.
  intros Hm. cbv zeta. unfold shr_fexp. rewrite (Zdigits2_log2 m Hm).
  set (n := fexp (Z.log2 m + 1 + e) - e).
  destruct (shr_spec (shr_record_of_loc m l) e n) as [H1 H2].
  { rewrite shr_record_of_loc_m. lia. }
  rewrite shr_record_of_loc_m in H1.
  split; [exact H1 | split; [exact H2|]].
  intros -> Hmod. apply shr_exact; [lia | exact Hmod].
Qed.

(** A mantissa at its canonical exponent that is at most a float has at
    most the exponent of that float. *)
Lemma canonical_le_exponent (m e mB eB : Z) :
  0 < m -> e = fexp (Z.log2 m + 1 + e) ->
  0 < mB -> Z.log2 mB + 1 <= prec -> emin <= eB ->
  value_le m e mB eB -> e <= eB.
Proof.
  intros Hm He HmB HdB HeB Hle.
  destruct (Z_le_gt_dec e eB) as [H | H]; [exact H | exfalso].
  rewrite (fexp_eq prec emax) in He.
  assert (Hd : Z.log2 m + 1 = prec) by lia.
  assert (H1 : 2 ^ (prec - 1) <= m).
  { apply Z.log2_le_pow2; lia. }
  assert (H2 : mB < 2 ^ prec).
  { apply Z.log2_lt_pow2; lia. }
  apply (value_le_elim eB) in Hle; [|lia|lia].
  rewrite Z.sub_diag, Z.pow_0_r, Z.mul_1_r in Hle.
  assert (H3 : 2 <= 2 ^ (e - eB)).
  { change 2 with (2 ^ 1) at 1. apply Z.pow_le_mono_r; lia. }
  assert (H4 : 2 ^ prec = 2 * 2 ^ (prec - 1)).
  { replace prec with (1 + (prec - 1)) at 1 by lia.
    rewrite Z.pow_add_r by lia. reflexivity. }
  assert (H5 : 0 < 2 ^ (prec - 1)) by (apply Z.pow_pos_nonneg; lia).
  nia.
Qed.

Lemma fexp_mono (a b : Z) : a <= b -> fexp a <= fexp b.
Proof. intros H. rewrite !(fexp_eq prec emax). lia. Qed.

(** Rounding to nearest does not pass a float: when the number to round,
    which is [mx * 2 ^ ex] when the location is exact and lies between it
    and [(mx + 1) * 2 ^ ex] when it is not, is at most a float, so is
    what it is rounded to. *)
Lemma binary_round_aux_le (mx ex : Z) (lx : location) (mB : positive)
  (eB : Z) :
  0 < mx -> emin < Z.log2 mx + 1 + ex ->
  ex <= fexp (Z.log2 mx + 1 + ex) ->
  bounded prec emax mB eB = true ->
  value_le (mx + match lx with loc_Exact => 0 | _ => 1 end) ex
    (Zpos mB) eB ->
  exists m e,
    binary_round_aux prec emax false mx ex lx = S754_finite false m e
    /\ bounded prec emax m e = true
    /\ value_le (Zpos m) e (Zpos mB) eB.
Proof.
  intros Hm Hmag Hex HB Hle.
  destruct (bounded_facts prec emax mB eB HB) as [HeB [HdB _]].
  assert (HeB' : eB <= emax - prec).
  { unfold bounded in HB. apply andb_true_iff in HB.
    destruct HB as [_ HB]. apply Z.leb_le. exact HB. }
  unfold binary_round_aux.
  set (mag := Z.log2 mx + 1 + ex) in *.
  pose proof (shr_fexp_spec mx ex lx Hm) as S1.
  pose proof (shr_fexp_pos prec emax Hprec mx ex lx Hm Hmag) as P1.
  cbv zeta in S1, P1. fold mag in S1, P1.
  destruct (shr_fexp prec emax mx ex lx) as [mrs1 e1].
  simpl fst in S1, P1; simpl snd in S1, P1.
  destruct S1 as [Sm1 [Se1 Sx1]]. destruct P1 as [Pm1 Pmag1].
  set (s1 := Z.max 0 (fexp mag - ex)) in *.
  assert (Hs1 : s1 = fexp mag - ex) by (unfold s1; lia).
  assert (He1 : e1 = fexp mag) by lia.
  set (m1 := shr_m mrs1) in *.
  assert (Hp1 : 0 < 2 ^ s1) by (apply Z.pow_pos_nonneg; lia).
  assert (Hfloor : m1 * 2 ^ s1 <= mx).
  { rewrite Sm1. pose proof (Z.div_mod mx (2 ^ s1) ltac:(lia)).
    pose proof (Z.mod_pos_bound mx (2 ^ s1) Hp1). lia. }
  set (u := mx + match lx with loc_Exact => 0 | _ => 1 end) in *.
  assert (Hu : mx <= u) by (unfold u; destruct lx; lia).
  (* the first stage is below the bound, so its exponent is *)
  assert (Hle1 : value_le m1 e1 (Zpos mB) eB).
  { apply (value_le_trans _ _ u ex); [|exact Hle].
    apply (value_le_intro ex); [lia | lia|].
    rewrite Z.sub_diag, Z.pow_0_r, Z.mul_1_r.
    replace (e1 - ex) with s1 by lia. lia. }
  assert (He1B : e1 <= eB).
  { apply (canonical_le_exponent m1 e1 (Zpos mB) eB); try lia.
    - rewrite Pmag1. exact He1.
    - exact Hle1. }
  set (K := Zpos mB * 2 ^ (eB - e1)).
  assert (HuK : u <= K * 2 ^ s1).
  { apply (value_le_elim ex) in Hle; [|lia|lia].
    rewrite Z.sub_diag, Z.pow_0_r, Z.mul_1_r in Hle.
    unfold K. rewrite <- Z.mul_assoc, <- Z.pow_add_r by lia.
    replace (eB - e1 + s1) with (eB - ex) by lia. exact Hle. }
  set (m2 := round_nearest_even m1 (loc_of_shr_record mrs1)).
  pose proof (round_nearest_even_bounds m1 (loc_of_shr_record mrs1)) as Hb.
  fold m2 in Hb.
  assert (Hm2K : m2 <= K).
  { destruct (Z.eq_dec (mx mod 2 ^ s1) 0) as [Hmod | Hmod].
    - destruct lx as [|cmp].
      + (* exact: nothing is added *)
        assert (Hloc : loc_of_shr_record mrs1 = loc_Exact)
          by (apply Sx1; [reflexivity | exact Hmod]).
        unfold m2. rewrite Hloc. simpl round_nearest_even.
        unfold u in HuK. nia.
      + unfold u in HuK.
        assert (m1 < K); [|lia]. nia.
    - assert (Hlt : mx < K * 2 ^ s1).
      { destruct (Z.eq_dec mx (K * 2 ^ s1)) as [E | E]; [|lia].
        exfalso. apply Hmod. rewrite E. apply Z.mod_mul. lia. }
      assert (m1 < K); [|lia]. nia. }
  assert (Hm2 : 0 < m2) by lia.
  assert (Hle2 : value_le m2 e1 (Zpos mB) eB).
  { apply (value_le_intro e1); [lia | lia|].
    rewrite Z.sub_diag, Z.pow_0_r, Z.mul_1_r. exact Hm2K. }
  (* the second stage *)
  set (mag2 := Z.log2 m2 + 1 + e1).
  assert (Hmag2 : mag <= mag2).
  { unfold mag2. rewrite <- Pmag1.
    assert (Z.log2 m1 <= Z.log2 m2) by (apply Z.log2_le_mono; lia). lia. }
  pose proof (shr_fexp_spec m2 e1 loc_Exact Hm2) as S2.
  pose proof (shr_fexp_pos prec emax Hprec m2 e1 loc_Exact Hm2) as P2.
  cbv zeta in S2, P2. fold mag2 in S2, P2.
  destruct (shr_fexp prec emax m2 e1 loc_Exact) as [mrs2 e2].
  simpl fst in S2, P2; simpl snd in S2, P2.
  destruct S2 as [Sm2 [Se2 _]]. destruct P2 as [Pm2 Pmag2]; [lia|].
  pose proof (fexp_mono mag mag2 Hmag2) as Hf.
  set (s2 := Z.max 0 (fexp mag2 - e1)) in *.
  assert (Hs2 : s2 = fexp mag2 - e1) by (unfold s2; lia).
  assert (He2 : e2 = fexp mag2) by lia.
  set (m3 := shr_m mrs2) in *.
  assert (Hp2 : 0 < 2 ^ s2) by (apply Z.pow_pos_nonneg; lia).
  assert (Hfloor2 : m3 * 2 ^ s2 <= m2).
  { rewrite Sm2. pose proof (Z.div_mod m2 (2 ^ s2) ltac:(lia)).
    pose proof (Z.mod_pos_bound m2 (2 ^ s2) Hp2). lia. }
  assert (Hle3 : value_le m3 e2 (Zpos mB) eB).
  { apply (value_le_trans _ _ m2 e1); [|exact Hle2].
    apply (value_le_intro e1); [lia | lia|].
    rewrite Z.sub_diag, Z.pow_0_r, Z.mul_1_r.
    replace (e2 - e1) with s2 by lia. exact Hfloor2. }
  assert (He2B : e2 <= eB).
  { apply (canonical_le_exponent m3 e2 (Zpos mB) eB); try lia.
    - rewrite Pmag2. exact He2.
    - exact Hle3. }
  destruct m3 as [|p|p] eqn:E3; try lia.
  exists p, e2.
  replace (e2 <=? emax - prec) with true by (symmetry; apply Z.leb_le; lia).
  split; [reflexivity|]. split; [|exact Hle3].
  unfold bounded, canonical_mantissa. apply andb_true_iff. split.
  - apply Z.eqb_eq. rewrite digits2_pos_log2, Pmag2. symmetry. exact He2.
  - apply Z.leb_le. lia.
Qed.


Lemma binary_normalize_le (m e : Z) (szero : bool) (mB : positive)
  (eB : Z) :
  0 < m -> emin < Z.log2 m + 1 + e ->
  bounded prec emax mB eB = true ->
  value_le m e (Zpos mB) eB ->
  le_result prec emax (Zpos mB) eB (binary_normalize prec emax m e szero).
Proof.
  intros Hm Hmag HB Hle. destruct m as [|p|p]; try lia.
  simpl binary_normalize. unfold binary_round.
  pose proof (shl_align_spec p e (fexp (Zpos (digits2_pos p) + e))) as H.
  cbv zeta in H.
  destruct (shl_align p e (fexp (Zpos (digits2_pos p) + e))) as [mz ez].
  simpl fst in H; simpl snd in H. destruct H as [He Hmz].
  rewrite digits2_pos_log2 in He, Hmz.
  set (mag := Z.log2 (Zpos p) + 1 + e) in *.
  assert (Hl : Z.log2 (Zpos mz) + 1 + ez = mag).
  { rewrite Hmz, log2_mul_pow2 by lia. rewrite He. unfold mag. lia. }
  apply binary_round_aux_le.
  - lia.
  - rewrite Hl. exact Hmag.
  - rewrite Hl. lia.
  - exact HB.
  - rewrite Z.add_0_r. apply (value_le_trans _ _ (Zpos p) e); [|exact Hle].
    apply (value_le_intro ez); [lia | lia|].
    rewrite Z.sub_diag, Z.pow_0_r, Z.mul_1_r, Hmz.
    replace (e - Z.min e (fexp mag)) with (e - ez) by lia. lia.
Qed.

(** Subtraction: [x - y] is at most [x] for canonical [x > y > 0]. *)
Lemma SFsub_le (mx my : positive) (ex ey : Z) :
  bounded prec emax mx ex = true ->
  bounded prec emax my ey = true ->
  SFltb (S754_finite false my ey) (S754_finite false mx ex) = true ->
  le_result prec emax (Zpos mx) ex
    (SFsub prec emax (S754_finite false mx ex) (S754_finite false my ey)).
Proof.
  intros Bx By Hlt.
  destruct (bounded_facts prec emax mx ex Bx) as [Hex [Hdx Hnx]].
  destruct (bounded_facts prec emax my ey By) as [Hey [Hdy _]].
  apply SFltb_finite_pos in Hlt.
  unfold SFsub.
  pose proof (shl_align_spec mx ex (Z.min ex ey)) as Hx.
  pose proof (shl_align_spec my ey (Z.min ex ey)) as Hy.
  cbv zeta in Hx, Hy. destruct Hx as [_ Hx]. destruct Hy as [_ Hy].
  cbv zeta. unfold cond_Zopp. rewrite Hx, Hy. clear Hx Hy.
  set (ez := Z.min ex ey).
  replace (Z.min ex ez) with ez by (unfold ez; lia).
  replace (Z.min ey ez) with ez by (unfold ez; lia).
  set (D := Zpos mx * 2 ^ (ex - ez) - Zpos my * 2 ^ (ey - ez)).
  assert (Hpy : 0 < 2 ^ (ey - ez)).
  { apply Z.pow_pos_nonneg; unfold ez; lia. }
  assert (HD : 0 < D /\ emin < Z.log2 D + 1 + ez).
  { destruct Hlt as [Hlt | [He Hm]].
    - (* ey < ex *)
      assert (Ez : ez = ey) by (unfold ez; lia).
      assert (Hp : Z.log2 (Zpos mx) + 1 = prec) by (apply Hnx; lia).
      unfold D. rewrite Ez, Z.sub_diag, Z.pow_0_r, Z.mul_1_r.
      set (k := ex - ey). assert (Hk : 1 <= k) by (unfold k; lia).
      assert (HA : 2 ^ (prec - 1) <= Zpos mx).
      { apply Z.log2_le_pow2; lia. }
      assert (HB : Zpos my < 2 ^ prec).
      { apply Z.log2_lt_pow2; lia. }
      assert (Hpow : 2 ^ prec = 2 * 2 ^ (prec - 1)).
      { replace prec with (1 + (prec - 1)) at 1 by lia.
        rewrite Z.pow_add_r by lia. reflexivity. }
      assert (Hpk : 2 ^ k = 2 * 2 ^ (k - 1)).
      { replace k with (1 + (k - 1)) at 1 by lia.
        rewrite Z.pow_add_r by lia. reflexivity. }
      assert (HA0 : 0 < 2 ^ (prec - 1)) by (apply Z.pow_pos_nonneg; lia).
      assert (HB0 : 0 < 2 ^ (k - 1)) by (apply Z.pow_pos_nonneg; lia).
      assert (HDge : 2 ^ (k - 1) <= Zpos mx * 2 ^ k - Zpos my).
      { rewrite Hpk. nia. }
      assert (HDpos : 0 < Zpos mx * 2 ^ k - Zpos my) by lia.
      split; [exact HDpos|].
      assert (Hlog : k - 1 <= Z.log2 (Zpos mx * 2 ^ k - Zpos my)).
      { apply Z.log2_le_pow2; [exact HDpos | exact HDge]. }
      unfold k in *. lia.
    - (* ey = ex *)
      assert (Ez : ez = ex) by (unfold ez; lia).
      unfold D. rewrite Ez, <- He, Z.sub_diag, Z.pow_0_r, !Z.mul_1_r.
      assert (HDpos : 0 < Zpos mx - Zpos my) by lia.
      pose proof (Z.log2_nonneg (Zpos mx - Zpos my)).
      split; [exact HDpos | lia]. }
  destruct HD as [HD0 HDmin].
  apply binary_normalize_le; try assumption.
  apply (value_le_intro ez); [lia | unfold ez; lia|].
  rewrite Z.sub_diag, Z.pow_0_r, Z.mul_1_r. unfold D. lia.
Qed.

Hypothesis Hemax : prec + 3 <= emax.

(** Division: [a / x] is at most one when [a] is at most [x].  One is the
    float [mB * 2 ^ eB] with [mB = 2 ^ (- eB)]. *)
Lemma SFdiv_le (ma mx : positive) (ea ex : Z) (mB : positive) (eB : Z) :
  Z.log2 (Zpos mx) + 1 + ex - prec <= Z.log2 (Zpos ma) + 1 + ea ->
  value_le (Zpos ma) ea (Zpos mx) ex ->
  bounded prec emax mB eB = true ->
  eB <= 0 -> Zpos mB = 2 ^ (- eB) ->
  le_result prec emax (Zpos mB) eB
    (SFdiv prec emax (S754_finite false ma ea) (S754_finite false mx ex)).
Proof.
  pose proof (emin_le prec emax Hemax) as Hemin.
  intros HM Hle HB HeB HmB.
  assert (Hmag : Z.log2 (Zpos ma) + ea <= Z.log2 (Zpos mx) + ex).
  { set (k := Z.min ea ex).
    apply (value_le_elim k) in Hle; [|unfold k; lia|unfold k; lia].
    apply Z.log2_le_mono in Hle.
    rewrite !log2_mul_pow2 in Hle by (unfold k; lia). lia. }
  unfold SFdiv, SFdiv_core_binary. simpl Zdigits2.
  rewrite !digits2_pos_log2.
  set (M := Z.log2 (Zpos ma) + 1 + ea - (Z.log2 (Zpos mx) + 1 + ex)).
  assert (HfM : fexp M = M - prec).
  { rewrite (fexp_eq prec emax). unfold M. lia. }
  rewrite HfM.
  set (e' := Z.min (M - prec) (ea - ex)).
  set (s := ea - ex - e').
  assert (Hs : 0 <= s) by (unfold s, e'; lia).
  assert (He' : e' <= 0) by (unfold e', M; lia).
  set (m' := match s with
             | 0 => Zpos ma
             | Zpos _ => Z.shiftl (Zpos ma) s
             | Zneg _ => 0
             end).
  assert (Hm' : m' = Zpos ma * 2 ^ s).
  { unfold m'. destruct s as [|p|p] eqn:Es; try lia.
    rewrite Z.shiftl_mul_pow2 by lia. reflexivity. }
  assert (Hq : fst (Z.div_eucl m' (Zpos mx)) = m' / Zpos mx) by reflexivity.
  assert (Hr : snd (Z.div_eucl m' (Zpos mx)) = m' mod Zpos mx)
    by reflexivity.
  destruct (Z.div_eucl m' (Zpos mx)) as [q r].
  simpl fst in Hq. simpl snd in Hr.
  set (t := Z.log2 (Zpos ma) + s - (Z.log2 (Zpos mx) + 1)).
  assert (Ht : prec - 1 <= t) by (unfold t, s, e', M; lia).
  assert (Hqt : 2 ^ t <= q).
  { rewrite Hq, Hm'. apply Z.div_le_lower_bound; [lia|].
    assert (H1 : Zpos mx < 2 ^ (Z.log2 (Zpos mx) + 1)).
    { apply Z.log2_lt_pow2; lia. }
    assert (H2 : 2 ^ Z.log2 (Zpos ma) <= Zpos ma).
    { apply Z.log2_le_pow2; lia. }
    assert (H3 : 2 ^ t * 2 ^ (Z.log2 (Zpos mx) + 1)
                 = 2 ^ Z.log2 (Zpos ma) * 2 ^ s).
    { pose proof (Z.log2_nonneg (Zpos ma)).
      pose proof (Z.log2_nonneg (Zpos mx)).
      rewrite <- !Z.pow_add_r by lia. f_equal; unfold t; lia. }
    assert (H4 : 0 < 2 ^ t) by (apply Z.pow_pos_nonneg; lia).
    assert (H5 : 0 < 2 ^ s) by (apply Z.pow_pos_nonneg; lia).
    nia. }
  assert (Hq0 : 0 < q).
  { assert (0 < 2 ^ t) by (apply Z.pow_pos_nonneg; lia). lia. }
  assert (Hlq : t <= Z.log2 q) by (apply Z.log2_le_pow2; assumption).
  assert (HMq : M <= Z.log2 q + 1 + e') by (unfold t, s, M in *; lia).
  (* the quotient is at most one *)
  set (P := 2 ^ (- e')).
  assert (HP : 0 < P) by (apply Z.pow_pos_nonneg; lia).
  assert (Hm'P : m' <= Zpos mx * P).
  { set (k := Z.min ea ex).
    apply (value_le_elim k) in Hle; [|unfold k; lia|unfold k; lia].
    assert (Hj : 0 <= k - ex - e') by (unfold k, s in *; lia).
    apply (Z.mul_le_mono_nonneg_r _ _ (2 ^ (k - ex - e'))) in Hle;
      [|apply Z.pow_nonneg; lia].
    rewrite <- !Z.mul_assoc, <- !Z.pow_add_r in Hle by (unfold k; lia).
    fold k in Hle.
    replace (ea - k + (k - ex - e')) with s in Hle by (unfold s; lia).
    replace (ex - k + (k - ex - e')) with (- e') in Hle by lia.
    rewrite Hm'. exact Hle. }
  assert (HuP : q + match new_location (Zpos mx) r with
                    | loc_Exact => 0
                    | _ => 1
                    end <= P).
  { destruct (Z.eq_dec r 0) as [Hr0 | Hr0].
    - assert (Hloc : new_location (Zpos mx) r = loc_Exact).
      { rewrite Hr0. unfold new_location, new_location_even,
          new_location_odd. destruct (Z.even (Zpos mx)); reflexivity. }
      rewrite Hloc, Z.add_0_r, Hq.
      apply Z.div_le_upper_bound; lia.
    - assert (Hlt : m' < Zpos mx * P).
      { destruct (Z.eq_dec m' (Zpos mx * P)) as [E | E]; [|lia].
        exfalso. apply Hr0. rewrite Hr, E, Z.mul_comm.
        apply Z.mod_mul. lia. }
      assert (q < P).
      { rewrite Hq. apply Z.div_lt_upper_bound; lia. }
      destruct (new_location (Zpos mx) r); lia. }
  simpl xorb.
  apply binary_round_aux_le.
  - exact Hq0.
  - lia.
  - pose proof (fexp_mono M (Z.log2 q + 1 + e') HMq).
    assert (e' <= M - prec) by (unfold e'; lia). lia.
  - exact HB.
  - set (k := Z.min e' eB).
    apply (value_le_intro k); [unfold k; lia | unfold k; lia|].
    rewrite HmB, <- Z.pow_add_r by (unfold k; lia).
    replace (- eB + (eB - k)) with (- e' + (e' - k)) by lia.
    rewrite Z.pow_add_r by (unfold k; lia).
    apply Z.mul_le_mono_nonneg_r; [apply Z.pow_nonneg; lia | exact HuP].
Qed.

(** Multiplication: [a * c] is at most [c] when [a] is at most one, for
    two floats with full mantissas. *)
Lemma SFmul_le (ma mc : positive) (ea ec : Z) (mB : positive) (eB : Z) :
  Z.log2 (Zpos ma) + 1 = prec -> Z.log2 (Zpos mc) + 1 = prec ->
  emin < 2 * prec - 1 + ea + ec ->
  bounded prec emax mc ec = true ->
  eB <= 0 -> Zpos mB = 2 ^ (- eB) ->
  value_le (Zpos ma) ea (Zpos mB) eB ->
  le_result prec emax (Zpos mc) ec
    (SFmul prec emax (S754_finite false ma ea) (S754_finite false mc ec)).
Proof.
  intros Hda Hdc Hmin HB HeB HmB Hle.
  unfold SFmul. simpl xorb.
  assert (Hl : Z.log2 (Zpos ma) + Z.log2 (Zpos mc)
               <= Z.log2 (Zpos (ma * mc))).
  { rewrite Pos2Z.inj_mul. apply Z.log2_mul_below; lia. }
  (* [a] is at most one *)
  assert (Hone : ea <= 0 /\ Zpos ma <= 2 ^ (- ea)).
  { set (k := Z.min ea eB).
    apply (value_le_elim k) in Hle; [|unfold k; lia|unfold k; lia].
    rewrite HmB, <- Z.pow_add_r in Hle by (unfold k; lia).
    replace (- eB + (eB - k)) with (- k) in Hle by lia.
    assert (Hea : ea <= 0).
    { destruct (Z_le_gt_dec ea 0) as [H | H]; [exact H | exfalso].
      assert (Hk : k = eB) by (unfold k; lia).
      assert (H1 : 2 ^ (ea - k) = 2 ^ ea * 2 ^ (- k)).
      { rewrite <- Z.pow_add_r by lia. f_equal; lia. }
      assert (H2 : 2 <= 2 ^ ea).
      { change 2 with (2 ^ 1) at 1. apply Z.pow_le_mono_r; lia. }
      assert (H3 : 0 < 2 ^ (- k)) by (apply Z.pow_pos_nonneg; lia).
      nia. }
    split; [exact Hea|].
    assert (H1 : 2 ^ (- k) = 2 ^ (- ea) * 2 ^ (ea - k)).
    { rewrite <- Z.pow_add_r by (unfold k; lia). f_equal; lia. }
    rewrite H1 in Hle.
    apply Z.mul_le_mono_pos_r in Hle; [exact Hle|].
    apply Z.pow_pos_nonneg; unfold k; lia. }
  destruct Hone as [Hea Hma].
  apply binary_round_aux_le.
  - lia.
  - lia.
  - rewrite (fexp_eq prec emax). lia.
  - exact HB.
  - rewrite Z.add_0_r.
    apply (value_le_intro (ea + ec)); [lia | lia|].
    rewrite Z.sub_diag, Z.pow_0_r, Z.mul_1_r, Pos2Z.inj_mul.
    replace (ec - (ea + ec)) with (- ea) by lia. nia.
Qed.

(** Order of two canonical floats by their values. *)
Lemma SFcompare_le (m mB : positive) (e eB : Z) :
  bounded prec emax m e = true -> bounded prec emax mB eB = true ->
  value_le (Zpos m) e (Zpos mB) eB ->
  e < eB \/ (e = eB /\ Zpos m <= Zpos mB).
Proof.
  intros Hb HB Hle.
  destruct (bounded_facts prec emax mB eB HB) as [HeB [HdB _]].
  assert (He : e <= eB).
  { apply (canonical_le_exponent (Zpos m) e (Zpos mB) eB); try lia.
    - unfold bounded, canonical_mantissa in Hb.
      apply andb_true_iff in Hb. destruct Hb as [Hb _].
      apply Z.eqb_eq in Hb. rewrite digits2_pos_log2 in Hb.
      symmetry. exact Hb.
    - exact Hle. }
  destruct (Z.eq_dec e eB) as [E | E]; [right | left; lia].
  split; [exact E|]. subst eB. unfold value_le in Hle.
  rewrite Z.min_id, Z.sub_diag, Z.pow_0_r, !Z.mul_1_r in Hle. exact Hle.
Qed.

Lemma SFltb_le_false (m mB : positive) (e eB : Z) :
  e < eB \/ (e = eB /\ Zpos m <= Zpos mB) ->
  SFltb (S754_finite false mB eB) (S754_finite false m e) = false
  /\ SFltb (S754_finite true m e) (S754_finite true mB eB) = false.
Proof.
  intros H. unfold SFltb, SFcompare.
  destruct (Z.compare_spec eB e) as [E1 | E1 | E1];
    destruct (Z.compare_spec e eB) as [E2 | E2 | E2]; try lia;
    try (split; reflexivity).
  assert (Hm : Zpos m <= Zpos mB) by lia.
  change (Pos.compare_cont Eq mB m) with (Pos.compare mB m).
  change (Pos.compare_cont Eq m mB) with (Pos.compare m mB).
  destruct (Pos.compare_spec mB m) as [C1 | C1 | C1];
    destruct (Pos.compare_spec m mB) as [C2 | C2 | C2]; try lia;
    split; reflexivity.
Qed.

End RoundingBound.

(** ** The percentage is at most a hundred *)

(** The percentage of a positive float [a] in a float [x] that is at least
    [a] is a positive float that is at most 100.0. *)
Lemma percent_le (ma mx : positive) (ea ex : Z) :
  bounded prec emax mx ex = true ->
  Z.log2 (Zpos mx) + 1 + ex - prec <= Z.log2 (Zpos ma) + 1 + ea ->
  value_le (Zpos ma) ea (Zpos mx) ex ->
  le_result prec emax 7036874417766400 (-46)
    (fmul (fdiv (S754_finite false ma ea) (S754_finite false mx ex))
       hundred).
Proof.
  intros Bx Hmag Hle.
  destruct (SFdiv_le prec emax binary64_prec binary64_emax ma mx ea ex
              4503599627370496 (-52) Hmag Hle eq_refl ltac:(lia) eq_refl)
    as [mq [eq [Hq [Bq Hq1]]]].
  assert (Hpos : pos_result false (- prec)
                   (fdiv (S754_finite false ma ea)
                      (S754_finite false mx ex))).
  { apply (SFdiv_pos prec emax binary64_prec binary64_emax).
    right. exists ma, ea. split; [reflexivity | exact Hmag]. }
  unfold fdiv in *. rewrite Hq in *.
  destruct Hpos as [Hpos | [m' [e' [Hpos Hmq]]]]; [discriminate Hpos|].
  injection Hpos as <- <-.
  destruct (bounded_facts prec emax mq eq Bq) as [Heq [Hdq Hnq]].
  assert (Hfull : Z.log2 (Zpos mq) + 1 = prec).
  { apply Hnq. unfold prec, emax, emin in *. lia. }
  unfold fmul, hundred.
  apply (SFmul_le prec emax binary64_prec mq 7036874417766400 eq (-46)
           4503599627370496 (-52)).
  - exact Hfull.
  - reflexivity.
  - unfold prec, emax, emin in *. lia.
  - reflexivity.
  - lia.
  - reflexivity.
  - exact Hq1.
Qed.

Lemma percent_of_difference_le (high low : float) :
  is_price high = true -> is_price low = true ->
  fltb low high = true ->
  le_result prec emax 7036874417766400 (-46)
    (fmul (fdiv (fsub high low) high) hundred).
Proof.
  intros Hh Hl Hlt.
  destruct high as [sh | sh | | sh mh eh]; try discriminate Hh.
  - destruct low as [sl | sl | | sl ml el]; try discriminate Hl;
      try discriminate Hlt.
    destruct sl; [discriminate Hl | discriminate Hlt].
  - destruct sh; [discriminate Hh|]. simpl in Hh.
    destruct low as [sl | sl | | sl ml el]; try discriminate Hl.
    + (* low is a zero: the difference is [high] itself *)
      apply percent_le; [exact Hh | unfold prec; lia|].
      apply value_le_refl.
    + destruct sl; [discriminate Hl|]. simpl in Hl.
      destruct (SFsub_le prec emax binary64_prec mh ml eh el Hh Hl Hlt)
        as [md [ed [Hd [Bd Hdle]]]].
      pose proof (SFsub_pos prec emax binary64_prec mh ml eh el Hh Hl Hlt)
        as Hpos.
      unfold fsub. rewrite Hd in *.
      destruct Hpos as [Hpos | [m' [e' [Hpos Hmd]]]]; [discriminate Hpos|].
      injection Hpos as <- <-.
      apply percent_le; assumption.
Qed.

(** X28.  The percentage is never beyond a hundred.  On two prices
    [calculate_percentage] returns a number from -100.0 to 100.0: the
    change is divided by the larger price, so that an increase, however
    large, is reported as less than a hundred per cent. *)
Theorem calculate_percentage_within_hundred (first last : float)
  (Hfirst : is_price first = true) (Hlast : is_price last = true) :
  exists d,
    calculate_percentage (Some first) (Some last) = Ok d
    /\ is_nan d = false
    /\ fltb hundred d = false
    /\ fltb d (fopp hundred) = false.
Proof.
  assert (Hpos : forall r,
             le_result prec emax 7036874417766400 (-46) r ->
             is_nan r = false /\ fltb hundred r = false
             /\ fltb r (fopp hundred) = false
             /\ is_nan (fopp (fabs r)) = false
             /\ fltb hundred (fopp (fabs r)) = false
             /\ fltb (fopp (fabs r)) (fopp hundred) = false).
  { intros r [m [e [-> [Bm Hle]]]].
    assert (Bh : bounded prec emax 7036874417766400 (-46) = true)
      by reflexivity.
    pose proof (SFcompare_le prec emax binary64_prec m 7036874417766400
                  e (-46) Bm Bh Hle) as Hcmp.
    destruct (SFltb_le_false m 7036874417766400 e (-46) Hcmp) as [H1 H2].
    repeat split; assumption. }
  rewrite calculate_percentage_floats.
  destruct (float_trichotomy first last (is_price_not_nan _ Hfirst)
              (is_price_not_nan _ Hlast))
    as [[E [L G]] | [[E [L G]] | [E [L G]]]]; rewrite E, ?L, ?G.
  - exists zero. repeat split.
  - destruct (percent_of_difference last first Hlast Hfirst L)
      as [_ [_ [_ [_ Hnz]]]].
    rewrite Hnz. eexists. split; [reflexivity|].
    destruct (Hpos _ (percent_of_difference_le last first Hlast Hfirst L))
      as [H1 [H2 [H3 _]]].
    repeat split; assumption.
  - destruct (percent_of_difference first last Hfirst Hlast G)
      as [_ [_ [_ [_ Hnz]]]].
    rewrite Hnz. eexists. split; [reflexivity|].
    destruct (Hpos _ (percent_of_difference_le first last Hfirst Hlast G))
      as [_ [_ [_ [H1 [H2 H3]]]]].
    repeat split; assumption.
Qed.

Lemma calculate_percentage_within_hundred_witness :
  exists d,
    calculate_percentage price_50 price_100 = Ok d
    /\ is_nan d = false
    /\ fltb hundred d = false
    /\ fltb d (fopp hundred) = false.
Proof.
  exact (calculate_percentage_within_hundred (float_of_Z 50)
           (float_of_Z 100) eq_refl eq_refl).
Defined.
